(** * terraform-provider-pfsense-v2: a shallow embedding of the provider and
      of its REST client wrapper

    The development follows the two Go packages of the repository:
    - [pfsense_rest_v2] (internal/api): the authentication strategies, the
      request-editor decorators, [GetBaseConfig] and [GetFirewallRules];
    - [provider] (internal/provider): the resolution of the provider
      configuration ([ConfiguredURL], [ConfiguredAuth], [ConfiguredInsecure],
      [Configure]), the data source ([WANRules], [Read]) and the port
      validator ([ValidateString], [PortNumber]).

    Go strings are byte strings and are modelled by [string]; a Go [int] by
    [Z]; a pointer by [option] ([None] is the nil pointer); a slice by
    [slice], which keeps the difference between a nil and an empty slice.
    A function that may panic, or whose calls to the outside world matter,
    runs in the monad [Exec], which records a trace of events. *)

From Stdlib Require Import ZArith Zbitwise Ascii String List Bool Lia.
From stdpp Require Import base option list strings gmap.

Local Open Scope string_scope.
Local Open Scope list_scope.
Local Open Scope Z_scope.

(** ** Go values *)

(** The [error] interface, observed through its [Error()] text;
    [None] is the nil error. *)
Definition error : Type := option string.

Inductive slice (A : Type) : Type :=
| nil_slice
| slice_of (l : list A).
Arguments nil_slice {A}.
Arguments slice_of {A} l.

(** The elements a [range] loop visits. *)
Definition elems {A} (s : slice A) : list A :=
  match s with
  | nil_slice => []
  | slice_of l => l
  end.

Definition is_nil_slice {A} (s : slice A) : bool :=
  match s with
  | nil_slice => true
  | slice_of _ => false
  end.

(** The builtin [append(s, x)]: appending to a nil slice allocates. *)
Definition append {A} (s : slice A) (x : A) : slice A :=
  slice_of (elems s ++ [x]).

(** ** Executions: a trace of events, then a result or a panic *)

Inductive Run (A : Type) : Type :=
| Returns (a : A)
| Panics (reason : string).
Arguments Returns {A} a.
Arguments Panics {A} reason.

Definition Exec (E A : Type) : Type := list E * Run A.

Definition exec_ret {E A} (a : A) : Exec E A := ([], Returns a).

Definition exec_bind {E A B} (k : A -> Exec E B) (m : Exec E A) : Exec E B :=
  match m with
  | (t, Returns a) => let '(t', r) := k a in (t ++ t', r)
  | (t, Panics why) => (t, Panics why)
  end.

#[global] Instance Exec_ret {E} : MRet (Exec E) := @exec_ret E.
#[global] Instance Exec_bind {E} : MBind (Exec E) := @exec_bind E.
#[global] Arguments exec_bind {E A B} k m : simpl never.
#[local] Arguments mbind {_ _ _ _} _ _ : simpl never.
#[local] Arguments mret {_ _ _} _ : simpl never.

Definition emit {E} (e : E) : Exec E unit := ([e], Returns tt).
Definition panic {E A} (why : string) : Exec E A := ([], Panics why).

Definition nil_dereference : string :=
  "runtime error: invalid memory address or nil pointer dereference".

(** [*p], and every field access through a pointer. *)
Definition deref {E A} (p : option A) : Exec E A :=
  match p with
  | Some a => mret a
  | None => panic nil_dereference
  end.

Definition trace {E A} (m : Exec E A) : list E := fst m.
Definition outcome {E A} (m : Exec E A) : Run A := snd m.

(** The string of an [%s] or [%v] verb applied to a non-nil error. *)
Definition Error (err : error) : string := default "%!s(<nil>)" err.

(** ** Package strings *)

Module strings.

Definition is_upper (c : ascii) : bool :=
  let n := N_of_ascii c in ((65 <=? n) && (n <=? 90))%N.

Definition lower_byte (c : ascii) : ascii :=
  if is_upper c then ascii_of_N (N_of_ascii c + 32) else c.

(** [strings.ToLower] on the ASCII letters. No rune outside ASCII has a
    lower case among the letters of "false", the only string the result
    is compared with; the other bytes are kept. *)
Fixpoint ToLower (s : string) : string :=
  match s with
  | EmptyString => EmptyString
  | String c s' => String (lower_byte c) (ToLower s')
  end.

End strings.

(** ** Package os *)

Module os.

(** The process environment. [Getenv] gives the empty string for a
    variable that is not set. *)
Definition Getenv (env : gmap string string) (key : string) : string :=
  default "" (env !! key).

End os.

(** ** Package strconv *)

Module strconv.

Definition IntSize : Z := 64.

Definition is_digit (c : ascii) : bool :=
  let n := N_of_ascii c in ((48 <=? n) && (n <=? 57))%N.

Definition digit_value (c : ascii) : Z := Z.of_N (N_of_ascii c) - 48.

(** The digit loop: [n = n*10 + int(ch - '0')], a syntax error at the
    first byte that is not a digit. *)
Fixpoint digits_value (s : string) (n : Z) : option Z :=
  match s with
  | EmptyString => Some n
  | String c s' =>
      if is_digit c then digits_value s' (n * 10 + digit_value c) else None
  end.

Inductive NumErr := ErrSyntax | ErrRange.

Definition strip_sign (s : string) : bool * string :=
  match s with
  | String c s' =>
      if bool_decide (c = "-"%char) then (true, s')
      else if bool_decide (c = "+"%char) then (false, s')
      else (false, s)
  | EmptyString => (false, s)
  end.

(** [ParseInt(s, 10, 0)]: an optional sign, at least one decimal digit,
    nothing else, and a value that fits the [int] type. *)
Definition parse (s : string) : Z + NumErr :=
  let '(neg, body) := strip_sign s in
  match body with
  | EmptyString => inr ErrSyntax
  | _ =>
      match digits_value body 0 with
      | None => inr ErrSyntax
      | Some u =>
          let n := if neg then - u else u in
          if (- 2 ^ (IntSize - 1) <=? n) && (n <=? 2 ^ (IntSize - 1) - 1)
          then inl n else inr ErrRange
      end
  end.

(** [strconv.Quote], which only shapes the text of the error. *)
Class Quoter := Quote : string -> string.

Section Atoi.
Context `{Quoter}.

Definition NumError_Error (s : string) (e : NumErr) : string :=
  "strconv.Atoi: parsing " +:+ Quote s +:+
  match e with
  | ErrSyntax => ": invalid syntax"
  | ErrRange => ": value out of range"
  end.

(** On a range error Go returns the nearest bound; no caller here
    reads the value next to a non-nil error. *)
Definition Atoi (s : string) : Z * error :=
  match parse s with
  | inl n => (n, None)
  | inr ErrSyntax => (0, Some (NumError_Error s ErrSyntax))
  | inr ErrRange =>
      ((if fst (strip_sign s) then - 2 ^ (IntSize - 1)
        else 2 ^ (IntSize - 1) - 1),
       Some (NumError_Error s ErrRange))
  end.
End Atoi.

End strconv.

(** ** Package regexp, for the one expression the validator compiles *)

Module regexp.

Definition all_digits (s : string) : bool :=
  forallb strconv.is_digit (list_ascii_of_string s).

(** The longest prefix of digits, and what follows it. *)
Fixpoint span_digits (s : string) : string * string :=
  match s with
  | EmptyString => (EmptyString, EmptyString)
  | String c s' =>
      if strconv.is_digit c
      then let '(d, rest) := span_digits s' in (String c d, rest)
      else (EmptyString, s)
  end.

(** [regexp.MustCompile(`^(\d+):(\d+)$`).FindStringSubmatch(val)]: nil, or
    the whole match and the two groups. [\d] is an ASCII digit and, without
    the multi-line flag, [$] is the end of the text. *)
Definition portRangeRe_FindStringSubmatch (val : string)
  : option (string * string * string) :=
  let '(a, rest) := span_digits val in
  match rest with
  | String c b =>
      if bool_decide (c = ":"%char) && bool_decide (a ≠ "") &&
         bool_decide (b ≠ "") && all_digits b
      then Some (val, a, b) else None
  | EmptyString => None
  end.

End regexp.

(** ** Package encoding/base64 *)

Module base64.

Definition encodeStd : string :=
  "ABCDEFGHIJKLMNOPQRSTUVWXYZabcdefghijklmnopqrstuvwxyz0123456789+/".

Definition StdPadding : ascii := "="%char.

Definition uint (c : ascii) : Z := Z.of_N (N_of_ascii c).

(** [enc.encode[val>>shift&0x3F]] *)
Definition encode_at (val shift : Z) : ascii :=
  default "A"%char
    (String.get (Z.to_nat (Z.land (Z.shiftr val shift) 63)) encodeStd).

(** [StdEncoding.EncodeToString]: three source bytes give four letters;
    a last block of one or two bytes is padded. *)
Fixpoint EncodeToString (src : string) : string :=
  match src with
  | EmptyString => EmptyString
  | String b0 EmptyString =>
      let val := Z.shiftl (uint b0) 16 in
      String (encode_at val 18) (String (encode_at val 12)
        (String StdPadding (String StdPadding EmptyString)))
  | String b0 (String b1 EmptyString) =>
      let val := Z.lor (Z.shiftl (uint b0) 16) (Z.shiftl (uint b1) 8) in
      String (encode_at val 18) (String (encode_at val 12)
        (String (encode_at val 6) (String StdPadding EmptyString)))
  | String b0 (String b1 (String b2 rest)) =>
      let val :=
        Z.lor (Z.lor (Z.shiftl (uint b0) 16) (Z.shiftl (uint b1) 8)) (uint b2) in
      String (encode_at val 18) (String (encode_at val 12)
        (String (encode_at val 6) (String (encode_at val 0)
          (EncodeToString rest))))
  end.

End base64.

(** ** Packages net/textproto and net/http: the header map *)

Module textproto.

Definition is_lower (c : ascii) : bool :=
  let n := N_of_ascii c in ((97 <=? n) && (n <=? 122))%N.

(** A byte of an RFC 7230 token. *)
Definition validHeaderFieldByte (c : ascii) : bool :=
  strconv.is_digit c || strings.is_upper c || is_lower c ||
  bool_decide (c ∈ list_ascii_of_string "!#$%&'*+-.^_`|~").

(** Upper case for the first letter and after each dash, lower case for
    the other letters. *)
Fixpoint canonicalize (upper : bool) (a : string) : string :=
  match a with
  | EmptyString => EmptyString
  | String c a' =>
      let c' :=
        if upper && is_lower c then ascii_of_N (N_of_ascii c - 32)
        else if negb upper && strings.is_upper c
             then ascii_of_N (N_of_ascii c + 32)
             else c in
      String c' (canonicalize (bool_decide (c' = "-"%char)) a')
  end.

(** A key holding a byte that is no token byte is left as it is. *)
Definition CanonicalMIMEHeaderKey (s : string) : string :=
  if forallb validHeaderFieldByte (list_ascii_of_string s)
  then canonicalize true s else s.

End textproto.

Module http.

(** [http.Header], a [map[string][]string]. *)
Abbreviation Header := (gmap string (list string)).

Definition Values (h : Header) (key : string) : list string :=
  default [] (h !! textproto.CanonicalMIMEHeaderKey key).

(** [h.Add(key, value)] appends to the values of the canonical key. *)
Definition Add (h : Header) (key value : string) : Header :=
  let k := textproto.CanonicalMIMEHeaderKey key in
  <[k := default [] (h !! k) ++ [value]]> h.

Record Request := {
  Method : string;
  URL : string;
  Header_ : Header;
}.

Definition Request_Header_Add (req : Request) (key value : string) : Request :=
  {| Method := Method req; URL := URL req;
     Header_ := Add (Header_ req) key value |}.

(** [h.Del(key)] deletes the values of the canonical key. *)
Definition Del (h : Header) (key : string) : Header :=
  delete (textproto.CanonicalMIMEHeaderKey key) h.

Definition Request_Header_Del (req : Request) (key : string) : Request :=
  {| Method := Method req; URL := URL req;
     Header_ := Del (Header_ req) key |}.

End http.

(** ** The plugin framework: attribute values and diagnostics *)

Module types.

(** [types.String]: null, unknown, or a known value. *)
Inductive String :=
| StringNull
| StringUnknown
| StringValue (value : string).

Inductive Bool :=
| BoolNull
| BoolUnknown
| BoolValue (value : bool).

Definition String_IsNull (s : String) : bool :=
  match s with StringNull => true | _ => false end.

Definition String_IsUnknown (s : String) : bool :=
  match s with StringUnknown => true | _ => false end.

(** The known value, or the empty string for null and unknown. *)
Definition ValueString (s : String) : string :=
  match s with StringValue v => v | _ => "" end.

Definition Bool_IsNull (b : Bool) : bool :=
  match b with BoolNull => true | _ => false end.

Definition Bool_IsUnknown (b : Bool) : bool :=
  match b with BoolUnknown => true | _ => false end.

Definition ValueBool (b : Bool) : bool :=
  match b with BoolValue v => v | _ => false end.

#[global] Instance String_eq_dec : EqDecision String.
Proof. solve_decision. Defined.

#[global] Instance Bool_eq_dec : EqDecision Bool.
Proof. solve_decision. Defined.

End types.

Module diag.

Inductive Severity := SeverityError | SeverityWarning.

(** A diagnostic; [Path] is the attribute path of an attribute
    diagnostic ([path.Root(name)]). *)
Record Diagnostic := {
  Severity_ : Severity;
  Path : option string;
  Summary : string;
  Detail : string;
}.

Abbreviation Diagnostics := (list Diagnostic).

#[global] Instance Severity_eq_dec : EqDecision Severity.
Proof. solve_decision. Defined.

#[global] Instance Diagnostic_eq_dec : EqDecision Diagnostic.
Proof. solve_decision. Defined.

Definition NewErrorDiagnostic (summary detail : string) : Diagnostic :=
  {| Severity_ := SeverityError; Path := None;
     Summary := summary; Detail := detail |}.

Definition NewAttributeErrorDiagnostic (path summary detail : string)
  : Diagnostic :=
  {| Severity_ := SeverityError; Path := Some path;
     Summary := summary; Detail := detail |}.

Definition Contains (diags : Diagnostics) (d : Diagnostic) : bool :=
  bool_decide (d ∈ diags).

(** [diags.Append(in...)] skips a diagnostic that is already there. *)
Definition Append (diags : Diagnostics) (ins : Diagnostics) : Diagnostics :=
  fold_left (fun acc d => if Contains acc d then acc else acc ++ [d]) ins diags.

Definition AddError (diags : Diagnostics) (summary detail : string)
  : Diagnostics :=
  Append diags [NewErrorDiagnostic summary detail].

Definition AddAttributeError (diags : Diagnostics) (path summary detail : string)
  : Diagnostics :=
  Append diags [NewAttributeErrorDiagnostic path summary detail].

Definition is_error (d : Diagnostic) : bool :=
  match Severity_ d with SeverityError => true | SeverityWarning => false end.

Definition HasError (diags : Diagnostics) : bool := existsb is_error diags.

End diag.

(** ** The generated REST client

    Modelled from the spec: the REST client generated from the device's
    OpenAPI document (its types, its constructor and the two endpoint
    methods) is not among the source files. Its types are declared with
    the fields the wrapper reads, every one of them behind a pointer as
    the wrapper dereferences it; the constructor, the endpoint calls
    (whose answers come from the device) and the [%v] rendering of a
    response are the members of the class [Generated], over which the
    wrapper and the provider are parameterised. *)

Module generated.

(** Modelled from the spec: a header decorator, run on every request. *)
Definition RequestEditorFn : Type := http.Request -> http.Request * error.

(** Modelled from the spec: the generated client, with its server and
    the decorators registered so far. *)
Record Client := {
  Server : string;
  RequestEditors : list RequestEditorFn;
}.

(** Modelled from the spec: an option of the constructor. *)
Definition ClientOption : Type := Client -> Client * error.

(** Modelled from the spec: the client whose methods decode the answers. *)
Record ClientWithResponses := {
  ClientInterface : Client;
}.

(** Modelled from the spec: the payload of the hostname endpoint. *)
Record SystemHostname := {
  Hostname : option string;
  Domain : option string;
}.

(** Modelled from the spec: the decoded JSON 200 body of the hostname
    endpoint. *)
Record SystemHostnameJSON200 := {
  Hostname_Data : option SystemHostname;
}.

(** Modelled from the spec: the answer of the hostname endpoint; the
    JSON 200 body is nil unless the answer was a 200 with a JSON body. *)
Record GetSystemHostnameEndpointResponse := {
  Hostname_Body : string;
  Hostname_JSON200 : option SystemHostnameJSON200;
}.

(** Modelled from the spec: a firewall rule record of the payload. *)
Record FirewallRule := {
  Type_ : option string;
  Interface : option (slice string);
  Disabled : option bool;
  Ipprotocol : option string;
  Log : option bool;
  Descr : option string;
  Protocol : option string;
  Source : option string;
  SourcePort : option string;
  Destination : option string;
  DestinationPort : option string;
}.

(** Modelled from the spec: the decoded JSON 200 body of the firewall
    rules endpoint. *)
Record FirewallRulesJSON200 := {
  Rules_Data : option (slice FirewallRule);
}.

(** Modelled from the spec: the answer of the firewall rules endpoint. *)
Record GetFirewallRulesEndpointResponse := {
  Rules_Body : string;
  Rules_JSON200 : option FirewallRulesJSON200;
}.

(** Modelled from the spec: the query parameters of the firewall rules
    endpoint. *)
Record GetFirewallRulesEndpointParams := {
  Limit : option Z;
}.

(** Modelled from the spec: how the generated client decorates a request
    before it sends it: the registered editors run in the order of their
    registration, up to the first one that returns an error. *)
Fixpoint applyEditors (editors : list RequestEditorFn) (req : http.Request)
  : http.Request * error :=
  match editors with
  | [] => (req, None)
  | r :: rest =>
      match r req with
      | (req', None) => applyEditors rest req'
      | (req', Some err) => (req', Some err)
      end
  end.

(** The generated functions and the device behind them. An endpoint
    method returns a non-nil error ([inr], with its text) or a non-nil
    response ([inl]), never both and never neither. *)
Class Generated := {
  NewClientWithResponses :
    string -> list ClientOption -> option ClientWithResponses * error;
  GetSystemHostnameEndpointWithResponse :
    ClientWithResponses -> GetSystemHostnameEndpointResponse + string;
  GetFirewallRulesEndpointWithResponse :
    ClientWithResponses -> option GetFirewallRulesEndpointParams ->
    GetFirewallRulesEndpointResponse + string;
  Sprint_hostname_response : GetSystemHostnameEndpointResponse -> string;
  Sprint_rules_response : GetFirewallRulesEndpointResponse -> string;
}.

End generated.

(** ** Package pfsense_rest_v2 (internal/api) *)

Module pfsense_rest_v2.
Import generated.

Record BasicAuth := {
  Username : string;
  Password : string;
}.

Record APIKeyAuth := {
  APIToken : string;
}.

(** The values of the [Authorization] interface: a pointer to one of the
    two structs. The nil interface is [None] at type [option Authorization]. *)
Inductive Authorization :=
| AuthBasic (auth : BasicAuth)
| AuthAPIKey (auth : APIKeyAuth).

Record PFSenseClientV2 := {
  url : string;
  apiClient : option ClientWithResponses;
}.

Record PFSenseBaseConfig := {
  Hostname : string;
  Domain : string;
}.

Record PFSenseFirewallRule := {
  Type_ : string;
  Interfaces : slice string;
  Disabled : bool;
  AddressFamily : string;
  Log : bool;
  Description : string;
  Protocol : string;
  Source : string;
  SourcePort : string;
  Destination : string;
  DestinationPort : string;
}.

(** What the wrapper asks of the outside world. *)
Inductive Event :=
| NewClientCall (server : string)
| HostnameEndpointCall
| FirewallRulesEndpointCall (limit : option Z).

Definition AddHeader (client : Client) (header value : string) : Client :=
  {| Server := Server client;
     RequestEditors := RequestEditors client ++
       [fun req => (http.Request_Header_Add req header value, None)] |}.

Definition RemoveHeader (client : Client) (header : string) : Client :=
  {| Server := Server client;
     RequestEditors := RequestEditors client ++
       [fun req => (http.Request_Header_Del req header, None)] |}.

Definition WithContentTypeJSON : ClientOption :=
  fun client =>
    ({| Server := Server client;
        RequestEditors := RequestEditors client ++
          [fun req =>
             (http.Request_Header_Add req "Content-Type" "application/json",
              None)] |},
     None).

Definition APIKeyAuth_ClientOption (auth : APIKeyAuth) : ClientOption :=
  fun client => (AddHeader client "X-API-Key" (APIToken auth), None).

Definition BasicAuth_ClientOption (auth : BasicAuth) : ClientOption :=
  let basicToken :=
    base64.EncodeToString (Username auth +:+ ":" +:+ Password auth) in
  fun client => (AddHeader client "Authorization" ("Basic " +:+ basicToken), None).

(** The method call [auth.ClientOption()] on an interface value. *)
Definition Authorization_ClientOption (auth : Authorization) : ClientOption :=
  match auth with
  | AuthBasic a => BasicAuth_ClientOption a
  | AuthAPIKey a => APIKeyAuth_ClientOption a
  end.

Section Client.
Context `{Generated}.

Definition NewPFSenseClientV2
  (url : string) (auth : option Authorization) (insecure : bool)
  : Exec Event (option PFSenseClientV2 * error) :=
  a ← deref auth;
  _ ← emit (NewClientCall url);
  let '(apiClient, err) :=
    NewClientWithResponses url
      [Authorization_ClientOption a; WithContentTypeJSON] in
  match err with
  | Some _ => mret (None, err)
  | None => mret (Some {| url := url; apiClient := apiClient |}, None)
  end.

Definition GetBaseConfig (c : option PFSenseClientV2)
  : Exec Event (option PFSenseBaseConfig * error) :=
  c ← deref c;
  api ← deref (apiClient c);
  _ ← emit HostnameEndpointCall;
  match GetSystemHostnameEndpointWithResponse api with
  | inr err => mret (None, Some err)
  | inl response =>
      match Hostname_JSON200 response with
      | None =>
          mret (None,
                Some ("unexpected response retrieving base config: " +:+
                      Sprint_hostname_response response))
      | Some json200 =>
          data ← deref (Hostname_Data json200);
          hostname ← deref (generated.Hostname data);
          domain ← deref (generated.Domain data);
          mret (Some {| Hostname := hostname; Domain := domain |}, None)
      end
  end.

(** One turn of the loop of [GetFirewallRules]: the composite literal
    dereferences the fields in the order it lists them. *)
Definition convertRule (r : FirewallRule) : Exec Event PFSenseFirewallRule :=
  type ← deref (generated.Type_ r);
  interfaces ← deref (Interface r);
  disabled ← deref (generated.Disabled r);
  ipprotocol ← deref (Ipprotocol r);
  log ← deref (generated.Log r);
  descr ← deref (Descr r);
  protocol ← deref (generated.Protocol r);
  source ← deref (generated.Source r);
  sourcePort ← deref (generated.SourcePort r);
  destination ← deref (generated.Destination r);
  destinationPort ← deref (generated.DestinationPort r);
  mret {| Type_ := type;
          Interfaces := interfaces;
          Disabled := disabled;
          AddressFamily := ipprotocol;
          Log := log;
          Description := descr;
          Protocol := protocol;
          Source := source;
          SourcePort := sourcePort;
          Destination := destination;
          DestinationPort := destinationPort |}.

(** [for _, r := range *rulesJSON { rules = append(rules, &...) }] *)
Fixpoint convertRules
  (rulesJSON : list FirewallRule) (rules : slice (option PFSenseFirewallRule))
  : Exec Event (slice (option PFSenseFirewallRule)) :=
  match rulesJSON with
  | [] => mret rules
  | r :: rest =>
      rule ← convertRule r;
      convertRules rest (append rules (Some rule))
  end.

Definition GetFirewallRules (c : option PFSenseClientV2)
  : Exec Event (slice (option PFSenseFirewallRule) * error) :=
  c ← deref c;
  api ← deref (apiClient c);
  let limit := 0 in
  _ ← emit (FirewallRulesEndpointCall (Some limit));
  match
    GetFirewallRulesEndpointWithResponse api (Some {| Limit := Some limit |})
  with
  | inr err => mret (nil_slice, Some err)
  | inl response =>
      match Rules_JSON200 response with
      | None =>
          mret (nil_slice,
                Some ("unexpected response retrieving firewall rules: " +:+
                      Sprint_rules_response response))
      | Some json200 =>
          let rulesJSON := Rules_Data json200 in
          let rules := slice_of [] in
          rulesJSON ← deref rulesJSON;
          rules ← convertRules (elems rulesJSON) rules;
          mret (rules, None)
      end
  end.

End Client.

End pfsense_rest_v2.

(** ** Package provider (internal/provider) *)

Module provider.

(** *** provider.go *)

Record ScaffoldingProviderModel := {
  URL : types.String;
  Insecure : types.Bool;
  APIClientUsername : types.String;
  APIClientPassword : types.String;
  APIClientToken : types.String;
}.

(** [req.Config.Get(ctx, &config)] gives the decoded model and its
    diagnostics. *)
Record ConfigureRequest := {
  Config_Get : ScaffoldingProviderModel * diag.Diagnostics;
}.

Record ConfigureResponse := {
  Diagnostics : diag.Diagnostics;
  DataSourceData : option pfsense_rest_v2.PFSenseClientV2;
  ResourceData : option pfsense_rest_v2.PFSenseClientV2;
}.

Definition with_Diagnostics (resp : ConfigureResponse) (diags : diag.Diagnostics)
  : ConfigureResponse :=
  {| Diagnostics := diags;
     DataSourceData := DataSourceData resp;
     ResourceData := ResourceData resp |}.

Definition AddError (resp : ConfigureResponse) (summary detail : string) :=
  with_Diagnostics resp (diag.AddError (Diagnostics resp) summary detail).

Definition AddAttributeError
  (resp : ConfigureResponse) (path summary detail : string) :=
  with_Diagnostics resp
    (diag.AddAttributeError (Diagnostics resp) path summary detail).

Section Configure.
(** The environment of the process. *)
Variable env : gmap string string.

Definition ConfiguredURL_title : string := "Unknown PFSenseV2 URL".
Definition ConfiguredURL_detail : string :=
  "The provider cannot create the API client as the URL has an Unknown value. " +:+
  "Either target apply the source of the value first, set the value statically " +:+
  "in the configuration, or use the PFSENSEV2_URL environment variable.".

Definition ConfiguredURL
  (config : ScaffoldingProviderModel) (resp : ConfigureResponse)
  : ConfigureResponse * string :=
  let title := ConfiguredURL_title in
  let detail := ConfiguredURL_detail in
  let resp :=
    if types.String_IsUnknown (URL config)
    then AddAttributeError resp "url" title detail else resp in
  let url := os.Getenv env "PFSENSEV2_URL" in
  let url :=
    if negb (types.String_IsNull (URL config))
    then types.ValueString (URL config) else url in
  let resp :=
    if bool_decide (url = "")
    then AddAttributeError resp "url" title detail else resp in
  (resp, url).

Definition ConfiguredAuth_title : string :=
  "No valid PFSenseV2 authentication configured".
Definition ConfiguredAuth_detail : string :=
  "One of api_client_username/api_client_password or api_client_token must be set in the provider " +:+
  "configuration (either with target apply or statically inthe config) or via environment variables " +:+
  "PFSENSEV2_API_USERNAME, PFSENSEV2_API_PASSWORD, PFSENSE_API_TOKEN.".
Definition ConfiguredAuth_only_one : string :=
  "Only one of api_client_username/api_client_password or api_client_token can be set for authentication.".

Definition ConfiguredAuth
  (config : ScaffoldingProviderModel) (resp : ConfigureResponse)
  : ConfigureResponse * option pfsense_rest_v2.Authorization :=
  let title := ConfiguredAuth_title in
  let detail := ConfiguredAuth_detail in
  if types.String_IsUnknown (APIClientUsername config) &&
     types.String_IsUnknown (APIClientPassword config) &&
     types.String_IsUnknown (APIClientToken config)
  then (AddError resp title detail, None)
  else
    let username := os.Getenv env "PFSENSEV2_API_USERNAME" in
    let password := os.Getenv env "PFSENSEV2_API_PASSWORD" in
    let token := os.Getenv env "PFSENSEV2_API_TOKEN" in
    let username :=
      if negb (types.String_IsNull (APIClientUsername config))
      then types.ValueString (APIClientUsername config) else username in
    let password :=
      if negb (types.String_IsNull (APIClientPassword config))
      then types.ValueString (APIClientPassword config) else password in
    let token :=
      if negb (types.String_IsNull (APIClientToken config))
      then types.ValueString (APIClientToken config) else token in
    if bool_decide (username ≠ "") && bool_decide (password ≠ "") &&
       bool_decide (token = "")
    then (AddError resp title ConfiguredAuth_only_one, None)
    else if bool_decide (username ≠ "") && bool_decide (password ≠ "")
    then (resp,
          Some (pfsense_rest_v2.AuthBasic
                  {| pfsense_rest_v2.Username := username;
                     pfsense_rest_v2.Password := password |}))
    else if bool_decide (token ≠ "")
    then (resp,
          Some (pfsense_rest_v2.AuthAPIKey
                  {| pfsense_rest_v2.APIToken := token |}))
    else (AddError resp title detail, None).

Definition ConfiguredInsecure_title : string := "Unknown PFSenseV2 Insecure Flag".
Definition ConfiguredInsecure_detail : string :=
  "The provider cannot create the API client as there is an unknown Insecure flag provided. " +:+
  "Please check the configuration value or use the PFSENSEV2_INSECURE environment variable.".

Definition ConfiguredInsecure
  (config : ScaffoldingProviderModel) (resp : ConfigureResponse)
  : ConfigureResponse * bool :=
  let title := ConfiguredInsecure_title in
  let detail := ConfiguredInsecure_detail in
  let resp :=
    if types.Bool_IsUnknown (Insecure config)
    then AddAttributeError resp "insecure" title detail else resp in
  let insecure := false in
  let insecure :=
    if (0 <? Z.of_nat (String.length (os.Getenv env "PFSENSEV2_INSECURE"))) &&
       bool_decide (strings.ToLower (os.Getenv env "PFSENSEV2_INSECURE") ≠ "false")
    then true else insecure in
  let insecure :=
    if negb (types.Bool_IsNull (Insecure config))
    then types.ValueBool (Insecure config) else insecure in
  (resp, insecure).

Context `{generated.Generated}.

Definition Configure (req : ConfigureRequest) (resp : ConfigureResponse)
  : Exec pfsense_rest_v2.Event ConfigureResponse :=
  let '(config, diags) := Config_Get req in
  let resp := with_Diagnostics resp (diag.Append (Diagnostics resp) diags) in
  if diag.HasError (Diagnostics resp) then mret resp
  else
    let '(resp, url) := ConfiguredURL config resp in
    let '(resp, auth) := ConfiguredAuth config resp in
    let '(resp, insecure) := ConfiguredInsecure config resp in
    if diag.HasError (Diagnostics resp) then mret resp
    else
      '(client, err) ← pfsense_rest_v2.NewPFSenseClientV2 url auth insecure;
      match err with
      | Some _ =>
          mret (AddError resp
                  "Unable to Create PFSenseV2 API Client"
                  ("An unexpected error occurred when creating the PFSenseV2 API client. " +:+
                   Error err))
      | None =>
          mret {| Diagnostics := Diagnostics resp;
                  DataSourceData := client;
                  ResourceData := client |}
      end.

End Configure.

(** *** port_range_or_null_validator.go *)

Record StringRequest := {
  ConfigValue : types.String;
  Path : string;
}.

Record StringResponse := {
  Validate_Diagnostics : diag.Diagnostics;
}.

Section Validator.
Context `{strconv.Quoter}.

Definition PortNumber (val : string) : Z * error :=
  let '(n, err) := strconv.Atoi val in
  if bool_decide (err ≠ None) || (n <? 1) || (n >? 65535)
  then (0, Some "value must `null` or a number between 1 and 65535")
  else (n, None).

Definition invalid_port_in_range (path port : string) : diag.Diagnostic :=
  diag.NewAttributeErrorDiagnostic path
    ("Invalid port number in range: " +:+ port)
    "Value must be a number between 1 and 65535.".

Definition ValidateString (req : StringRequest) (resp : StringResponse)
  : StringResponse :=
  let val := types.ValueString (ConfigValue req) in
  if bool_decide (val = "null") then resp
  else
    match regexp.portRangeRe_FindStringSubmatch val with
    | Some (_, m1, m2) =>
        let '(_, err) := PortNumber m1 in
        if bool_decide (err ≠ None)
        then {| Validate_Diagnostics :=
                  diag.Append (Validate_Diagnostics resp)
                    [invalid_port_in_range (Path req) m1] |}
        else
          let '(_, err) := PortNumber m2 in
          if bool_decide (err ≠ None)
          then {| Validate_Diagnostics :=
                    diag.Append (Validate_Diagnostics resp)
                      [invalid_port_in_range (Path req) m2] |}
          else resp
    | None =>
        let '(_, err) := strconv.Atoi val in
        if bool_decide (err ≠ None)
        then {| Validate_Diagnostics :=
                  diag.Append (Validate_Diagnostics resp)
                    [diag.NewAttributeErrorDiagnostic (Path req)
                       "Invalid port value" (Error err)] |}
        else resp
    end.

End Validator.

(** *** data_source.go *)

Record PFSenseFirewallRule := {
  Type_ : types.String;
  Interfaces : slice types.String;
  Disabled : types.Bool;
  AddressFamily : types.String;
  Log : types.Bool;
  Description : types.String;
  Protocol : types.String;
  Source : types.String;
  SourcePort : types.String;
  Destination : types.String;
  DestinationPort : types.String;
}.

(** [type PFSenseFirewallRules []*PFSenseFirewallRule] *)
Abbreviation PFSenseFirewallRules := (slice (option PFSenseFirewallRule)).

Record PFSenseModel := {
  Hostname : types.String;
  FirewallRules : PFSenseFirewallRules;
}.

Record PFSenseDataSource := {
  client : option pfsense_rest_v2.PFSenseClientV2;
}.

(** [slices.Contains], with [==] on the attribute values. *)
Definition slices_Contains (s : slice types.String) (v : types.String) : bool :=
  existsb (fun x => bool_decide (x = v)) (elems s).

(** The loop of [WANRules], from the rules still to visit and the
    result so far. *)
Fixpoint WANRules_loop {E}
  (rules : list (option PFSenseFirewallRule)) (wanRules : slice PFSenseFirewallRule)
  : Exec E (slice PFSenseFirewallRule) :=
  match rules with
  | [] => mret wanRules
  | rule :: rest =>
      r ← deref rule;
      if slices_Contains (Interfaces r) (types.StringValue "wan")
      then WANRules_loop rest (append wanRules r)
      else WANRules_loop rest wanRules
  end.

Definition WANRules {E} (rules : PFSenseFirewallRules)
  : Exec E (slice PFSenseFirewallRule) :=
  WANRules_loop (elems rules) nil_slice.

Record ReadRequest := {
  Read_Config_Get : PFSenseModel * diag.Diagnostics;
}.

(** [resp.State.Set(ctx, &data)] belongs to the framework: it gives the
    new state and the diagnostics of the conversion. *)
Class Framework := {
  State : Type;
  State_Set : State -> PFSenseModel -> State * diag.Diagnostics;
}.

Inductive Event :=
| Api (e : pfsense_rest_v2.Event)
| StateSet (data : PFSenseModel).

Definition api {A} (m : Exec pfsense_rest_v2.Event A) : Exec Event A :=
  (map Api (fst m), snd m).

Section Read.
Context `{generated.Generated} `{Framework}.

Record ReadResponse := {
  Read_Diagnostics : diag.Diagnostics;
  Read_State : State;
}.

Definition Read_AddError (resp : ReadResponse) (summary detail : string) :=
  {| Read_Diagnostics := diag.AddError (Read_Diagnostics resp) summary detail;
     Read_State := Read_State resp |}.

(** The inner loop of [Read]: [ifaces = append(ifaces, types.StringValue(iface))]. *)
Definition Read_ifaces (interfaces : slice string) : slice types.String :=
  fold_left (fun ifaces iface => append ifaces (types.StringValue iface))
    (elems interfaces) nil_slice.

(** The rule [Read] makes of a rule of the client: every field wrapped
    into a known value. *)
Definition Read_rule (r : pfsense_rest_v2.PFSenseFirewallRule)
  : PFSenseFirewallRule :=
  let ifaces := Read_ifaces (pfsense_rest_v2.Interfaces r) in
  {| Type_ := types.StringValue (pfsense_rest_v2.Type_ r);
     Interfaces := ifaces;
     Disabled := types.BoolValue (pfsense_rest_v2.Disabled r);
     AddressFamily := types.StringValue (pfsense_rest_v2.AddressFamily r);
     Log := types.BoolValue (pfsense_rest_v2.Log r);
     Description := types.StringValue (pfsense_rest_v2.Description r);
     Protocol := types.StringValue (pfsense_rest_v2.Protocol r);
     Source := types.StringValue (pfsense_rest_v2.Source r);
     SourcePort := types.StringValue (pfsense_rest_v2.SourcePort r);
     Destination := types.StringValue (pfsense_rest_v2.Destination r);
     DestinationPort := types.StringValue (pfsense_rest_v2.DestinationPort r) |}.

(** The outer loop of [Read] over the rules the client returned. *)
Fixpoint Read_rules
  (firewallRulesResponse : list (option pfsense_rest_v2.PFSenseFirewallRule))
  (firewallRules : PFSenseFirewallRules) : Exec Event PFSenseFirewallRules :=
  match firewallRulesResponse with
  | [] => mret firewallRules
  | r :: rest =>
      r ← deref r;
      Read_rules rest (append firewallRules (Some (Read_rule r)))
  end.

(** [Read]. Neither error branch returns. The call of [tflog.Trace]
    writes a log line and is left out. *)
Definition Read (d : PFSenseDataSource) (req : ReadRequest) (resp : ReadResponse)
  : Exec Event ReadResponse :=
  let '(data, diags) := Read_Config_Get req in
  let resp :=
    {| Read_Diagnostics := diag.Append (Read_Diagnostics resp) diags;
       Read_State := Read_State resp |} in
  if diag.HasError (Read_Diagnostics resp) then mret resp
  else
    '(baseConfig, err) ← api (pfsense_rest_v2.GetBaseConfig (client d));
    let resp :=
      if bool_decide (err ≠ None)
      then Read_AddError resp "Client Error"
             ("Unable to read base config, got error: " +:+ Error err)
      else resp in
    '(firewallRulesResponse, err) ←
      api (pfsense_rest_v2.GetFirewallRules (client d));
    let resp :=
      if bool_decide (err ≠ None)
      then Read_AddError resp "Client Error"
             ("Unable to read firewall rules, got error: " +:+ Error err)
      else resp in
    firewallRules ← Read_rules (elems firewallRulesResponse) nil_slice;
    baseConfig ← deref baseConfig;
    let data :=
      {| Hostname := types.StringValue (pfsense_rest_v2.Hostname baseConfig);
         FirewallRules := firewallRules |} in
    _ ← emit (StateSet data);
    let '(state, diags) := State_Set (Read_State resp) data in
    mret {| Read_Diagnostics := diag.Append (Read_Diagnostics resp) diags;
            Read_State := state |}.

End Read.

(** *** data_source.go: Configure *)

(** [req.ProviderData], a value of type [any]: nil, a pointer to a client
    (which may itself be nil), or a value of another type, of which only
    the name that [%T] prints matters. *)
Inductive ProviderData :=
| ProviderData_nil
| ProviderData_client (c : option pfsense_rest_v2.PFSenseClientV2)
| ProviderData_other (type_name : string).

Record DataSourceConfigureRequest := {
  ProviderData_ : ProviderData;
}.

Record DataSourceConfigureResponse := {
  DataSource_Diagnostics : diag.Diagnostics;
}.

(** The method [Configure] of the data source, which may set [d.client]. *)
Definition PFSenseDataSource_Configure
  (d : PFSenseDataSource) (req : DataSourceConfigureRequest)
  (resp : DataSourceConfigureResponse)
  : PFSenseDataSource * DataSourceConfigureResponse :=
  match ProviderData_ req with
  | ProviderData_nil => (d, resp)
  | ProviderData_client client => ({| client := client |}, resp)
  | ProviderData_other type_name =>
      (d,
       {| DataSource_Diagnostics :=
            diag.AddError (DataSource_Diagnostics resp)
              "Unexpected Data Source Configure Type"
              ("Expected *pfsense_rest_v2.PFSenseClientV2, got: " +:+ type_name +:+
               ". Please report this issue to the provider developers.") |})
  end.

(** The framework hands the [DataSourceData] of the provider to the data
    source as its [ProviderData]. *)
Definition ProviderData_of (data : option pfsense_rest_v2.PFSenseClientV2)
  : ProviderData :=
  match data with
  | None => ProviderData_nil
  | Some c => ProviderData_client (Some c)
  end.

End provider.

(** ** provider.go under internal/provider

    The file as it stands under that path: four attributes, the checks
    written out in [Configure], and [http.DefaultClient] as the data of the
    data sources and resources; it makes no call to the device. *)

Module provider_scaffold.

Record ScaffoldingProviderModel := {
  URL : types.String;
  Insecure : types.Bool;
  APIClientUsername : types.String;
  APIClientToken : types.String;
}.

Record ConfigureRequest := {
  Config_Get : ScaffoldingProviderModel * diag.Diagnostics;
}.

(** [DataSourceData] and [ResourceData] are of type [any]. *)
Record ConfigureResponse := {
  Diagnostics : diag.Diagnostics;
  DataSourceData : provider.ProviderData;
  ResourceData : provider.ProviderData;
}.

Definition with_Diagnostics (resp : ConfigureResponse) (diags : diag.Diagnostics)
  : ConfigureResponse :=
  {| Diagnostics := diags;
     DataSourceData := DataSourceData resp;
     ResourceData := ResourceData resp |}.

Definition AddAttributeError
  (resp : ConfigureResponse) (path summary detail : string) :=
  with_Diagnostics resp
    (diag.AddAttributeError (Diagnostics resp) path summary detail).

(** [http.DefaultClient], a [*http.Client]: a value of type [any] that is
    no client of the device. *)
Definition http_DefaultClient : provider.ProviderData :=
  provider.ProviderData_other "*http.Client".

Definition unknown_url_detail : string :=
  "The provider cannot create the API client as there is no URL provided. " +:+
  "Either target apply the source of the value first, set the value statically " +:+
  "in the configuration, or use the PFSENSEV2_URL environment variable.".

Definition unknown_username_detail : string :=
  "The provider cannot create the API client as there is no API client username provided. " +:+
  "Either target apply the source of the value first, set the value statically " +:+
  "in the configuration, or use the PFSENSEV2_API_USERNAME environment variable.".

Definition unknown_token_detail : string :=
  "The provider cannot create the API client as there is no API client token provided. " +:+
  "Either target apply the source of the value first, set the value statically " +:+
  "in the configuration, or use the PFSENSEV2_API_TOKEN environment variable.".

Definition unknown_insecure_detail : string :=
  "The provider cannot create the API client as there is an unknown Insecure flag provided. " +:+
  "Please check the configuration value or use the PFSENSEV2_INSECURE environment variable.".

Definition missing_url_detail : string :=
  "The provider cannot create the API client as there is no URL provided. " +:+
  "Set the URL in the configuration or use the PFSENSEV2_URL environment variable.".

Definition missing_username_detail : string :=
  "The provider cannot create the API client as there is no API client username provided. " +:+
  "Set the API client username in the configuration or use the PFSENSEV2_API_USERNAME environment variable.".

Definition missing_token_detail : string :=
  "The provider cannot create the API client as there is no API client token provided. " +:+
  "Set the API client token in the configuration or use the PFSENSEV2_API_TOKEN environment variable.".

Section Configure.
(** The environment of the process. *)
Variable env : gmap string string.

Definition Configure (req : ConfigureRequest) (resp : ConfigureResponse)
  : ConfigureResponse :=
  let '(config, diags) := Config_Get req in
  let resp := with_Diagnostics resp (diag.Append (Diagnostics resp) diags) in
  if diag.HasError (Diagnostics resp) then resp
  else
    let resp :=
      if types.String_IsUnknown (URL config)
      then AddAttributeError resp "url"
             "Unknown PFSenseV2 URL" unknown_url_detail
      else resp in
    let resp :=
      if types.String_IsUnknown (APIClientUsername config)
      then AddAttributeError resp "api_client_username"
             "Unknown PFSenseV2 API Client Username" unknown_username_detail
      else resp in
    let resp :=
      if types.String_IsUnknown (APIClientToken config)
      then AddAttributeError resp "api_client_token"
             "Unknown PFSenseV2 API Client Token" unknown_token_detail
      else resp in
    let resp :=
      if types.Bool_IsUnknown (Insecure config)
      then AddAttributeError resp "insecure"
             "Unknown PFSenseV2 Insecure Flag" unknown_insecure_detail
      else resp in
    if diag.HasError (Diagnostics resp) then resp
    else
      let url := os.Getenv env "PFSENSEV2_URL" in
      let username := os.Getenv env "PFSENSEV2_API_USERNAME" in
      let token := os.Getenv env "PFSENSEV2_API_TOKEN" in
      let insecure := false in
      let url :=
        if negb (types.String_IsNull (URL config))
        then types.ValueString (URL config) else url in
      let username :=
        if negb (types.String_IsNull (APIClientUsername config))
        then types.ValueString (APIClientUsername config) else username in
      let token :=
        if negb (types.String_IsNull (APIClientToken config))
        then types.ValueString (APIClientToken config) else token in
      let insecure :=
        if 0 <? Z.of_nat (String.length (os.Getenv env "PFSENSEV2_INSECURE"))
        then true else insecure in
      let resp :=
        if bool_decide (url = "")
        then AddAttributeError resp "url"
               "Missing PFSenseV2 URL" missing_url_detail
        else resp in
      let resp :=
        if bool_decide (username = "")
        then AddAttributeError resp "api_client_username"
               "Missing PFSenseV2 API Client Username" missing_username_detail
        else resp in
      let resp :=
        if bool_decide (token = "")
        then AddAttributeError resp "api_client_token"
               "Missing PFSenseV2 API Client Token" missing_token_detail
        else resp in
      if diag.HasError (Diagnostics resp) then resp
      else
        let client := http_DefaultClient in
        {| Diagnostics := Diagnostics resp;
           DataSourceData := client;
           ResourceData := client |}.

End Configure.

End provider_scaffold.

(** ** Vocabulary of the properties *)

Module spec.

(** What an attribute resolves to: the configuration value unless it is
    null, the environment variable otherwise. *)
Definition resolved (v : types.String) (fromEnv : string) : string :=
  match v with
  | types.StringNull => fromEnv
  | _ => types.ValueString v
  end.

Definition resolved_url env (config : provider.ScaffoldingProviderModel) :=
  resolved (provider.URL config) (os.Getenv env "PFSENSEV2_URL").

Definition resolved_username env (config : provider.ScaffoldingProviderModel) :=
  resolved (provider.APIClientUsername config)
    (os.Getenv env "PFSENSEV2_API_USERNAME").

Definition resolved_password env (config : provider.ScaffoldingProviderModel) :=
  resolved (provider.APIClientPassword config)
    (os.Getenv env "PFSENSEV2_API_PASSWORD").

Definition resolved_token env (config : provider.ScaffoldingProviderModel) :=
  resolved (provider.APIClientToken config)
    (os.Getenv env "PFSENSEV2_API_TOKEN").

(** The flag the variable PFSENSEV2_INSECURE stands for. *)
Definition insecure_from_env (env : gmap string string) : bool :=
  bool_decide (os.Getenv env "PFSENSEV2_INSECURE" ≠ "" ∧
               strings.ToLower (os.Getenv env "PFSENSEV2_INSECURE") ≠ "false").

(** Neither the pair of user name and password nor the token is there. *)
Definition no_usable_auth env (config : provider.ScaffoldingProviderModel) : Prop :=
  ¬ (resolved_username env config ≠ "" ∧ resolved_password env config ≠ "") ∧
  resolved_token env config = "".

Definition all_auth_unknown (config : provider.ScaffoldingProviderModel) : Prop :=
  provider.APIClientUsername config = types.StringUnknown ∧
  provider.APIClientPassword config = types.StringUnknown ∧
  provider.APIClientToken config = types.StringUnknown.

(** [val] is [a:b] for two non-empty strings of digits. *)
Definition port_range_form (val a b : string) : Prop :=
  val = a +:+ ":" +:+ b ∧ a ≠ "" ∧ b ≠ "" ∧
  regexp.all_digits a = true ∧ regexp.all_digits b = true.

(** [s] parses to an integer between 1 and 65535. *)
Definition is_port `{strconv.Quoter} (s : string) : Prop :=
  ∃ n, strconv.Atoi s = (n, None) ∧ 1 <= n <= 65535.

(** The strings the validator lets through. *)
Definition accepted `{strconv.Quoter} (val : string) : Prop :=
  val = "null" ∨
  (∃ a b, port_range_form val a b ∧ is_port a ∧ is_port b) ∨
  (val ≠ "null" ∧ (¬ ∃ a b, port_range_form val a b) ∧
   ∃ n, strconv.Atoi val = (n, None)).

(** A record of the payload with every field present. *)
Definition complete (r : generated.FirewallRule) : Prop :=
  is_Some (generated.Type_ r) ∧ is_Some (generated.Interface r) ∧
  is_Some (generated.Disabled r) ∧ is_Some (generated.Ipprotocol r) ∧
  is_Some (generated.Log r) ∧ is_Some (generated.Descr r) ∧
  is_Some (generated.Protocol r) ∧ is_Some (generated.Source r) ∧
  is_Some (generated.SourcePort r) ∧ is_Some (generated.Destination r) ∧
  is_Some (generated.DestinationPort r).

(** [rule] holds the fields of the record [r], each as it is. *)
Definition copied (r : generated.FirewallRule)
  (rule : pfsense_rest_v2.PFSenseFirewallRule) : Prop :=
  generated.Type_ r = Some (pfsense_rest_v2.Type_ rule) ∧
  generated.Interface r = Some (pfsense_rest_v2.Interfaces rule) ∧
  generated.Disabled r = Some (pfsense_rest_v2.Disabled rule) ∧
  generated.Ipprotocol r = Some (pfsense_rest_v2.AddressFamily rule) ∧
  generated.Log r = Some (pfsense_rest_v2.Log rule) ∧
  generated.Descr r = Some (pfsense_rest_v2.Description rule) ∧
  generated.Protocol r = Some (pfsense_rest_v2.Protocol rule) ∧
  generated.Source r = Some (pfsense_rest_v2.Source rule) ∧
  generated.SourcePort r = Some (pfsense_rest_v2.SourcePort rule) ∧
  generated.Destination r = Some (pfsense_rest_v2.Destination rule) ∧
  generated.DestinationPort r = Some (pfsense_rest_v2.DestinationPort rule).

(** The position of a letter in an alphabet, counted from [i]. *)
Fixpoint index_from (c : ascii) (alphabet : string) (i : Z) : option Z :=
  match alphabet with
  | EmptyString => None
  | String x rest =>
      if bool_decide (x = c) then Some i else index_from c rest (i + 1)
  end.

Definition letter_value (c : ascii) : option Z :=
  index_from c base64.encodeStd 0.

Definition byte (n : Z) : ascii := ascii_of_N (Z.to_N n).

(** The reading of RFC 4648 in the other direction: four letters give
    three bytes, a padded last group gives one or two. *)
Fixpoint base64_decode (s : string) : option string :=
  match s with
  | EmptyString => Some EmptyString
  | String c0 (String c1 (String c2 (String c3 rest))) =>
      match letter_value c0, letter_value c1 with
      | Some v0, Some v1 =>
          let b0 := byte (v0 * 4 + v1 / 16) in
          if bool_decide (c2 = base64.StdPadding)
          then
            if bool_decide (c3 = base64.StdPadding ∧ rest = EmptyString)
            then Some (String b0 EmptyString) else None
          else
            match letter_value c2 with
            | Some v2 =>
                let b1 := byte (v1 `mod` 16 * 16 + v2 / 4) in
                if bool_decide (c3 = base64.StdPadding)
                then
                  if bool_decide (rest = EmptyString)
                  then Some (String b0 (String b1 EmptyString)) else None
                else
                  match letter_value c3, base64_decode rest with
                  | Some v3, Some bytes =>
                      let b2 := byte (v2 `mod` 4 * 64 + v3) in
                      Some (String b0 (String b1 (String b2 bytes)))
                  | _, _ => None
                  end
            | None => None
            end
      | _, _ => None
      end
  | _ => None
  end.

(** The rule is attached to the interface wan. *)
Definition on_wan (r : provider.PFSenseFirewallRule) : Prop :=
  types.StringValue "wan" ∈ elems (provider.Interfaces r).

#[global] Instance on_wan_dec r : Decision (on_wan r).
Proof. unfold on_wan. apply _. Defined.

(** An attribute value that is neither null nor unknown. *)
Definition known_String (v : types.String) : Prop :=
  match v with types.StringValue _ => True | _ => False end.

Definition known_Bool (v : types.Bool) : Prop :=
  match v with types.BoolValue _ => True | _ => False end.

(** A rule of the data source whose attributes are all known. *)
Definition known_rule (r : provider.PFSenseFirewallRule) : Prop :=
  known_String (provider.Type_ r) ∧
  Forall known_String (elems (provider.Interfaces r)) ∧
  known_Bool (provider.Disabled r) ∧
  known_String (provider.AddressFamily r) ∧
  known_Bool (provider.Log r) ∧
  known_String (provider.Description r) ∧
  known_String (provider.Protocol r) ∧
  known_String (provider.Source r) ∧
  known_String (provider.SourcePort r) ∧
  known_String (provider.Destination r) ∧
  known_String (provider.DestinationPort r).

(** A non-nil pointer to a rule whose attributes are all known. *)
Definition known_rule_pointer (p : option provider.PFSenseFirewallRule) : Prop :=
  match p with Some r => known_rule r | None => False end.

(** A rule of the client that is attached to the interface wan. *)
Definition api_on_wan (r : pfsense_rest_v2.PFSenseFirewallRule) : Prop :=
  "wan" ∈ elems (pfsense_rest_v2.Interfaces r).

#[global] Instance api_on_wan_dec r : Decision (api_on_wan r).
Proof. unfold api_on_wan. apply _. Defined.

#[global] Instance complete_dec r : Decision (complete r).
Proof. unfold complete. apply _. Defined.

(** A configuration the provider.go under internal/provider can use: no
    attribute is unknown, and the URL, the user name and the token each
    resolve to a string that is not empty. *)
Definition scaffold_usable (env : gmap string string)
  (config : provider_scaffold.ScaffoldingProviderModel) : Prop :=
  (types.String_IsUnknown (provider_scaffold.URL config) = false ∧
   types.String_IsUnknown (provider_scaffold.APIClientUsername config) = false ∧
   types.String_IsUnknown (provider_scaffold.APIClientToken config) = false ∧
   types.Bool_IsUnknown (provider_scaffold.Insecure config) = false) ∧
  resolved (provider_scaffold.URL config) (os.Getenv env "PFSENSEV2_URL") ≠ "" ∧
  resolved (provider_scaffold.APIClientUsername config)
    (os.Getenv env "PFSENSEV2_API_USERNAME") ≠ "" ∧
  resolved (provider_scaffold.APIClientToken config)
    (os.Getenv env "PFSENSEV2_API_TOKEN") ≠ "".

End spec.

(** ** Concrete devices, configurations and payloads *)

Module examples.

Definition double_quote : string := String (ascii_of_nat 34) EmptyString.

(** A [Quote] that does not escape. *)
Definition plain_Quote : strconv.Quoter :=
  fun s => double_quote +:+ s +:+ double_quote.

(** The constructor as the generator's template writes it: the options
    are applied in order to a client for the server, whose URL gets a
    final slash. *)
Fixpoint apply_options
  (opts : list generated.ClientOption) (client : generated.Client)
  : generated.Client * error :=
  match opts with
  | [] => (client, None)
  | o :: rest =>
      match o client with
      | (client', None) => apply_options rest client'
      | (client', Some err) => (client', Some err)
      end
  end.

Definition has_final_slash (s : string) : bool :=
  match rev (list_ascii_of_string s) with
  | c :: _ => bool_decide (c = "/"%char)
  | [] => false
  end.

Definition template_NewClientWithResponses
  (server : string) (opts : list generated.ClientOption)
  : option generated.ClientWithResponses * error :=
  match
    apply_options opts
      {| generated.Server := server; generated.RequestEditors := [] |}
  with
  | (_, Some err) => (None, Some err)
  | (client, None) =>
      (Some {| generated.ClientInterface :=
                 {| generated.Server :=
                      if has_final_slash (generated.Server client)
                      then generated.Server client
                      else generated.Server client +:+ "/";
                    generated.RequestEditors :=
                      generated.RequestEditors client |} |},
       None)
  end.

(** A device that gives the same two answers to every client. *)
Definition device
  (hostname : generated.GetSystemHostnameEndpointResponse + string)
  (rules : generated.GetFirewallRulesEndpointResponse + string)
  : generated.Generated :=
  {| generated.NewClientWithResponses := template_NewClientWithResponses;
     generated.GetSystemHostnameEndpointWithResponse := fun _ => hostname;
     generated.GetFirewallRulesEndpointWithResponse := fun _ _ => rules;
     generated.Sprint_hostname_response := fun r => generated.Hostname_Body r;
     generated.Sprint_rules_response := fun r => generated.Rules_Body r |}.

(** A framework that keeps the last model it was given. *)
Definition last_model : provider.Framework :=
  {| provider.State := option provider.PFSenseModel;
     provider.State_Set := fun _ data => (Some data, []) |}.

Definition hostname_ok : generated.GetSystemHostnameEndpointResponse :=
  {| generated.Hostname_Body := "{}";
     generated.Hostname_JSON200 :=
       Some {| generated.Hostname_Data :=
                 Some {| generated.Hostname := Some "pfSense";
                         generated.Domain := Some "home.arpa" |} |} |}.

(** A 200 answer whose payload carries no hostname. *)
Definition hostname_missing : generated.GetSystemHostnameEndpointResponse :=
  {| generated.Hostname_Body := "{}";
     generated.Hostname_JSON200 :=
       Some {| generated.Hostname_Data :=
                 Some {| generated.Hostname := None;
                         generated.Domain := Some "home.arpa" |} |} |}.

Definition rule_ssh : generated.FirewallRule :=
  {| generated.Type_ := Some "pass";
     generated.Interface := Some (slice_of ["wan"]);
     generated.Disabled := Some false;
     generated.Ipprotocol := Some "inet";
     generated.Log := Some true;
     generated.Descr := Some "ssh";
     generated.Protocol := Some "tcp";
     generated.Source := Some "any";
     generated.SourcePort := Some "1024:65535";
     generated.Destination := Some "wan:ip";
     generated.DestinationPort := Some "22" |}.

(** A rule without ports: the payload has null ports. *)
Definition rule_any : generated.FirewallRule :=
  {| generated.Type_ := Some "block";
     generated.Interface := Some (slice_of ["lan"]);
     generated.Disabled := Some false;
     generated.Ipprotocol := Some "inet";
     generated.Log := Some false;
     generated.Descr := Some "";
     generated.Protocol := Some "icmp";
     generated.Source := Some "any";
     generated.SourcePort := None;
     generated.Destination := Some "any";
     generated.DestinationPort := None |}.

Definition rules_answer (rules : list generated.FirewallRule)
  : generated.GetFirewallRulesEndpointResponse :=
  {| generated.Rules_Body := "{}";
     generated.Rules_JSON200 :=
       Some {| generated.Rules_Data := Some (slice_of rules) |} |}.

Definition a_client : pfsense_rest_v2.PFSenseClientV2 :=
  {| pfsense_rest_v2.url := "https://192.168.1.1";
     pfsense_rest_v2.apiClient :=
       Some {| generated.ClientInterface :=
                 {| generated.Server := "https://192.168.1.1/";
                    generated.RequestEditors := [] |} |} |}.

Definition config_of (url : types.String) (username password token : types.String)
  : provider.ScaffoldingProviderModel :=
  {| provider.URL := url;
     provider.Insecure := types.BoolNull;
     provider.APIClientUsername := username;
     provider.APIClientPassword := password;
     provider.APIClientToken := token |}.

Definition device_url : types.String := types.StringValue "https://192.168.1.1".

(** User name, password and token all set. *)
Definition conflicting_config : provider.ScaffoldingProviderModel :=
  config_of device_url (types.StringValue "admin")
    (types.StringValue "pfsense") (types.StringValue "1234ABCD").

(** User name and password, no token. *)
Definition basic_config : provider.ScaffoldingProviderModel :=
  config_of device_url (types.StringValue "admin")
    (types.StringValue "pfsense") types.StringNull.

(** A token, and a user name that is not known yet. *)
Definition unknown_username_config : provider.ScaffoldingProviderModel :=
  config_of device_url types.StringUnknown
    types.StringNull (types.StringValue "1234ABCD").

Definition request_of (config : provider.ScaffoldingProviderModel)
  : provider.ConfigureRequest :=
  {| provider.Config_Get := (config, []) |}.

Definition fresh_response : provider.ConfigureResponse :=
  {| provider.Diagnostics := [];
     provider.DataSourceData := None;
     provider.ResourceData := None |}.

Definition wan_rule : provider.PFSenseFirewallRule :=
  {| provider.Type_ := types.StringValue "pass";
     provider.Interfaces :=
       slice_of [types.StringValue "lan"; types.StringValue "wan"];
     provider.Disabled := types.BoolValue false;
     provider.AddressFamily := types.StringValue "inet";
     provider.Log := types.BoolValue false;
     provider.Description := types.StringValue "ssh";
     provider.Protocol := types.StringValue "tcp";
     provider.Source := types.StringValue "any";
     provider.SourcePort := types.StringNull;
     provider.Destination := types.StringValue "wan:ip";
     provider.DestinationPort := types.StringValue "22" |}.

Definition lan_rule : provider.PFSenseFirewallRule :=
  {| provider.Type_ := types.StringValue "block";
     provider.Interfaces := slice_of [types.StringValue "lan"];
     provider.Disabled := types.BoolValue false;
     provider.AddressFamily := types.StringValue "inet";
     provider.Log := types.BoolValue false;
     provider.Description := types.StringValue "";
     provider.Protocol := types.StringValue "udp";
     provider.Source := types.StringValue "any";
     provider.SourcePort := types.StringNull;
     provider.Destination := types.StringValue "any";
     provider.DestinationPort := types.StringNull |}.

Definition data_source : provider.PFSenseDataSource :=
  {| provider.client := Some a_client |}.

Definition read_request : provider.ReadRequest :=
  {| provider.Read_Config_Get :=
       ({| provider.Hostname := types.StringNull;
           provider.FirewallRules := nil_slice |}, []) |}.

Definition fresh_read_response : provider.ReadResponse (H0 := last_model) :=
  @provider.Build_ReadResponse last_model []
    (None : option provider.PFSenseModel).

(** The model [Read] builds when only the host name could be read. *)
Definition hostname_only : provider.PFSenseModel :=
  {| provider.Hostname := types.StringValue "pfSense";
     provider.FirewallRules := nil_slice |}.

(** The rule the client makes of [rule_ssh]. *)
Definition client_rule_ssh : pfsense_rest_v2.PFSenseFirewallRule :=
  {| pfsense_rest_v2.Type_ := "pass";
     pfsense_rest_v2.Interfaces := slice_of ["wan"];
     pfsense_rest_v2.Disabled := false;
     pfsense_rest_v2.AddressFamily := "inet";
     pfsense_rest_v2.Log := true;
     pfsense_rest_v2.Description := "ssh";
     pfsense_rest_v2.Protocol := "tcp";
     pfsense_rest_v2.Source := "any";
     pfsense_rest_v2.SourcePort := "1024:65535";
     pfsense_rest_v2.Destination := "wan:ip";
     pfsense_rest_v2.DestinationPort := "22" |}.

(** The model [Read] builds from [hostname_ok] and [rule_ssh]. *)
Definition model_ssh : provider.PFSenseModel :=
  {| provider.Hostname := types.StringValue "pfSense";
     provider.FirewallRules :=
       slice_of [Some (provider.Read_rule client_rule_ssh)] |}.

(** A configuration of the provider.go under internal/provider that sets
    nothing. *)
Definition scaffold_unset : provider_scaffold.ScaffoldingProviderModel :=
  {| provider_scaffold.URL := types.StringNull;
     provider_scaffold.Insecure := types.BoolNull;
     provider_scaffold.APIClientUsername := types.StringNull;
     provider_scaffold.APIClientToken := types.StringNull |}.

Definition scaffold_fresh_response : provider_scaffold.ConfigureResponse :=
  {| provider_scaffold.Diagnostics := [];
     provider_scaffold.DataSourceData := provider.ProviderData_nil;
     provider_scaffold.ResourceData := provider.ProviderData_nil |}.

End examples.

(** * Properties *)

(** ** Slices and executions *)

Lemma elems_append {A} (s : slice A) x : elems (append s x) = elems s ++ [x].
Proof. reflexivity. Qed.

Lemma append_not_nil {A} (s : slice A) x : is_nil_slice (append s x) = false.
Proof. reflexivity. Qed.

Lemma bind_Returns {E A B} (t : list E) (a : A) (k : A -> Exec E B) :
  ((t, Returns a) ≫= k) = (t ++ fst (k a), snd (k a)).
Proof. unfold mbind, Exec_bind, exec_bind. by destruct (k a). Qed.

Lemma bind_Panics {E A B} (t : list E) why (k : A -> Exec E B) :
  ((t, Panics why) ≫= k) = (t, Panics why).
Proof. reflexivity. Qed.

Lemma bind_ret {E A B} (a : A) (k : A -> Exec E B) : (mret a ≫= k) = k a.
Proof.
  unfold mret, Exec_ret, exec_ret. rewrite bind_Returns. by destruct (k a).
Qed.

Lemma bind_deref_Some {E A B} (a : A) (k : A -> Exec E B) :
  (deref (Some a) ≫= k) = k a.
Proof. apply bind_ret. Qed.

Lemma bind_deref_None {E A B} (k : A -> Exec E B) :
  (deref None ≫= k) = ([], Panics nil_dereference).
Proof. reflexivity. Qed.

Lemma outcome_bind {E A B} (m : Exec E A) (k : A -> Exec E B) :
  outcome (m ≫= k) =
  match outcome m with
  | Returns a => outcome (k a)
  | Panics why => Panics why
  end.
Proof.
  destruct m as [t [a|why]]; [|reflexivity].
  rewrite bind_Returns. reflexivity.
Qed.

Lemma trace_bind {E A B} (m : Exec E A) (k : A -> Exec E B) :
  trace (m ≫= k) =
  trace m ++ match outcome m with
             | Returns a => trace (k a)
             | Panics _ => []
             end.
Proof.
  destruct m as [t [a|why]].
  - rewrite bind_Returns. reflexivity.
  - rewrite bind_Panics. unfold trace, outcome. simpl. by rewrite app_nil_r.
Qed.

(** Case analysis on the outcome of [m], whatever the way its type is
    written in the goal. *)
Ltac case_outcome m a :=
  match goal with
  | |- context [@outcome ?E ?A m] =>
      let why := fresh "why" in
      destruct (@outcome E A m) as [a|why]
  end.

(** Runs the binds whose first computation is known. *)
Ltac run_binds :=
  repeat first
    [ rewrite bind_deref_Some | rewrite bind_deref_None | rewrite bind_ret
    | rewrite bind_Returns | rewrite bind_Panics ].

(** ** Diagnostics *)

Module diag_facts.
Import diag.

Lemma Append_nil diags : Append diags [] = diags.
Proof. reflexivity. Qed.

Lemma Append_cons diags d ins :
  Append diags (d :: ins) =
  Append (if Contains diags d then diags else diags ++ [d]) ins.
Proof. reflexivity. Qed.

Lemma HasError_true_iff diags :
  HasError diags = true ↔ ∃ d, d ∈ diags ∧ is_error d = true.
Proof.
  unfold HasError. rewrite existsb_exists.
  split; intros (d & ? & ?); exists d; split; auto; by apply list_elem_of_In.
Qed.

Lemma HasError_app a b : HasError (a ++ b) = HasError a || HasError b.
Proof. apply existsb_app. Qed.

(** Appending reports an error exactly when there was one or one comes in. *)
Lemma HasError_Append diags ins :
  HasError (Append diags ins) = HasError diags || HasError ins.
Proof.
  revert diags. induction ins as [|d ins IH]; intros diags.
  - rewrite Append_nil. simpl. by rewrite orb_false_r.
  - rewrite Append_cons, IH. unfold Contains. case_bool_decide as Hin.
    + simpl. destruct (is_error d) eqn:Hd; [|done].
      assert (HasError diags = true) as ->; [|done].
      apply HasError_true_iff. eauto.
    + rewrite HasError_app. simpl. rewrite orb_false_r. by rewrite orb_assoc.
Qed.

Lemma HasError_AddError diags summary detail :
  HasError (AddError diags summary detail) = true.
Proof. unfold AddError. rewrite HasError_Append. simpl. apply orb_true_r. Qed.

Lemma HasError_AddAttributeError diags path summary detail :
  HasError (AddAttributeError diags path summary detail) = true.
Proof.
  unfold AddAttributeError. rewrite HasError_Append. simpl. apply orb_true_r.
Qed.

(** An error that is not there yet is appended at the end. *)
Lemma Append_new_error diags d :
  HasError diags = false → is_error d = true → Append diags [d] = diags ++ [d].
Proof.
  intros Hno Hd. unfold Append. simpl. unfold Contains.
  case_bool_decide as Hin; [|done].
  assert (HasError diags = true); [|congruence].
  apply HasError_true_iff. eauto.
Qed.

End diag_facts.

(** ** Resolution of the provider configuration *)

Module configure_facts.
Import provider spec.

Ltac split_conditions :=
  repeat (case_bool_decide; simpl in *; try done; try tauto).

Section resolution.
Variable env : gmap string string.

Lemma ConfiguredURL_value config resp :
  snd (ConfiguredURL env config resp) = resolved_url env config.
Proof.
  unfold ConfiguredURL, resolved_url, resolved.
  by destruct (URL config).
Qed.

Lemma ConfiguredURL_frame config resp :
  DataSourceData (fst (ConfiguredURL env config resp)) = DataSourceData resp ∧
  ResourceData (fst (ConfiguredURL env config resp)) = ResourceData resp.
Proof.
  unfold ConfiguredURL. simpl.
  destruct (types.String_IsUnknown _); case_bool_decide; done.
Qed.

Lemma ConfiguredURL_HasError config resp :
  diag.HasError (Diagnostics (fst (ConfiguredURL env config resp))) =
  diag.HasError (Diagnostics resp) ||
  types.String_IsUnknown (URL config) ||
  bool_decide (resolved_url env config = "").
Proof.
  unfold ConfiguredURL, resolved_url, resolved. simpl.
  destruct (URL config); simpl; split_conditions;
    rewrite ?diag_facts.HasError_AddAttributeError, ?orb_true_r, ?orb_false_r;
    done.
Qed.

Lemma ConfiguredInsecure_value config resp :
  snd (ConfiguredInsecure env config resp) =
  match Insecure config with
  | types.BoolNull => insecure_from_env env
  | b => types.ValueBool b
  end.
Proof.
  unfold ConfiguredInsecure, insecure_from_env. simpl.
  destruct (Insecure config); simpl; try done.
  destruct (os.Getenv env "PFSENSEV2_INSECURE") as [|c v]; simpl; [done|].
  repeat case_bool_decide; intuition congruence.
Qed.

Lemma ConfiguredInsecure_frame config resp :
  DataSourceData (fst (ConfiguredInsecure env config resp)) = DataSourceData resp ∧
  ResourceData (fst (ConfiguredInsecure env config resp)) = ResourceData resp.
Proof.
  unfold ConfiguredInsecure. simpl. by destruct (types.Bool_IsUnknown _).
Qed.

Lemma ConfiguredInsecure_HasError config resp :
  diag.HasError (Diagnostics (fst (ConfiguredInsecure env config resp))) =
  diag.HasError (Diagnostics resp) || types.Bool_IsUnknown (Insecure config).
Proof.
  unfold ConfiguredInsecure. simpl.
  destruct (types.Bool_IsUnknown _); simpl;
    rewrite ?diag_facts.HasError_AddAttributeError, ?orb_true_r, ?orb_false_r;
    done.
Qed.

(** [ConfiguredAuth] in terms of the three resolved values. *)
Lemma ConfiguredAuth_resolved config resp :
  ConfiguredAuth env config resp =
  let username := resolved_username env config in
  let password := resolved_password env config in
  let token := resolved_token env config in
  if bool_decide (all_auth_unknown config)
  then (AddError resp ConfiguredAuth_title ConfiguredAuth_detail, None)
  else if bool_decide (username ≠ "") && bool_decide (password ≠ "") &&
          bool_decide (token = "")
  then (AddError resp ConfiguredAuth_title ConfiguredAuth_only_one, None)
  else if bool_decide (username ≠ "") && bool_decide (password ≠ "")
  then (resp,
        Some (pfsense_rest_v2.AuthBasic
                {| pfsense_rest_v2.Username := username;
                   pfsense_rest_v2.Password := password |}))
  else if bool_decide (token ≠ "")
  then (resp,
        Some (pfsense_rest_v2.AuthAPIKey {| pfsense_rest_v2.APIToken := token |}))
  else (AddError resp ConfiguredAuth_title ConfiguredAuth_detail, None).
Proof.
  unfold ConfiguredAuth, resolved_username, resolved_password, resolved_token,
    resolved, all_auth_unknown.
  destruct (APIClientUsername config), (APIClientPassword config),
    (APIClientToken config); simpl;
    try (rewrite bool_decide_eq_false_2 by (intros (? & ? & ?); congruence));
    try (rewrite bool_decide_eq_true_2 by done); done.
Qed.

Lemma ConfiguredAuth_frame config resp :
  DataSourceData (fst (ConfiguredAuth env config resp)) = DataSourceData resp ∧
  ResourceData (fst (ConfiguredAuth env config resp)) = ResourceData resp.
Proof.
  rewrite ConfiguredAuth_resolved. simpl.
  repeat (case_bool_decide; simpl; try done).
Qed.

(** [ConfiguredAuth] adds an error exactly when it returns nil. *)
Lemma ConfiguredAuth_HasError config resp :
  diag.HasError (Diagnostics (fst (ConfiguredAuth env config resp))) =
  diag.HasError (Diagnostics resp) ||
  bool_decide (snd (ConfiguredAuth env config resp) = None).
Proof.
  rewrite ConfiguredAuth_resolved. simpl.
  repeat (case_bool_decide; simpl; try done);
    rewrite ?diag_facts.HasError_AddError, ?orb_true_r, ?orb_false_r; done.
Qed.

Lemma ConfiguredAuth_nil config resp :
  all_auth_unknown config ∨ no_usable_auth env config →
  snd (ConfiguredAuth env config resp) = None.
Proof.
  rewrite ConfiguredAuth_resolved. unfold no_usable_auth. simpl.
  intros Hc. repeat (case_bool_decide; simpl; try done); tauto.
Qed.

End resolution.

End configure_facts.

(** ** The claims on the provider configuration *)

Module configure_claims.
Import provider spec examples configure_facts.

(** When the user name, the password and the token all resolve to
    non-empty strings, [ConfiguredAuth] adds nothing to the diagnostics
    and returns the basic credentials. *)
Lemma ConfiguredAuth_conflict env config resp :
  resolved_username env config ≠ "" →
  resolved_password env config ≠ "" →
  resolved_token env config ≠ "" →
  ConfiguredAuth env config resp =
  (resp,
   Some (pfsense_rest_v2.AuthBasic
           {| pfsense_rest_v2.Username := resolved_username env config;
              pfsense_rest_v2.Password := resolved_password env config |})).
Proof.
  intros Hu Hp Ht. rewrite ConfiguredAuth_resolved. simpl.
  assert (¬ all_auth_unknown config) as Hk.
  { intros (Hu' & _ & _). apply Hu.
    unfold resolved_username. by rewrite Hu'. }
  repeat (case_bool_decide; simpl; try done).
Qed.

(** When the user name and the password resolve to non-empty strings
    and the token to the empty string, [ConfiguredAuth] reports that only
    one method can be set, and returns nil. *)
Lemma ConfiguredAuth_basic_only env config resp :
  resolved_username env config ≠ "" →
  resolved_password env config ≠ "" →
  resolved_token env config = "" →
  ConfiguredAuth env config resp =
  (AddError resp ConfiguredAuth_title ConfiguredAuth_only_one, None).
Proof.
  intros Hu Hp Ht. rewrite ConfiguredAuth_resolved. simpl.
  assert (¬ all_auth_unknown config) as Hk.
  { intros (Hu' & _ & _). apply Hu.
    unfold resolved_username. by rewrite Hu'. }
  repeat (case_bool_decide; simpl; try done).
Qed.

(** C1, on the configuration that sets user name, password and token:
    [ConfiguredAuth] leaves the diagnostics empty and returns the basic
    credentials, and [Configure] goes on to construct the client, whatever
    the generated constructor answers. *)
Theorem Configure_conflicting_auth_constructs_client `{generated.Generated} :
  ConfiguredAuth ∅ conflicting_config fresh_response =
    (fresh_response,
     Some (pfsense_rest_v2.AuthBasic
             {| pfsense_rest_v2.Username := "admin";
                pfsense_rest_v2.Password := "pfsense" |})) ∧
  trace (Configure ∅ (request_of conflicting_config) fresh_response) =
    [pfsense_rest_v2.NewClientCall "https://192.168.1.1"].
Proof.
  split; [reflexivity|].
  unfold Configure, trace. simpl.
  unfold pfsense_rest_v2.NewPFSenseClientV2.
  rewrite bind_deref_Some. unfold emit. rewrite bind_Returns. simpl.
  destruct (generated.NewClientWithResponses _ _) as [apiClient [err|]];
    reflexivity.
Qed.

(** C2, on the configuration that sets user name and password and no
    token: [ConfiguredAuth] adds the error that only one method can be set
    and returns nil instead of the basic credentials. *)
Theorem ConfiguredAuth_rejects_basic_credentials :
  ConfiguredAuth ∅ basic_config fresh_response =
    ({| Diagnostics :=
          [diag.NewErrorDiagnostic ConfiguredAuth_title ConfiguredAuth_only_one];
        DataSourceData := None;
        ResourceData := None |},
     None).
Proof. reflexivity. Qed.

(** [Configure] stops without a call to the outside as soon as the
    resolution has left an error, and leaves the two data fields alone. *)
Lemma Configure_stops `{generated.Generated} env req resp :
  let config := fst (Config_Get req) in
  let resp1 :=
    with_Diagnostics resp (diag.Append (Diagnostics resp) (snd (Config_Get req))) in
  let resp2 := fst (ConfiguredURL env config resp1) in
  let resp3 := fst (ConfiguredAuth env config resp2) in
  let resp4 := fst (ConfiguredInsecure env config resp3) in
  diag.HasError (Diagnostics resp4) = true →
  ∃ resp', Configure env req resp = ([], Returns resp') ∧
    diag.HasError (Diagnostics resp') = true ∧
    DataSourceData resp' = DataSourceData resp ∧
    ResourceData resp' = ResourceData resp.
Proof.
  intros config resp1 resp2 resp3 resp4 Herr. unfold Configure.
  rewrite (surjective_pairing (Config_Get req)). fold config resp1.
  destruct (diag.HasError (Diagnostics resp1)) eqn:H1.
  { exists resp1. by repeat split. }
  rewrite (surjective_pairing (ConfiguredURL env config resp1)). fold resp2.
  rewrite (surjective_pairing (ConfiguredAuth env config resp2)). fold resp3.
  rewrite (surjective_pairing (ConfiguredInsecure env config resp3)).
  fold resp4. rewrite Herr. exists resp4.
  destruct (ConfiguredURL_frame env config resp1) as [Hd2 Hr2].
  destruct (ConfiguredAuth_frame env config resp2) as [Hd3 Hr3].
  destruct (ConfiguredInsecure_frame env config resp3) as [Hd4 Hr4].
  repeat split; [done| |].
  - unfold resp4. rewrite Hd4. unfold resp3. rewrite Hd3.
    unfold resp2. by rewrite Hd2.
  - unfold resp4. rewrite Hr4. unfold resp3. rewrite Hr3.
    unfold resp2. by rewrite Hr2.
Qed.

(** C4, amended: when the URL resolves to the empty string, or neither
    authentication method resolves to a usable value, or the url or the
    insecure attribute is unknown, or the three authentication attributes
    are all unknown, [Configure] returns with an error among the
    diagnostics, without any call to the outside (no client is
    constructed), and leaves [DataSourceData] and [ResourceData] as they
    were. *)
Theorem Configure_rejects_unusable_configuration
  `{generated.Generated} env req resp :
  let config := fst (Config_Get req) in
  resolved_url env config = "" ∨
  no_usable_auth env config ∨
  URL config = types.StringUnknown ∨
  Insecure config = types.BoolUnknown ∨
  all_auth_unknown config →
  ∃ resp', Configure env req resp = ([], Returns resp') ∧
    diag.HasError (Diagnostics resp') = true ∧
    DataSourceData resp' = DataSourceData resp ∧
    ResourceData resp' = ResourceData resp.
Proof.
  intros config Hbad. apply Configure_stops. fold config.
  rewrite ConfiguredInsecure_HasError, ConfiguredAuth_HasError,
    ConfiguredURL_HasError.
  rewrite !orb_true_iff, !bool_decide_eq_true.
  destruct Hbad as [Hurl | [Hauth | [Hurl | [Hins | Hauth]]]].
  - tauto.
  - left; right. apply ConfiguredAuth_nil. by right.
  - do 3 left; right. by rewrite Hurl.
  - right. by rewrite Hins.
  - left; right. apply ConfiguredAuth_nil. by left.
Qed.

Lemma Configure_rejects_unusable_configuration_witness :
  ∃ resp',
    Configure (H := device (inl hostname_ok) (inl (rules_answer [])))
      ∅ (request_of (config_of types.StringNull types.StringNull
                       types.StringNull types.StringNull))
      fresh_response = ([], Returns resp') ∧
    diag.HasError (Diagnostics resp') = true ∧
    DataSourceData resp' = None ∧
    ResourceData resp' = None.
Proof.
  apply (Configure_rejects_unusable_configuration
           (H := device (inl hostname_ok) (inl (rules_answer [])))).
  left. reflexivity.
Defined.

(** The configuration with a token and an unknown user name: an
    authentication attribute is unknown, and yet [Configure] adds no
    diagnostic, constructs the client and sets the two data fields. *)
Lemma Configure_accepts_unknown_username :
  let run :=
    Configure (H := device (inl hostname_ok) (inl (rules_answer [])))
      ∅ (request_of unknown_username_config) fresh_response in
  APIClientUsername unknown_username_config = types.StringUnknown ∧
  trace run = [pfsense_rest_v2.NewClientCall "https://192.168.1.1"] ∧
  (∃ resp', outcome run = Returns resp' ∧
     Diagnostics resp' = [] ∧
     is_Some (DataSourceData resp') ∧ is_Some (ResourceData resp')) ∧
  ¬ (∃ resp', run = ([], Returns resp') ∧
       diag.HasError (Diagnostics resp') = true ∧
       DataSourceData resp' = None ∧
       ResourceData resp' = None).
Proof.
  repeat split.
  - eexists. split; [reflexivity|]. repeat split; simpl; eauto.
  - intros (resp' & Hrun & _). discriminate Hrun.
Qed.

(** C5: each input is the configuration value when that is not null and
    comes from its environment variable when it is null: the URL and the
    insecure flag as returned, the user name, password and token as they
    reach the returned authorization; the variables of the attributes
    that are not null have no influence. *)
Theorem configuration_value_precedes_environment env config resp :
  snd (ConfiguredURL env config resp) =
    resolved (URL config) (os.Getenv env "PFSENSEV2_URL") ∧
  snd (ConfiguredInsecure env config resp) =
    match Insecure config with
    | types.BoolNull =>
        bool_decide
          (os.Getenv env "PFSENSEV2_INSECURE" ≠ "" ∧
           strings.ToLower (os.Getenv env "PFSENSEV2_INSECURE") ≠ "false")
    | b => types.ValueBool b
    end ∧
  (∀ auth, snd (ConfiguredAuth env config resp) = Some auth →
     auth = pfsense_rest_v2.AuthBasic
              {| pfsense_rest_v2.Username :=
                   resolved (APIClientUsername config)
                     (os.Getenv env "PFSENSEV2_API_USERNAME");
                 pfsense_rest_v2.Password :=
                   resolved (APIClientPassword config)
                     (os.Getenv env "PFSENSEV2_API_PASSWORD") |} ∨
     auth = pfsense_rest_v2.AuthAPIKey
              {| pfsense_rest_v2.APIToken :=
                   resolved (APIClientToken config)
                     (os.Getenv env "PFSENSEV2_API_TOKEN") |}) ∧
  (∀ env',
     resolved_username env' config = resolved_username env config →
     resolved_password env' config = resolved_password env config →
     resolved_token env' config = resolved_token env config →
     ConfiguredAuth env' config resp = ConfiguredAuth env config resp).
Proof.
  split; [apply ConfiguredURL_value|].
  split; [apply ConfiguredInsecure_value|].
  split.
  - intros auth. rewrite ConfiguredAuth_resolved. simpl.
    repeat (case_bool_decide; simpl; try done); intros [= <-]; auto.
  - intros env' Hu Hp Ht. rewrite !ConfiguredAuth_resolved. simpl.
    by rewrite Hu, Hp, Ht.
Qed.

Lemma configuration_value_precedes_environment_witness :
  let env : gmap string string :=
    {[ "PFSENSEV2_API_TOKEN" := "from-env";
       "PFSENSEV2_API_USERNAME" := "root" ]} in
  let config :=
    config_of device_url (types.StringValue "admin")
      types.StringNull types.StringNull in
  snd (ConfiguredAuth env config fresh_response) =
    Some (pfsense_rest_v2.AuthAPIKey {| pfsense_rest_v2.APIToken := "from-env" |}) ∧
  ConfiguredAuth ∅ conflicting_config fresh_response =
    ConfiguredAuth env conflicting_config fresh_response.
Proof.
  intros env config.
  destruct (configuration_value_precedes_environment env config fresh_response)
    as (_ & _ & Hauth & _).
  destruct (configuration_value_precedes_environment
              env conflicting_config fresh_response) as (_ & _ & _ & Henv).
  split.
  - destruct (Hauth (pfsense_rest_v2.AuthAPIKey
                       {| pfsense_rest_v2.APIToken := "from-env" |}))
      as [Hbasic | Hkey]; [reflexivity | discriminate Hbasic | reflexivity].
  - apply (Henv ∅); reflexivity.
Defined.

(** The flag read from PFSENSEV2_INSECURE when the attribute is null:
    set by any non-empty value but the word false in any case, so also by
    0 and by no. *)
Example ConfiguredInsecure_from_environment :
  let insecure value :=
    snd (ConfiguredInsecure {[ "PFSENSEV2_INSECURE" := value ]}
           (config_of device_url types.StringNull types.StringNull
              types.StringNull) fresh_response) in
  insecure "true" = true ∧ insecure "1" = true ∧
  insecure "false" = false ∧ insecure "FALSE" = false ∧
  insecure "False" = false ∧ insecure "" = false ∧
  insecure "0" = true ∧ insecure "no" = true.
Proof. repeat split. Qed.

End configure_claims.

(** ** The base64 encoder *)

Module base64_facts.
Import base64 spec.

Lemma land_shiftl_small a b k :
  0 <= k → 0 <= b < 2 ^ k → Z.land (Z.shiftl a k) b = 0.
Proof.
  intros Hk Hb. apply Z.bits_inj'. intros n Hn.
  rewrite Z.land_spec, Z.bits_0.
  destruct (Z.lt_ge_cases n k) as [Hlt|Hge].
  - by rewrite Z.shiftl_spec_low.
  - destruct (Z.eq_dec b 0) as [->|Hb0]; [by rewrite Z.bits_0, andb_false_r|].
    rewrite (Z.bits_above_log2 b n), andb_false_r; [done|lia|].
    apply Z.lt_le_trans with k; [|done]. apply Z.log2_lt_pow2; lia.
Qed.

(** Below the shifted bits, [|] is [+]. *)
Lemma lor_shiftl_add a b k :
  0 <= k → 0 <= b < 2 ^ k → Z.lor (Z.shiftl a k) b = a * 2 ^ k + b.
Proof.
  intros Hk Hb. rewrite <- Z.shiftl_mul_pow2 by done.
  rewrite <- Z.add_lor_land, land_shiftl_small by done. lia.
Qed.

Lemma uint_range c : 0 <= uint c < 256.
Proof.
  unfold uint. pose proof (N_ascii_bounded c). lia.
Qed.

Lemma byte_uint c : byte (uint c) = c.
Proof. unfold byte, uint. by rewrite N2Z.id, ascii_N_embedding. Qed.

(** The 24 bits of a full group, of a group of two bytes and of a group
    of one byte, as numbers. *)
Lemma group_value u0 u1 u2 :
  0 <= u0 < 256 → 0 <= u1 < 256 → 0 <= u2 < 256 →
  Z.lor (Z.lor (Z.shiftl u0 16) (Z.shiftl u1 8)) u2 =
  u0 * 65536 + u1 * 256 + u2.
Proof.
  intros H0 H1 H2.
  replace (Z.shiftl u0 16) with (Z.shiftl (Z.shiftl u0 8) 8)
    by (by rewrite Z.shiftl_shiftl by lia).
  rewrite <- Z.shiftl_lor, (lor_shiftl_add u0 u1 8) by lia.
  rewrite lor_shiftl_add by lia. lia.
Qed.

Lemma group_value_2 u0 u1 :
  0 <= u0 < 256 → 0 <= u1 < 256 →
  Z.lor (Z.shiftl u0 16) (Z.shiftl u1 8) = u0 * 65536 + u1 * 256.
Proof.
  intros H0 H1. rewrite <- (Z.lor_0_r (Z.lor _ _)).
  rewrite group_value by lia. lia.
Qed.

Lemma group_value_1 u0 : Z.shiftl u0 16 = u0 * 65536.
Proof. by rewrite Z.shiftl_mul_pow2. Qed.

Lemma sextet_value val shift :
  0 <= shift → Z.land (Z.shiftr val shift) 63 = (val / 2 ^ shift) `mod` 64.
Proof.
  intros Hs. rewrite Z.shiftr_div_pow2 by done.
  change 63 with (Z.ones 6). by rewrite Z.land_ones.
Qed.

Lemma alphabet_letter (n : nat) :
  (n < 64)%nat →
  letter_value (default "A"%char (String.get n encodeStd)) = Some (Z.of_nat n) ∧
  default "A"%char (String.get n encodeStd) ≠ StdPadding.
Proof.
  intros Hn. do 64 (destruct n as [|n]; [by split|]). lia.
Qed.

(** A letter of the encoder is read back as the six bits it stands
    for, and is never the padding. *)
Lemma letter_value_encode_at val shift :
  0 <= shift →
  letter_value (encode_at val shift) = Some ((val / 2 ^ shift) `mod` 64) ∧
  encode_at val shift ≠ StdPadding.
Proof.
  intros Hs. unfold encode_at. rewrite sextet_value by done.
  pose proof (Z.mod_pos_bound (val / 2 ^ shift) 64 eq_refl) as Hk.
  destruct (alphabet_letter (Z.to_nat ((val / 2 ^ shift) `mod` 64)))
    as [Hv Hp]; [lia|].
  rewrite Z2Nat.id in Hv by lia. done.
Qed.

Lemma string_ind3 (P : string → Prop) :
  P "" →
  (∀ b0, P (String b0 "")) →
  (∀ b0 b1, P (String b0 (String b1 ""))) →
  (∀ b0 b1 b2 rest, P rest → P (String b0 (String b1 (String b2 rest)))) →
  ∀ s, P s.
Proof.
  intros H0 H1 H2 H3.
  assert (∀ s, P s ∧ (∀ b, P (String b s)) ∧ (∀ b b', P (String b (String b' s))))
    as Hall; [|intros s; apply Hall].
  induction s as [|c s (IH0 & IH1 & IH2)]; [by repeat split|].
  split; [exact (IH1 c)|]. split; [intros b; exact (IH2 b c)|].
  intros b b'. by apply H3.
Qed.

(** The sextets of a group, put together again, are its bytes. *)
Ltac bytes_arith val :=
  subst val;
  change (2 ^ 18) with 262144; change (2 ^ 12) with 4096;
  change (2 ^ 6) with 64; change (2 ^ 0) with 1;
  Z.div_mod_to_equations; lia.

(** Decoding what the encoder wrote gives the bytes back. *)
Theorem EncodeToString_decoded src :
  base64_decode (EncodeToString src) = Some src.
Proof.
  induction src as [|b0|b0 b1|b0 b1 b2 rest IH] using string_ind3.
  - reflexivity.
  - cbn [EncodeToString base64_decode]. rewrite group_value_1.
    pose proof (uint_range b0) as H0.
    set (val := uint b0 * 65536).
    destruct (letter_value_encode_at val 18) as [-> _]; [lia|].
    destruct (letter_value_encode_at val 12) as [-> _]; [lia|].
    rewrite !bool_decide_eq_true_2 by done.
    assert ((val `div` 2 ^ 18) `mod` 64 * 4 +
            ((val `div` 2 ^ 12) `mod` 64) `div` 16 = uint b0) as ->
      by bytes_arith val.
    by rewrite byte_uint.
  - cbn [EncodeToString base64_decode].
    pose proof (uint_range b0) as H0. pose proof (uint_range b1) as H1.
    rewrite group_value_2 by done.
    set (val := uint b0 * 65536 + uint b1 * 256).
    destruct (letter_value_encode_at val 18) as [-> _]; [lia|].
    destruct (letter_value_encode_at val 12) as [-> _]; [lia|].
    destruct (letter_value_encode_at val 6) as [-> Hp]; [lia|].
    rewrite (bool_decide_eq_false_2 _ Hp).
    rewrite !bool_decide_eq_true_2 by done.
    assert ((val `div` 2 ^ 18) `mod` 64 * 4 +
            ((val `div` 2 ^ 12) `mod` 64) `div` 16 = uint b0) as ->
      by bytes_arith val.
    assert (((val `div` 2 ^ 12) `mod` 64) `mod` 16 * 16 +
            ((val `div` 2 ^ 6) `mod` 64) `div` 4 = uint b1) as ->
      by bytes_arith val.
    by rewrite !byte_uint.
  - cbn [EncodeToString base64_decode].
    pose proof (uint_range b0) as H0. pose proof (uint_range b1) as H1.
    pose proof (uint_range b2) as H2.
    rewrite group_value by done.
    set (val := uint b0 * 65536 + uint b1 * 256 + uint b2).
    destruct (letter_value_encode_at val 18) as [-> _]; [lia|].
    destruct (letter_value_encode_at val 12) as [-> _]; [lia|].
    destruct (letter_value_encode_at val 6) as [-> Hp2]; [lia|].
    destruct (letter_value_encode_at val 0) as [-> Hp3]; [lia|].
    rewrite (bool_decide_eq_false_2 _ Hp2), (bool_decide_eq_false_2 _ Hp3), IH.
    assert ((val `div` 2 ^ 18) `mod` 64 * 4 +
            ((val `div` 2 ^ 12) `mod` 64) `div` 16 = uint b0) as ->
      by bytes_arith val.
    assert (((val `div` 2 ^ 12) `mod` 64) `mod` 16 * 16 +
            ((val `div` 2 ^ 6) `mod` 64) `div` 4 = uint b1) as ->
      by bytes_arith val.
    assert (((val `div` 2 ^ 6) `mod` 64) `mod` 4 * 64 +
            (val `div` 2 ^ 0) `mod` 64 = uint b2) as ->
      by bytes_arith val.
    by rewrite !byte_uint.
Qed.

(** Two strings with the same encoding are the same string. *)
Corollary EncodeToString_inj s t :
  EncodeToString s = EncodeToString t → s = t.
Proof.
  intros Heq. assert (Some s = Some t) as [=]; [|done].
  by rewrite <- !EncodeToString_decoded, Heq.
Qed.

(** Four letters for every group of three bytes, the last one padded. *)
Lemma EncodeToString_length src :
  Z.of_nat (String.length (EncodeToString src)) =
  4 * ((Z.of_nat (String.length src) + 2) / 3).
Proof.
  induction src as [|b0|b0 b1|b0 b1 b2 rest IH] using string_ind3;
    try reflexivity.
  cbn [EncodeToString String.length]. rewrite !Nat2Z.inj_succ, IH.
  Z.div_mod_to_equations. lia.
Qed.

End base64_facts.

(** ** The header map and the authentication decorators *)

Module client_claims.
Import generated pfsense_rest_v2.

Lemma Values_Add h key value :
  http.Values (http.Add h key value) key = http.Values h key ++ [value].
Proof. unfold http.Values, http.Add. by rewrite lookup_insert_eq. Qed.

Lemma Values_Add_other h key key' value :
  textproto.CanonicalMIMEHeaderKey key' ≠ textproto.CanonicalMIMEHeaderKey key →
  http.Values (http.Add h key value) key' = http.Values h key'.
Proof. intros Hne. unfold http.Values, http.Add. by rewrite lookup_insert_ne. Qed.

(** [AddHeader] registers one more request editor, after those that are
    there, and that editor adds the header to the request it is given. *)
Lemma AddHeader_registers client header value :
  ∃ editor,
    AddHeader client header value =
      {| Server := Server client;
         RequestEditors := RequestEditors client ++ [editor] |} ∧
    ∀ req, editor req = (http.Request_Header_Add req header value, None).
Proof. eexists. split; [reflexivity|]. done. Qed.

(** C3: the option of [BasicAuth] leaves the client with one more request
    editor, which adds to the values of the header Authorization the word
    Basic, a space and the base64 encoding of the user name, a colon and
    the password; the option of [APIKeyAuth] does the same with the header
    X-API-Key and the token. Neither returns an error nor touches the rest
    of the request. *)
Theorem ClientOption_registers_authentication_header :
  (∀ auth client, ∃ editor,
     BasicAuth_ClientOption auth client =
       ({| Server := Server client;
           RequestEditors := RequestEditors client ++ [editor] |}, None) ∧
     ∀ req, ∃ req',
       editor req = (req', None) ∧
       http.Method req' = http.Method req ∧ http.URL req' = http.URL req ∧
       http.Header_ req' =
         http.Add (http.Header_ req) "Authorization"
           ("Basic " +:+
            base64.EncodeToString (Username auth +:+ ":" +:+ Password auth)) ∧
       http.Values (http.Header_ req') "Authorization" =
         http.Values (http.Header_ req) "Authorization" ++
         ["Basic " +:+
          base64.EncodeToString (Username auth +:+ ":" +:+ Password auth)]) ∧
  (∀ auth client, ∃ editor,
     APIKeyAuth_ClientOption auth client =
       ({| Server := Server client;
           RequestEditors := RequestEditors client ++ [editor] |}, None) ∧
     ∀ req, ∃ req',
       editor req = (req', None) ∧
       http.Method req' = http.Method req ∧ http.URL req' = http.URL req ∧
       http.Header_ req' = http.Add (http.Header_ req) "X-API-Key" (APIToken auth) ∧
       http.Values (http.Header_ req') "X-API-Key" =
         http.Values (http.Header_ req) "X-API-Key" ++ [APIToken auth]).
Proof.
  split; intros auth client.
  - destruct (AddHeader_registers client "Authorization"
                ("Basic " +:+
                 base64.EncodeToString (Username auth +:+ ":" +:+ Password auth)))
      as (editor & Hadd & Hed).
    exists editor. split.
    + unfold BasicAuth_ClientOption. by rewrite Hadd.
    + intros req. eexists. split; [apply Hed|].
      repeat split. apply Values_Add.
  - destruct (AddHeader_registers client "X-API-Key" (APIToken auth))
      as (editor & Hadd & Hed).
    exists editor. split.
    + unfold APIKeyAuth_ClientOption. by rewrite Hadd.
    + intros req. eexists. split; [apply Hed|].
      repeat split. apply Values_Add.
Qed.

(** The encoder on the test vectors of RFC 4648 and on a pair of
    credentials. *)
Example EncodeToString_rfc4648 :
  base64.EncodeToString "" = "" ∧
  base64.EncodeToString "f" = "Zg==" ∧
  base64.EncodeToString "fo" = "Zm8=" ∧
  base64.EncodeToString "foo" = "Zm9v" ∧
  base64.EncodeToString "foob" = "Zm9vYg==" ∧
  base64.EncodeToString "fooba" = "Zm9vYmE=" ∧
  base64.EncodeToString "foobar" = "Zm9vYmFy" ∧
  base64.EncodeToString "admin:pfsense" = "YWRtaW46cGZzZW5zZQ==".
Proof. repeat split. Qed.

(** The two header names in the canonical form under which the map
    stores them. *)
Example canonical_header_names :
  textproto.CanonicalMIMEHeaderKey "Authorization" = "Authorization" ∧
  textproto.CanonicalMIMEHeaderKey "X-API-Key" = "X-Api-Key".
Proof. split; reflexivity. Qed.

End client_claims.

(** ** The two read calls of the client wrapper *)

Module api_claims.
Import generated pfsense_rest_v2 spec examples.

Section wrapper.
Context `{Generated}.

(** A complete record is converted, without a panic, into the rule that
    holds its fields. *)
Lemma convertRule_complete r :
  complete r → ∃ rule, convertRule r = ([], Returns rule) ∧ copied r rule.
Proof.
  destruct r as [ty ifs dis ipp lg de pr so sp dst dp].
  unfold complete. simpl.
  intros ([? ->] & [? ->] & [? ->] & [? ->] & [? ->] & [? ->] &
          [? ->] & [? ->] & [? ->] & [? ->] & [? ->]).
  unfold convertRule. simpl. run_binds.
  eexists. split; [reflexivity|]. by repeat split.
Qed.

(** A record with an absent field makes the conversion panic. *)
Lemma convertRule_incomplete r :
  ¬ complete r → convertRule r = ([], Panics nil_dereference).
Proof.
  destruct r as [ty ifs dis ipp lg de pr so sp dst dp].
  unfold complete. simpl. intros Hinc.
  destruct ty, ifs, dis, ipp, lg, de, pr, so, sp, dst, dp;
    try reflexivity.
  exfalso. apply Hinc. repeat split; eauto.
Qed.

Lemma convertRules_complete rulesJSON acc :
  Forall complete rulesJSON →
  ∃ rules,
    convertRules rulesJSON (slice_of acc) =
      ([], Returns (slice_of (acc ++ map Some rules))) ∧
    Forall2 copied rulesJSON rules.
Proof.
  intros Hall. revert acc.
  induction Hall as [|r rest Hr _ IH]; intros acc.
  - exists []. split; [|constructor]. simpl. by rewrite app_nil_r.
  - destruct (convertRule_complete r Hr) as (rule & Hrule & Hcopied).
    destruct (IH (acc ++ [Some rule])) as (rules & Hrules & Hall2).
    exists (rule :: rules). split; [|by constructor].
    simpl. rewrite Hrule, bind_Returns. simpl.
    unfold append. simpl. rewrite Hrules. simpl.
    by rewrite <- app_assoc.
Qed.

(** [GetBaseConfig] on a client: one call, then a case analysis of the
    answer. *)
Lemma GetBaseConfig_cases c api :
  apiClient c = Some api →
  GetBaseConfig (Some c) =
  ([HostnameEndpointCall],
   match GetSystemHostnameEndpointWithResponse api with
   | inr err => Returns (None, Some err)
   | inl response =>
       match Hostname_JSON200 response with
       | None =>
           Returns (None,
                    Some ("unexpected response retrieving base config: " +:+
                          Sprint_hostname_response response))
       | Some json200 =>
           match Hostname_Data json200 with
           | None => Panics nil_dereference
           | Some data =>
               match generated.Hostname data, generated.Domain data with
               | Some hostname, Some domain =>
                   Returns (Some {| Hostname := hostname; Domain := domain |},
                            None)
               | _, _ => Panics nil_dereference
               end
           end
       end
   end).
Proof.
  intros Hapi. unfold GetBaseConfig.
  rewrite bind_deref_Some, Hapi, bind_deref_Some.
  unfold emit. rewrite bind_Returns.
  destruct (GetSystemHostnameEndpointWithResponse api) as [response|err];
    [|reflexivity].
  destruct (Hostname_JSON200 response) as [json200|]; [|reflexivity].
  destruct (Hostname_Data json200) as [data|]; [|reflexivity].
  run_binds.
  destruct (generated.Hostname data); run_binds; [|reflexivity].
  destruct (generated.Domain data); reflexivity.
Qed.

(** C8, amended: [GetBaseConfig] returns an error exactly when the call
    fails or the response holds no decoded JSON 200 body; otherwise, when
    the payload, its host name and its domain are present, it returns the
    base configuration made of that host name and that domain. In both
    cases the endpoint is called once. *)
Theorem GetBaseConfig_result c api :
  apiClient c = Some api →
  let reply := GetSystemHostnameEndpointWithResponse api in
  let run := GetBaseConfig (Some c) in
  trace run = [HostnameEndpointCall] ∧
  ((∃ config err, outcome run = Returns (config, Some err)) ↔
   ((∃ err, reply = inr err) ∨
    (∃ response, reply = inl response ∧ Hostname_JSON200 response = None))) ∧
  (∀ response json200 data hostname domain,
     reply = inl response →
     Hostname_JSON200 response = Some json200 →
     Hostname_Data json200 = Some data →
     generated.Hostname data = Some hostname →
     generated.Domain data = Some domain →
     outcome run =
       Returns (Some {| Hostname := hostname; Domain := domain |}, None)).
Proof.
  intros Hapi reply run. subst run. rewrite (GetBaseConfig_cases _ _ Hapi).
  fold reply. unfold trace, outcome. simpl. split; [done|].
  destruct reply as [response|err].
  2: { split; [split; eauto | intros; discriminate]. }
  destruct (Hostname_JSON200 response) as [json200|] eqn:Hjson.
  2: { split; [split; eauto 6 | intros ? ? ? ? ? [= <-]; congruence]. }
  split.
  - split.
    + intros (config & err & Hret).
      destruct (Hostname_Data json200) as [data|]; [|discriminate].
      destruct (generated.Hostname data), (generated.Domain data);
        discriminate.
    + intros [[err [=]] | (r & [= <-] & Hnone)]. congruence.
  - intros r j d h dm [= <-] Hj Hd Hh Hdm.
    rewrite Hjson in Hj. injection Hj as <-. by rewrite Hd, Hh, Hdm.
Qed.

(** C6, amended: on a JSON 200 response whose list of records is present
    and whose records have every field present, [GetFirewallRules] calls
    the endpoint once, with limit 0, and returns without error a non-nil
    list with one rule for each record, in the order of the records, each
    rule holding the eleven fields of its record as they are; for an empty
    list of records that list is empty. *)
Theorem GetFirewallRules_copies_records c api response json200 rulesJSON :
  apiClient c = Some api →
  GetFirewallRulesEndpointWithResponse api (Some {| Limit := Some 0 |})
    = inl response →
  Rules_JSON200 response = Some json200 →
  Rules_Data json200 = Some rulesJSON →
  Forall complete (elems rulesJSON) →
  ∃ rules,
    GetFirewallRules (Some c) =
      ([FirewallRulesEndpointCall (Some 0)],
       Returns (slice_of (map Some rules), None)) ∧
    Forall2 copied (elems rulesJSON) rules ∧
    (elems rulesJSON = [] → rules = []).
Proof.
  intros Hapi Hreply Hjson Hdata Hall.
  destruct (convertRules_complete (elems rulesJSON) [] Hall)
    as (rules & Hrules & Hall2).
  exists rules. split; [|split; [done|]].
  - unfold GetFirewallRules.
    rewrite bind_deref_Some, Hapi, bind_deref_Some.
    unfold emit. rewrite bind_Returns. simpl. rewrite Hreply, Hjson. simpl.
    rewrite Hdata, bind_deref_Some, Hrules. reflexivity.
  - intros Hnil. rewrite Hnil in Hall2. by inversion Hall2.
Qed.

End wrapper.

Lemma GetBaseConfig_result_witness :
  outcome (GetBaseConfig (H := device (inl hostname_ok) (inl (rules_answer [])))
             (Some a_client)) =
  Returns (Some {| Hostname := "pfSense"; Domain := "home.arpa" |}, None).
Proof.
  pose proof (GetBaseConfig_result
                (H := device (inl hostname_ok) (inl (rules_answer [])))
                a_client _ eq_refl) as (_ & _ & Hok).
  exact (Hok _ _ _ _ _ eq_refl eq_refl eq_refl eq_refl eq_refl).
Defined.

(** A JSON 200 response whose payload has no host name: [GetBaseConfig]
    returns neither an error nor a base configuration; it panics. *)
Lemma GetBaseConfig_panics_without_hostname :
  let run :=
    GetBaseConfig (H := device (inl hostname_missing) (inl (rules_answer [])))
      (Some a_client) in
  is_Some (Hostname_JSON200 hostname_missing) ∧
  run = ([HostnameEndpointCall], Panics nil_dereference) ∧
  ¬ (∃ config, outcome run = Returns (Some config, None)).
Proof.
  repeat split; [by eexists|]. by intros (config & [=]).
Qed.

Lemma GetFirewallRules_copies_records_witness :
  ∃ rules,
    GetFirewallRules
      (H := device (inl hostname_ok) (inl (rules_answer [rule_ssh])))
      (Some a_client) =
      ([FirewallRulesEndpointCall (Some 0)],
       Returns (slice_of (map Some rules), None)) ∧
    Forall2 copied [rule_ssh] rules ∧
    ([rule_ssh] = [] → rules = []).
Proof.
  apply (GetFirewallRules_copies_records
           (H := device (inl hostname_ok) (inl (rules_answer [rule_ssh])))
           a_client _ (rules_answer [rule_ssh]) _ (slice_of [rule_ssh])
           eq_refl eq_refl eq_refl eq_refl).
  constructor; [|constructor].
  unfold complete. simpl. repeat split; by eexists.
Defined.

(** A JSON 200 response with a record whose ports are null: the loop
    panics on that record and [GetFirewallRules] returns nothing. *)
Lemma GetFirewallRules_panics_on_null_port :
  let run :=
    GetFirewallRules
      (H := device (inl hostname_ok) (inl (rules_answer [rule_ssh; rule_any])))
      (Some a_client) in
  is_Some (Rules_JSON200 (rules_answer [rule_ssh; rule_any])) ∧
  run = ([FirewallRulesEndpointCall (Some 0)], Panics nil_dereference) ∧
  ¬ (∃ rules err, outcome run = Returns (rules, err)).
Proof.
  repeat split; [by eexists|]. by intros (rules & err & [=]).
Qed.

End api_claims.

(** ** The data source *)

Module read_claims.
Import provider spec examples.

Lemma slices_Contains_elem_of s v :
  slices_Contains s v = bool_decide (v ∈ elems s).
Proof.
  unfold slices_Contains. induction (elems s) as [|x l IH]; simpl.
  - done.
  - rewrite IH, <- bool_decide_or. apply bool_decide_ext.
    rewrite elem_of_cons. split; intros [->|?]; auto.
Qed.

Lemma WANRules_loop_cons {E} rule rest wanRules :
  WANRules_loop (E := E) (rule :: rest) wanRules =
  (r ← deref rule;
   if slices_Contains (Interfaces r) (types.StringValue "wan")
   then WANRules_loop rest (append wanRules r)
   else WANRules_loop rest wanRules).
Proof. reflexivity. Qed.

(** The loop of [WANRules] over non-nil pointers: it never panics, keeps
    the result so far when nothing more matches, and otherwise extends it
    with the matching rules in their order. *)
Lemma WANRules_loop_filter {E} (rules : list PFSenseFirewallRule) wanRules :
  WANRules_loop (E := E) (map Some rules) wanRules =
  ([], Returns match filter on_wan rules with
               | [] => wanRules
               | matching => slice_of (elems wanRules ++ matching)
               end).
Proof.
  revert wanRules. induction rules as [|r rest IH]; intros wanRules.
  - reflexivity.
  - rewrite fmap_cons, WANRules_loop_cons, bind_deref_Some,
      slices_Contains_elem_of, filter_cons.
    fold (on_wan r). destruct (decide (on_wan r)) as [Hwan|Hwan].
    + rewrite bool_decide_eq_true_2 by done. rewrite IH. simpl.
      destruct (filter on_wan rest); [done|]. by rewrite <- app_assoc.
    + rewrite bool_decide_eq_false_2 by done. apply IH.
Qed.

(** C10: on a list of rules (a slice of non-nil pointers to them),
    [WANRules] returns, without a panic, the rules whose interfaces
    contain the value wan, as they are and in their order; when no rule
    matches the result is empty (nil). *)
Theorem WANRules_keeps_wan_rules {E}
  (rules : list PFSenseFirewallRule) (s : PFSenseFirewallRules) :
  elems s = map Some rules →
  ∃ wanRules,
    WANRules (E := E) s = ([], Returns wanRules) ∧
    elems wanRules = filter on_wan rules ∧
    ((∀ r, r ∈ rules → ¬ on_wan r) → wanRules = nil_slice).
Proof.
  intros Hs. unfold WANRules. rewrite Hs, WANRules_loop_filter.
  eexists. split; [reflexivity|]. split.
  - by destruct (filter on_wan rules).
  - intros Hnone. destruct (filter on_wan rules) as [|r l] eqn:Hf; [done|].
    exfalso. assert (r ∈ filter on_wan rules) as Hin by (rewrite Hf; left).
    apply list_elem_of_filter in Hin as [Hwan Hin]. by apply (Hnone r).
Qed.

Lemma WANRules_keeps_wan_rules_witness :
  ∃ wanRules,
    WANRules (E := Event)
      (slice_of [Some lan_rule; Some wan_rule; Some lan_rule]) =
      ([], Returns wanRules) ∧
    elems wanRules = [wan_rule] ∧
    ((∀ r, r ∈ [lan_rule; wan_rule; lan_rule] → ¬ on_wan r) →
     wanRules = nil_slice).
Proof.
  exact (WANRules_keeps_wan_rules (E := Event)
           [lan_rule; wan_rule; lan_rule]
           (slice_of [Some lan_rule; Some wan_rule; Some lan_rule]) eq_refl).
Defined.

Lemma outcome_api {A} (m : Exec pfsense_rest_v2.Event A) :
  outcome (api m) = outcome m.
Proof. reflexivity. Qed.

Lemma trace_api {A} (m : Exec pfsense_rest_v2.Event A) :
  trace (api m) = map Api (trace m).
Proof. reflexivity. Qed.

Section read.
Context `{generated.Generated} `{Framework}.

(** The loop of [Read] over the rules asks nothing of the outside. *)
Lemma Read_rules_trace firewallRulesResponse firewallRules :
  trace (Read_rules firewallRulesResponse firewallRules) = [].
Proof.
  revert firewallRules.
  induction firewallRulesResponse as [|[r|] rest IH]; intros firewallRules.
  - reflexivity.
  - change (Read_rules (Some r :: rest) firewallRules)
      with (r' ← deref (Some r); Read_rules rest
              (append firewallRules (Some (Read_rule r')))).
    rewrite bind_deref_Some. apply IH.
  - reflexivity.
Qed.

(** When the host name cannot be read, [Read] goes on, asks for the
    firewall rules, and panics before it sets any state. *)
Lemma Read_panics_when_base_config_fails d c api req resp err :
  diag.HasError
    (diag.Append (Read_Diagnostics resp) (snd (Read_Config_Get req))) = false →
  client d = Some c →
  pfsense_rest_v2.apiClient c = Some api →
  generated.GetSystemHostnameEndpointWithResponse api = inr err →
  (∃ why, outcome (Read d req resp) = Panics why) ∧
  ∀ data, StateSet data ∉ trace (Read d req resp).
Proof.
  intros Hno Hclient Hapi Hreply. unfold Read.
  rewrite (surjective_pairing (Read_Config_Get req)). simpl. rewrite Hno.
  rewrite Hclient, (api_claims.GetBaseConfig_cases _ _ Hapi), Hreply.
  rewrite outcome_bind, trace_bind. simpl.
  rewrite outcome_bind, trace_bind, outcome_api, trace_api.
  case_outcome (pfsense_rest_v2.GetFirewallRules (Some c)) rules; simpl.
  - destruct rules as [rules err'].
    rewrite outcome_bind, trace_bind, Read_rules_trace.
    case_outcome (Read_rules (elems rules) nil_slice) fr; simpl.
    + unfold panic. run_binds. split; [by eexists|]. intros data.
      rewrite !app_nil_r, elem_of_cons, list_elem_of_fmap.
      by intros [[=]|(e & [=] & _)].
    + split; [by eexists|]. intros data.
      rewrite !app_nil_r, elem_of_cons, list_elem_of_fmap.
      by intros [[=]|(e & [=] & _)].
  - split; [by eexists|]. intros data.
    rewrite !app_nil_r, elem_of_cons, list_elem_of_fmap.
    by intros [[=]|(e & [=] & _)].
Qed.

End read.

(** C7, on a device that refuses the host name call: [Read] asks for the
    firewall rules all the same and then panics; and on a device that
    answers the host name call and refuses the rules call: [Read] adds the
    error and still sets the state, to a model with the host name and no
    rules. *)
Theorem Read_after_client_error :
  Read (H := device (inr "connection refused") (inl (rules_answer [rule_ssh])))
    data_source read_request fresh_read_response =
    ([Api pfsense_rest_v2.HostnameEndpointCall;
      Api (pfsense_rest_v2.FirewallRulesEndpointCall (Some 0))],
     Panics nil_dereference) ∧
  Read (H := device (inl hostname_ok) (inr "connection refused"))
    data_source read_request fresh_read_response =
    ([Api pfsense_rest_v2.HostnameEndpointCall;
      Api (pfsense_rest_v2.FirewallRulesEndpointCall (Some 0));
      StateSet hostname_only],
     Returns
       (@Build_ReadResponse last_model
          [diag.NewErrorDiagnostic "Client Error"
             "Unable to read firewall rules, got error: connection refused"]
          (Some hostname_only : option PFSenseModel))).
Proof. split; reflexivity. Qed.

End read_claims.

(** ** The port validator *)

Module validator_facts.
Import strconv regexp.

Lemma all_digits_cons c s :
  all_digits (String c s) = is_digit c && all_digits s.
Proof. reflexivity. Qed.

Lemma all_digits_app a b :
  all_digits (a +:+ b) = all_digits a && all_digits b.
Proof.
  induction a as [|c a IH]; [done|].
  change (String c a +:+ b) with (String c (a +:+ b)).
  rewrite !all_digits_cons, IH. by rewrite andb_assoc.
Qed.

(** [span_digits] cuts the string in two: digits, then what starts with
    a byte that is no digit. *)
Lemma span_digits_spec s :
  s = fst (span_digits s) +:+ snd (span_digits s) ∧
  all_digits (fst (span_digits s)) = true ∧
  match snd (span_digits s) with
  | String c _ => is_digit c = false
  | EmptyString => True
  end.
Proof.
  induction s as [|c s (IH1 & IH2 & IH3)]; [done|].
  simpl. destruct (is_digit c) eqn:Hc.
  - destruct (span_digits s) as [d rest]. simpl in *.
    rewrite all_digits_cons, Hc, IH2. repeat split; [|done].
    change (String c d +:+ rest) with (String c (d +:+ rest)). by rewrite <- IH1.
  - simpl. by rewrite Hc.
Qed.

Lemma span_digits_app a rest :
  all_digits a = true →
  match rest with
  | String c _ => is_digit c = false
  | EmptyString => True
  end →
  span_digits (a +:+ rest) = (a, rest).
Proof.
  intros Ha Hrest. induction a as [|c a IH]; simpl.
  - destruct rest as [|c r]; [done|]. simpl. by rewrite Hrest.
  - rewrite all_digits_cons in Ha. apply andb_true_iff in Ha as [Hc Ha].
    by rewrite Hc, (IH Ha).
Qed.

(** The expression matches exactly the strings made of digits, a
    colon and digits, and its two groups are the two strings of digits. *)
Lemma FindStringSubmatch_Some val w a b :
  portRangeRe_FindStringSubmatch val = Some (w, a, b) ↔
  w = val ∧ spec.port_range_form val a b.
Proof.
  unfold portRangeRe_FindStringSubmatch, spec.port_range_form. split.
  - destruct (span_digits_spec val) as (Hval & Ha & _).
    destruct (span_digits val) as [a' rest]. simpl in *.
    destruct rest as [|c b']; [done|].
    destruct (bool_decide (c = ":"%char)) eqn:Hc; [|done].
    destruct (bool_decide (a' ≠ "")) eqn:Ha'; [|done].
    destruct (bool_decide (b' ≠ "")) eqn:Hb'; [|done].
    destruct (all_digits b') eqn:Hd; [|done]. simpl.
    apply bool_decide_eq_true in Hc, Ha', Hb'. subst c.
    by intros [= <- <- <-].
  - intros (-> & -> & Ha & Hb & Hda & Hdb).
    change (":" +:+ b) with (String ":"%char b).
    rewrite (span_digits_app a (String ":" b) Hda) by done.
    rewrite !bool_decide_eq_true_2 by done. by rewrite Hdb.
Qed.

Lemma FindStringSubmatch_None val :
  portRangeRe_FindStringSubmatch val = None ↔
  ¬ ∃ a b, spec.port_range_form val a b.
Proof.
  split.
  - intros Hnone (a & b & Hform).
    assert (portRangeRe_FindStringSubmatch val = Some (val, a, b)) as Hsome
      by by apply FindStringSubmatch_Some.
    congruence.
  - intros Hno.
    destruct (portRangeRe_FindStringSubmatch val) as [[[w a] b]|] eqn:Hm;
      [|done].
    apply FindStringSubmatch_Some in Hm as [_ Hform]. exfalso. eauto.
Qed.

(** A string has at most one reading as a range. *)
Lemma port_range_form_unique val a b a' b' :
  spec.port_range_form val a b → spec.port_range_form val a' b' →
  a = a' ∧ b = b'.
Proof.
  intros H1 H2.
  assert (portRangeRe_FindStringSubmatch val = Some (val, a, b)) as E1
    by by apply FindStringSubmatch_Some.
  assert (portRangeRe_FindStringSubmatch val = Some (val, a', b')) as E2
    by by apply FindStringSubmatch_Some.
  rewrite E1 in E2. by injection E2.
Qed.

Lemma digits_value_all_digits s n u :
  digits_value s n = Some u → all_digits s = true.
Proof.
  revert n. induction s as [|c s IH]; intros n; [done|].
  simpl. rewrite all_digits_cons.
  destruct (is_digit c); [|done]. intros Hs. by rewrite (IH _ Hs).
Qed.

(** What [parse] accepts is an optional sign and then digits only. *)
Lemma parse_inl_all_digits s n :
  parse s = inl n → all_digits (snd (strip_sign s)) = true.
Proof.
  unfold parse. destruct (strip_sign s) as [neg body]. simpl.
  destruct body as [|c body]; [done|].
  destruct (digits_value (String c body) 0) as [u|] eqn:Hd; [|done].
  intros _. by apply (digits_value_all_digits _ _ _ Hd).
Qed.

Section atoi.
Context `{Quoter}.

Lemma Atoi_parse s n : Atoi s = (n, None) ↔ parse s = inl n.
Proof.
  unfold Atoi. destruct (parse s) as [m|[|]]; split; intros [=]; by subst.
Qed.

Lemma Atoi_error_iff s : snd (Atoi s) ≠ None ↔ ¬ ∃ n, Atoi s = (n, None).
Proof.
  unfold Atoi. destruct (parse s) as [m|[|]]; simpl.
  - split; [done|]. intros Hno. exfalso. apply Hno. eauto.
  - split; [|done]. by intros _ [n [=]].
  - split; [|done]. by intros _ [n [=]].
Qed.

(** No string that [Atoi] parses is the word null or a range. *)
Lemma Atoi_not_null_nor_range s n :
  Atoi s = (n, None) →
  s ≠ "null" ∧ ¬ ∃ a b, spec.port_range_form s a b.
Proof.
  intros Hok. split.
  - intros ->. discriminate Hok.
  - intros (a & b & -> & Ha & _ & Hda & _).
    apply Atoi_parse, parse_inl_all_digits in Hok.
    destruct a as [|c a]; [done|].
    rewrite all_digits_cons in Hda. apply andb_true_iff in Hda as [Hc Hda].
    assert (strip_sign (String c a +:+ ":" +:+ b)
            = (false, String c a +:+ ":" +:+ b)) as Hsign.
    { simpl. repeat case_bool_decide; subst; done. }
    rewrite Hsign in Hok. cbn [snd] in Hok.
    rewrite !all_digits_app in Hok.
    change (all_digits ":") with false in Hok.
    by rewrite andb_false_l, andb_false_r in Hok.
Qed.

End atoi.

End validator_facts.

Module validator_claims.
Import provider spec examples validator_facts.

Section validator.
Context `{strconv.Quoter}.

(** [PortNumber] gives back what [Atoi] parsed when that is a port, and
    an error with value 0 otherwise. *)
Lemma PortNumber_cases val :
  (∃ n, PortNumber val = (n, None) ∧
        strconv.Atoi val = (n, None) ∧ 1 <= n <= 65535) ∨
  (¬ is_port val ∧ ∃ e, PortNumber val = (0, Some e)).
Proof.
  unfold PortNumber, is_port.
  destruct (strconv.Atoi val) as [n [e|]] eqn:Hatoi.
  - right. split; [by intros (n' & [=] & _)|].
    rewrite bool_decide_eq_true_2 by done. simpl. eauto.
  - rewrite bool_decide_eq_false_2 by (intros Hne; by apply Hne). simpl.
    destruct (n <? 1) eqn:Hlo; simpl.
    { right. split; [|eauto]. intros (n' & [= <-] & Hr).
      apply Z.ltb_lt in Hlo. lia. }
    rewrite Z.gtb_ltb. destruct (65535 <? n) eqn:Hhi.
    { right. split; [|eauto]. intros (n' & [= <-] & Hr).
      apply Z.ltb_lt in Hhi. lia. }
    left. exists n. apply Z.ltb_ge in Hlo, Hhi. repeat split; lia.
Qed.

Lemma PortNumber_error_iff val : snd (PortNumber val) ≠ None ↔ ¬ is_port val.
Proof.
  destruct (PortNumber_cases val)
    as [(n & -> & Hatoi & Hr) | (Hno & e & ->)]; simpl.
  - split; [done|]. intros Hno. exfalso. apply Hno. exists n. eauto.
  - split; done.
Qed.

(** The two ways [ValidateString] ends: on an accepted value it returns
    the response as it got it, on any other value it appends one error. *)
Lemma ValidateString_cases req resp :
  let val := types.ValueString (ConfigValue req) in
  (accepted val ∧ ValidateString req resp = resp) ∨
  (¬ accepted val ∧
   ∃ d, diag.is_error d = true ∧
        ValidateString req resp =
          {| Validate_Diagnostics :=
               diag.Append (Validate_Diagnostics resp) [d] |}).
Proof.
  intros val. unfold ValidateString. fold val. unfold accepted.
  case_bool_decide as Hnull; [left; split; [by left|done]|].
  destruct (regexp.portRangeRe_FindStringSubmatch val) as [[[w a] b]|] eqn:Hm.
  - apply FindStringSubmatch_Some in Hm as [-> Hform].
    assert (∀ P : Prop,
              (is_port a ∧ is_port b → P) →
              (val = "null" ∨
               (∃ a' b', port_range_form val a' b' ∧ is_port a' ∧ is_port b') ∨
               (val ≠ "null" ∧ (¬ ∃ a' b', port_range_form val a' b') ∧
                ∃ n, strconv.Atoi val = (n, None))) → P) as Hinv.
    { intros P HP [?|[(a' & b' & Hform' & Ha' & Hb')|(_ & Hno & _)]];
        [done| |exfalso; eauto].
      destruct (port_range_form_unique _ _ _ _ _ Hform Hform') as [-> ->].
      by apply HP. }
    destruct (PortNumber_cases a)
      as [(n & Hpa & Haa & Hn) | (Hnoa & e & Hpa)]; rewrite Hpa.
    + assert (is_port a) as Hia by (exists n; eauto).
      rewrite bool_decide_eq_false_2 by (intros Hne; by apply Hne).
      destruct (PortNumber_cases b)
        as [(m & Hpb & Hab & Hm) | (Hnob & e & Hpb)]; rewrite Hpb.
      * assert (is_port b) as Hib by (exists m; eauto).
        rewrite bool_decide_eq_false_2 by (intros Hne; by apply Hne).
        left. split; [|done]. right; left. by exists a, b.
      * rewrite bool_decide_eq_true_2 by done.
        right. split; [|eexists; split; [|reflexivity]; done].
        intros Hacc. apply (Hinv False); [tauto|done].
    + rewrite bool_decide_eq_true_2 by done.
      right. split; [|eexists; split; [|reflexivity]; done].
      intros Hacc. apply (Hinv False); [tauto|done].
  - apply FindStringSubmatch_None in Hm.
    destruct (strconv.Atoi val) as [n [e|]] eqn:Hatoi.
    + rewrite bool_decide_eq_true_2 by done.
      right. split; [|eexists; split; [|reflexivity]; done].
      intros [?|[(a & b & Hform & _)|(_ & _ & n' & [=])]]; [done|].
      apply Hm. eauto.
    + rewrite bool_decide_eq_false_2 by (intros Hne; by apply Hne).
      left. split; [|done]. right; right. eauto.
Qed.

(** C9: on a response without errors, [ValidateString] leaves the
    response as it is exactly for the accepted values: the word null, a
    range of two strings of digits that both parse to a port between 1
    and 65535, and any other string that [Atoi] parses; on every other
    value the response has an error. A single port is not checked against
    the bounds: 0 and 70000 pass. [PortNumber] returns an error exactly
    when its argument does not parse to an integer between 1 and 65535,
    and the parsed integer otherwise. *)
Theorem ValidateString_accepts_exactly req resp :
  let val := types.ValueString (ConfigValue req) in
  (diag.HasError (Validate_Diagnostics resp) = false →
   (ValidateString req resp = resp ↔ accepted val)) ∧
  (¬ accepted val →
   diag.HasError (Validate_Diagnostics (ValidateString req resp)) = true) ∧
  ValidateString
    {| ConfigValue := types.StringValue "0"; Path := Path req |} resp = resp ∧
  ValidateString
    {| ConfigValue := types.StringValue "70000"; Path := Path req |} resp
    = resp ∧
  (∀ s, snd (PortNumber s) ≠ None ↔ ¬ is_port s) ∧
  (∀ s n, strconv.Atoi s = (n, None) → 1 <= n <= 65535 →
          PortNumber s = (n, None)).
Proof.
  intros val.
  assert (¬ accepted val →
          diag.HasError (Validate_Diagnostics (ValidateString req resp)) = true)
    as Hrej.
  { intros Hno.
    destruct (ValidateString_cases req resp)
      as [[Hacc _] | (_ & d & Hd & ->)]; [done|].
    cbn [Validate_Diagnostics]. rewrite diag_facts.HasError_Append.
    simpl. rewrite Hd. by rewrite orb_true_r. }
  split; [|split; [done|]].
  - intros Hclean. split.
    + intros Hsame.
      destruct (ValidateString_cases req resp) as [[Hacc _] | [Hno _]];
        [done|].
      apply Hrej in Hno. rewrite Hsame in Hno. congruence.
    + intros Hacc.
      by destruct (ValidateString_cases req resp) as [[_ Hsame] | [Hno _]].
  - split; [reflexivity|]. split; [reflexivity|].
    split; [apply PortNumber_error_iff|].
    intros s n Hatoi Hn.
    destruct (PortNumber_cases s) as [(m & -> & Hm & _) | (Hno & _)].
    + congruence.
    + exfalso. apply Hno. exists n. eauto.
Qed.

End validator.

Lemma ValidateString_accepts_exactly_witness :
  ValidateString (H := plain_Quote)
    {| ConfigValue := types.StringValue "80:443"; Path := "source_port" |}
    {| Validate_Diagnostics := [] |} = {| Validate_Diagnostics := [] |} ↔
  accepted (H := plain_Quote) "80:443".
Proof.
  destruct (ValidateString_accepts_exactly (H := plain_Quote)
              {| ConfigValue := types.StringValue "80:443";
                 Path := "source_port" |}
              {| Validate_Diagnostics := [] |}) as [Hiff _].
  apply Hiff. reflexivity.
Defined.

(** Values the validator lets through and values it refuses. *)
Example ValidateString_examples :
  let validate val :=
    Validate_Diagnostics
      (ValidateString (H := plain_Quote)
         {| ConfigValue := types.StringValue val; Path := "source_port" |}
         {| Validate_Diagnostics := [] |}) in
  validate "null" = [] ∧ validate "22" = [] ∧ validate "80:443" = [] ∧
  validate "0" = [] ∧ validate "70000" = [] ∧ validate "-5" = [] ∧
  validate "443:80" = [] ∧
  validate "0:80" =
    [invalid_port_in_range "source_port" "0"] ∧
  validate "80:70000" =
    [invalid_port_in_range "source_port" "70000"] ∧
  diag.HasError (validate "ssh") = true ∧
  diag.HasError (validate "") = true ∧
  diag.HasError (validate "80:") = true.
Proof. repeat split. Qed.

End validator_claims.

(** * Further properties *)

(** ** The provider configuration as a whole *)

Module configure_more.
Import provider spec examples configure_facts.

Lemma Append_prefix diags ins : diags `prefix_of` diag.Append diags ins.
Proof.
  revert diags. induction ins as [|d ins IH]; intros diags; [done|].
  rewrite diag_facts.Append_cons. etrans; [|apply IH].
  destruct (diag.Contains diags d); [done|]. by apply prefix_app_r.
Qed.

Section resolution.
Variable env : gmap string string.

Lemma ConfiguredURL_prefix config resp :
  Diagnostics resp `prefix_of` Diagnostics (fst (ConfiguredURL env config resp)).
Proof.
  unfold ConfiguredURL. cbn [fst].
  set (resp' := if types.String_IsUnknown (URL config) then _ else resp).
  assert (Diagnostics resp `prefix_of` Diagnostics resp') as Hfirst.
  { unfold resp'. destruct (types.String_IsUnknown _); [|done].
    apply Append_prefix. }
  case_bool_decide; [|done]. etrans; [exact Hfirst|]. apply Append_prefix.
Qed.

Lemma ConfiguredAuth_prefix config resp :
  Diagnostics resp `prefix_of` Diagnostics (fst (ConfiguredAuth env config resp)).
Proof.
  rewrite ConfiguredAuth_resolved. cbn zeta.
  repeat (case_bool_decide; simpl; try done); apply Append_prefix.
Qed.

Lemma ConfiguredInsecure_prefix config resp :
  Diagnostics resp `prefix_of`
  Diagnostics (fst (ConfiguredInsecure env config resp)).
Proof.
  unfold ConfiguredInsecure. cbn [fst].
  destruct (types.Bool_IsUnknown _); [|done]. apply Append_prefix.
Qed.

Context `{generated.Generated}.

(** When the resolution leaves no error, [ConfiguredAuth] has returned an
    authorization, and [Configure] calls the constructor once, with the
    resolved URL and the two options, and returns: with the error of the
    constructor among the diagnostics, or with the client in both data
    fields. *)
Lemma Configure_proceeds req resp :
  let config := fst (Config_Get req) in
  let resp1 :=
    with_Diagnostics resp (diag.Append (Diagnostics resp) (snd (Config_Get req))) in
  let resp2 := fst (ConfiguredURL env config resp1) in
  let resp3 := fst (ConfiguredAuth env config resp2) in
  let resp4 := fst (ConfiguredInsecure env config resp3) in
  diag.HasError (Diagnostics resp4) = false →
  ∃ auth apiClient err,
    snd (ConfiguredAuth env config resp2) = Some auth ∧
    generated.NewClientWithResponses (resolved_url env config)
      [pfsense_rest_v2.Authorization_ClientOption auth;
       pfsense_rest_v2.WithContentTypeJSON] = (apiClient, err) ∧
    Configure env req resp =
      ([pfsense_rest_v2.NewClientCall (resolved_url env config)],
       Returns
         match err with
         | Some _ =>
             AddError resp4 "Unable to Create PFSenseV2 API Client"
               ("An unexpected error occurred when creating the PFSenseV2 API client. " +:+
                Error err)
         | None =>
             {| Diagnostics := Diagnostics resp4;
                DataSourceData :=
                  Some {| pfsense_rest_v2.url := resolved_url env config;
                          pfsense_rest_v2.apiClient := apiClient |};
                ResourceData :=
                  Some {| pfsense_rest_v2.url := resolved_url env config;
                          pfsense_rest_v2.apiClient := apiClient |} |}
         end).
Proof.
  intros config resp1 resp2 resp3 resp4 Hclean.
  pose proof Hclean as Hclean'. unfold resp4 in Hclean'.
  rewrite ConfiguredInsecure_HasError in Hclean'.
  apply orb_false_iff in Hclean' as [H3 _]. pose proof H3 as H3'.
  unfold resp3 in H3'. rewrite ConfiguredAuth_HasError in H3'.
  apply orb_false_iff in H3' as [H2 Hauth]. pose proof H2 as H2'.
  unfold resp2 in H2'. rewrite ConfiguredURL_HasError in H2'.
  apply orb_false_iff in H2' as [H1' _].
  apply orb_false_iff in H1' as [H1 _].
  apply bool_decide_eq_false in Hauth. fold resp2 in Hauth.
  destruct (snd (ConfiguredAuth env config resp2)) as [auth|] eqn:Hsome;
    [|done].
  destruct (generated.NewClientWithResponses (resolved_url env config)
              [pfsense_rest_v2.Authorization_ClientOption auth;
               pfsense_rest_v2.WithContentTypeJSON])
    as [apiClient err] eqn:Hnew.
  exists auth, apiClient, err. split; [done|]. split; [done|].
  unfold Configure.
  rewrite (surjective_pairing (Config_Get req)). fold config resp1.
  rewrite H1.
  rewrite (surjective_pairing (ConfiguredURL env config resp1)). fold resp2.
  rewrite (surjective_pairing (ConfiguredAuth env config resp2)). fold resp3.
  rewrite (surjective_pairing (ConfiguredInsecure env config resp3)).
  fold resp4. rewrite Hclean, Hsome, ConfiguredURL_value.
  unfold pfsense_rest_v2.NewPFSenseClientV2.
  rewrite bind_deref_Some. unfold emit. rewrite bind_Returns, Hnew.
  destruct err as [e|]; reflexivity.
Qed.

(** Where [Configure] stops when the resolution has left an error. *)
Lemma Configure_stops_at req resp :
  let config := fst (Config_Get req) in
  let resp1 :=
    with_Diagnostics resp (diag.Append (Diagnostics resp) (snd (Config_Get req))) in
  let resp2 := fst (ConfiguredURL env config resp1) in
  let resp3 := fst (ConfiguredAuth env config resp2) in
  let resp4 := fst (ConfiguredInsecure env config resp3) in
  diag.HasError (Diagnostics resp4) = true →
  Configure env req resp =
    ([], Returns (if diag.HasError (Diagnostics resp1) then resp1 else resp4)).
Proof.
  intros config resp1 resp2 resp3 resp4 Herr. unfold Configure.
  rewrite (surjective_pairing (Config_Get req)). fold config resp1.
  destruct (diag.HasError (Diagnostics resp1)); [done|].
  rewrite (surjective_pairing (ConfiguredURL env config resp1)). fold resp2.
  rewrite (surjective_pairing (ConfiguredAuth env config resp2)). fold resp3.
  rewrite (surjective_pairing (ConfiguredInsecure env config resp3)).
  fold resp4. by rewrite Herr.
Qed.

(** The diagnostics after the three resolution steps extend those the
    response came with. *)
Lemma resolution_prefix req resp :
  let config := fst (Config_Get req) in
  let resp1 :=
    with_Diagnostics resp (diag.Append (Diagnostics resp) (snd (Config_Get req))) in
  let resp2 := fst (ConfiguredURL env config resp1) in
  let resp3 := fst (ConfiguredAuth env config resp2) in
  let resp4 := fst (ConfiguredInsecure env config resp3) in
  Diagnostics resp `prefix_of` Diagnostics resp1 ∧
  Diagnostics resp1 `prefix_of` Diagnostics resp4.
Proof.
  intros config resp1 resp2 resp3 resp4. split; [apply Append_prefix|].
  etrans; [apply (ConfiguredURL_prefix config)|]. fold resp2.
  etrans; [apply (ConfiguredAuth_prefix config)|]. fold resp3.
  apply ConfiguredInsecure_prefix.
Qed.

(** X1: [Configure] never panics: it always returns a response, after no
    call to the outside or after exactly one call of the client
    constructor, made for the URL the configuration resolves to. *)
Theorem Configure_returns_after_at_most_one_call req resp :
  ∃ resp',
    outcome (Configure env req resp) = Returns resp' ∧
    (trace (Configure env req resp) = [] ∨
     trace (Configure env req resp) =
       [pfsense_rest_v2.NewClientCall
          (resolved_url env (fst (Config_Get req)))]).
Proof.
  destruct (diag.HasError
              (Diagnostics
                 (fst (ConfiguredInsecure env (fst (Config_Get req))
                    (fst (ConfiguredAuth env (fst (Config_Get req))
                       (fst (ConfiguredURL env (fst (Config_Get req))
                          (with_Diagnostics resp
                             (diag.Append (Diagnostics resp)
                                (snd (Config_Get req))))))))))))
    eqn:Herr.
  - rewrite (Configure_stops_at req resp Herr). eexists. split; [done|].
    by left.
  - destruct (Configure_proceeds req resp Herr)
      as (auth & apiClient & err & _ & _ & ->).
    eexists. split; [done|]. by right.
Qed.

(** X2: [Configure] hands a client to the data sources and resources
    exactly when it ends without an error diagnostic: either the response
    has an error and its two data fields are as they were, or it has no
    error and both fields hold the same new client, made for the resolved
    URL. *)
Theorem Configure_hands_over_client_iff_no_error req resp :
  ∃ resp',
    outcome (Configure env req resp) = Returns resp' ∧
    ((diag.HasError (Diagnostics resp') = true ∧
      DataSourceData resp' = DataSourceData resp ∧
      ResourceData resp' = ResourceData resp) ∨
     (diag.HasError (Diagnostics resp') = false ∧
      ∃ apiClient,
        DataSourceData resp' =
          Some {| pfsense_rest_v2.url :=
                    resolved_url env (fst (Config_Get req));
                  pfsense_rest_v2.apiClient := apiClient |} ∧
        ResourceData resp' = DataSourceData resp')).
Proof.
  set (config := fst (Config_Get req)).
  set (resp1 := with_Diagnostics resp
                  (diag.Append (Diagnostics resp) (snd (Config_Get req)))).
  set (resp2 := fst (ConfiguredURL env config resp1)).
  set (resp3 := fst (ConfiguredAuth env config resp2)).
  set (resp4 := fst (ConfiguredInsecure env config resp3)).
  assert (DataSourceData resp4 = DataSourceData resp ∧
          ResourceData resp4 = ResourceData resp) as [Hd Hr].
  { destruct (ConfiguredURL_frame env config resp1) as [Hd2 Hr2].
    destruct (ConfiguredAuth_frame env config resp2) as [Hd3 Hr3].
    destruct (ConfiguredInsecure_frame env config resp3) as [Hd4 Hr4].
    unfold resp4. rewrite Hd4, Hr4. unfold resp3. rewrite Hd3, Hr3.
    unfold resp2. by rewrite Hd2, Hr2. }
  destruct (diag.HasError (Diagnostics resp4)) eqn:Herr.
  - rewrite (Configure_stops_at req resp Herr). fold config resp1.
    eexists. split; [done|]. left.
    destruct (diag.HasError (Diagnostics resp1)) eqn:H1; by repeat split.
  - destruct (Configure_proceeds req resp Herr)
      as (auth & apiClient & err & _ & _ & ->).
    fold config resp1 resp2 resp3 resp4.
    eexists. split; [done|]. destruct err as [e|].
    + left. split; [apply diag_facts.HasError_AddError|]. by split.
    + right. split; [done|]. by exists apiClient.
Qed.

(** X3: [Configure] only adds diagnostics: those the response came with
    are still there when it returns, in their order and before any new
    one. *)
Theorem Configure_keeps_diagnostics req resp :
  ∃ resp',
    outcome (Configure env req resp) = Returns resp' ∧
    Diagnostics resp `prefix_of` Diagnostics resp'.
Proof.
  destruct (resolution_prefix req resp) as [Hp1 Hp4].
  set (config := fst (Config_Get req)) in *.
  set (resp1 := with_Diagnostics resp
                  (diag.Append (Diagnostics resp) (snd (Config_Get req)))) in *.
  set (resp2 := fst (ConfiguredURL env config resp1)) in *.
  set (resp3 := fst (ConfiguredAuth env config resp2)) in *.
  set (resp4 := fst (ConfiguredInsecure env config resp3)) in *.
  assert (Diagnostics resp `prefix_of` Diagnostics resp4) as Hp
    by (by etrans).
  destruct (diag.HasError (Diagnostics resp4)) eqn:Herr.
  - rewrite (Configure_stops_at req resp Herr). fold config resp1.
    eexists. split; [done|].
    by destruct (diag.HasError (Diagnostics resp1)).
  - destruct (Configure_proceeds req resp Herr)
      as (auth & apiClient & err & _ & _ & ->).
    fold config resp1 resp2 resp3 resp4.
    eexists. split; [done|]. destruct err as [e|]; [|done].
    etrans; [exact Hp|]. apply Append_prefix.
Qed.

End resolution.

(** [ConfiguredURL] and [ConfiguredAuth] read the environment only through
    the variables of their own attributes. *)
Lemma Getenv_insert_ne env key key' value :
  key ≠ key' → os.Getenv (<[key := value]> env) key' = os.Getenv env key'.
Proof. intros Hne. unfold os.Getenv. by rewrite lookup_insert_ne. Qed.

(** X4: the insecure flag has no effect on what [Configure] does: two
    configurations that differ only in a known or null insecure attribute,
    with or without the variable PFSENSEV2_INSECURE in the environment,
    give the same calls and the same response. *)
Theorem Configure_ignores_insecure
  `{generated.Generated} env value diags c1 c2 resp :
  URL c1 = URL c2 →
  APIClientUsername c1 = APIClientUsername c2 →
  APIClientPassword c1 = APIClientPassword c2 →
  APIClientToken c1 = APIClientToken c2 →
  Insecure c1 ≠ types.BoolUnknown →
  Insecure c2 ≠ types.BoolUnknown →
  Configure (<["PFSENSEV2_INSECURE" := value]> env)
    {| Config_Get := (c1, diags) |} resp =
  Configure env {| Config_Get := (c2, diags) |} resp.
Proof.
  intros Hurl Hu Hp Ht Hi1 Hi2. unfold Configure. cbn [Config_Get].
  destruct (diag.HasError _); [done|].
  set (resp1 := with_Diagnostics resp _).
  assert (ConfiguredURL (<["PFSENSEV2_INSECURE" := value]> env) c1 resp1
          = ConfiguredURL env c2 resp1) as ->.
  { unfold ConfiguredURL. by rewrite Hurl, Getenv_insert_ne. }
  destruct (ConfiguredURL env c2 resp1) as [resp2 url].
  assert (ConfiguredAuth (<["PFSENSEV2_INSECURE" := value]> env) c1 resp2
          = ConfiguredAuth env c2 resp2) as ->.
  { unfold ConfiguredAuth. by rewrite Hu, Hp, Ht, !Getenv_insert_ne. }
  destruct (ConfiguredAuth env c2 resp2) as [resp3 auth].
  assert (∀ e c, Insecure c ≠ types.BoolUnknown →
                 fst (ConfiguredInsecure e c resp3) = resp3) as Hins.
  { intros e c Hc. unfold ConfiguredInsecure. cbn [fst].
    by destruct (Insecure c). }
  rewrite (surjective_pairing (ConfiguredInsecure (<[_ := _]> env) c1 resp3)).
  rewrite (surjective_pairing (ConfiguredInsecure env c2 resp3)).
  by rewrite !Hins.
Qed.

Lemma Configure_ignores_insecure_witness :
  Configure (H := device (inl hostname_ok) (inl (rules_answer [])))
    (<["PFSENSEV2_INSECURE" := "true"]> ∅)
    {| Config_Get := (unknown_username_config, []) |} fresh_response =
  Configure (H := device (inl hostname_ok) (inl (rules_answer [])))
    ∅
    {| Config_Get :=
         ({| URL := device_url;
             Insecure := types.BoolValue false;
             APIClientUsername := types.StringUnknown;
             APIClientPassword := types.StringNull;
             APIClientToken := types.StringValue "1234ABCD" |}, []) |}
    fresh_response.
Proof.
  by apply (Configure_ignores_insecure
              (H := device (inl hostname_ok) (inl (rules_answer [])))).
Defined.

(** X5: the authorization [ConfiguredAuth] returns is usable: basic
    credentials have a non-empty user name and a non-empty password, an API
    key has a non-empty token, and in both cases the response is left as it
    was; when it returns nil the response has an error. *)
Theorem ConfiguredAuth_returns_usable_authorization env config resp :
  match snd (ConfiguredAuth env config resp) with
  | Some (pfsense_rest_v2.AuthBasic auth) =>
      pfsense_rest_v2.Username auth ≠ "" ∧
      pfsense_rest_v2.Password auth ≠ "" ∧
      fst (ConfiguredAuth env config resp) = resp
  | Some (pfsense_rest_v2.AuthAPIKey auth) =>
      pfsense_rest_v2.APIToken auth ≠ "" ∧
      fst (ConfiguredAuth env config resp) = resp
  | None =>
      diag.HasError (Diagnostics (fst (ConfiguredAuth env config resp))) = true
  end.
Proof.
  rewrite ConfiguredAuth_resolved. cbn zeta.
  repeat (case_bool_decide; simpl;
          rewrite ?diag_facts.HasError_AddError; try done).
Qed.

(** X6: [ConfiguredURL] reports a URL once: for an unknown URL both of its
    checks fire, and the response still gets a single diagnostic, at the
    end of those it had. *)
Theorem ConfiguredURL_adds_at_most_one_diagnostic env config resp :
  let d :=
    diag.NewAttributeErrorDiagnostic "url"
      ConfiguredURL_title ConfiguredURL_detail in
  (URL config = types.StringUnknown ∨ resolved_url env config = "" →
   d ∈ Diagnostics (fst (ConfiguredURL env config resp))) ∧
  (Diagnostics (fst (ConfiguredURL env config resp)) = Diagnostics resp ∨
   Diagnostics (fst (ConfiguredURL env config resp)) = Diagnostics resp ++ [d]).
Proof.
  intros d.
  assert (∀ r, Diagnostics
                 (AddAttributeError r "url"
                    ConfiguredURL_title ConfiguredURL_detail) =
               if bool_decide (d ∈ Diagnostics r) then Diagnostics r
               else Diagnostics r ++ [d]) as Hadd by done.
  rewrite <- (ConfiguredURL_value env config resp).
  unfold ConfiguredURL. cbn [fst snd].
  set (url := if negb (types.String_IsNull (URL config))
              then types.ValueString (URL config)
              else os.Getenv env "PFSENSEV2_URL").
  assert (URL config = types.StringUnknown → url = "") as Hunknown.
  { intros Hu. unfold url. by rewrite Hu. }
  destruct (types.String_IsUnknown (URL config)) eqn:Hisu;
    destruct (bool_decide (url = "")) eqn:Hempty;
    rewrite ?Hadd; repeat case_bool_decide; simpl in *.
  all: split; [intros Hbad|]; auto.
  all: try (rewrite ?elem_of_app, ?list_elem_of_singleton; by auto).
  all: try (exfalso; rewrite ?elem_of_app, ?list_elem_of_singleton in *;
            by intuition).
  all: try (destruct Hbad as [Hbad|Hbad]; [|done];
            rewrite Hbad in Hisu; discriminate).
  all: try (destruct Hbad as [Hbad|Hbad]; [by apply Hunknown in Hbad|done]).
Qed.

Lemma ConfiguredURL_adds_at_most_one_diagnostic_witness :
  Diagnostics
    (fst (ConfiguredURL ∅
            (config_of types.StringUnknown types.StringNull
               types.StringNull types.StringNull) fresh_response)) =
  [diag.NewAttributeErrorDiagnostic "url"
     ConfiguredURL_title ConfiguredURL_detail].
Proof.
  destruct (ConfiguredURL_adds_at_most_one_diagnostic ∅
              (config_of types.StringUnknown types.StringNull
                 types.StringNull types.StringNull) fresh_response)
    as [_ [Hsame|Hone]].
  - discriminate Hsame.
  - exact Hone.
Defined.

End configure_more.

(** ** The decorators on the requests of a new client *)

Module client_more.
Import generated pfsense_rest_v2 spec examples.

Lemma string_app_inv_head (s t u : string) : s +:+ t = s +:+ u → t = u.
Proof. induction s as [|c s IH]; [done|]. intros [= Heq]. by apply IH. Qed.

(** A string is cut at its first colon in one way only. *)
Lemma cut_at_colon u1 p1 u2 p2 :
  ":"%char ∉ list_ascii_of_string u1 →
  ":"%char ∉ list_ascii_of_string u2 →
  u1 +:+ ":" +:+ p1 = u2 +:+ ":" +:+ p2 → u1 = u2 ∧ p1 = p2.
Proof.
  revert u2. induction u1 as [|c u1 IH]; intros [|c' u2] H1 H2 Heq.
  - by injection Heq.
  - injection Heq as <- _. exfalso. apply H2. simpl. left.
  - injection Heq as -> _. exfalso. apply H1. simpl. left.
  - injection Heq as <- Heq. simpl in H1, H2.
    apply not_elem_of_cons in H1 as [_ H1].
    apply not_elem_of_cons in H2 as [_ H2].
    by destruct (IH u2 H1 H2 Heq) as [-> ->].
Qed.

(** What the one editor of a new client with an added header does. *)
Lemma applyEditors_AddHeader server header value req :
  applyEditors
    (RequestEditors
       (AddHeader {| Server := server; RequestEditors := [] |} header value))
    req = (http.Request_Header_Add req header value, None).
Proof. reflexivity. Qed.

(** X7: the credentials can be read back from the request of a client
    made with the option of [BasicAuth]: the header it adds is Basic, a
    space and a token whose base64 decoding is the user name, a colon and
    the password. *)
Theorem BasicAuth_header_decodes_to_credentials auth server req :
  ∃ client token,
    BasicAuth_ClientOption auth {| Server := server; RequestEditors := [] |}
      = (client, None) ∧
    applyEditors (RequestEditors client) req =
      (http.Request_Header_Add req "Authorization" ("Basic " +:+ token), None) ∧
    base64_decode token = Some (Username auth +:+ ":" +:+ Password auth).
Proof.
  eexists. exists (base64.EncodeToString (Username auth +:+ ":" +:+ Password auth)).
  split; [reflexivity|]. split; [reflexivity|].
  apply base64_facts.EncodeToString_decoded.
Qed.

(** X8: two basic credentials whose user names hold no colon and whose
    clients decorate a request in the same way are the same credentials. *)
Theorem BasicAuth_header_determines_credentials auth1 auth2 server req :
  ":"%char ∉ list_ascii_of_string (Username auth1) →
  ":"%char ∉ list_ascii_of_string (Username auth2) →
  applyEditors
    (RequestEditors
       (fst (BasicAuth_ClientOption auth1
               {| Server := server; RequestEditors := [] |}))) req =
  applyEditors
    (RequestEditors
       (fst (BasicAuth_ClientOption auth2
               {| Server := server; RequestEditors := [] |}))) req →
  auth1 = auth2.
Proof.
  intros H1 H2. unfold BasicAuth_ClientOption. cbn [fst].
  rewrite !applyEditors_AddHeader. intros [= Hheader].
  assert (http.Values
            (http.Add (http.Header_ req) "Authorization"
               ("Basic " +:+ base64.EncodeToString
                               (Username auth1 +:+ ":" +:+ Password auth1)))
            "Authorization" =
          http.Values
            (http.Add (http.Header_ req) "Authorization"
               ("Basic " +:+ base64.EncodeToString
                               (Username auth2 +:+ ":" +:+ Password auth2)))
            "Authorization") as Hvalues by (by rewrite Hheader).
  rewrite !client_claims.Values_Add in Hvalues.
  apply app_inv_head in Hvalues. injection Hvalues as Htoken.
  apply string_app_inv_head, base64_facts.EncodeToString_inj in Htoken.
  destruct (cut_at_colon _ _ _ _ H1 H2 Htoken) as [Hu Hp].
  destruct auth1, auth2. simpl in *. by subst.
Qed.

Lemma BasicAuth_header_determines_credentials_witness :
  {| Username := "admin"; Password := "pf:sense" |} =
  {| Username := "admin"; Password := "pf:sense" |}.
Proof.
  apply (BasicAuth_header_determines_credentials _ _ "https://192.168.1.1"
           {| http.Method := "GET"; http.URL := "/api/v2/firewall/rules";
              http.Header_ := ∅ |}).
  - apply (bool_decide_unpack _). by vm_compute.
  - apply (bool_decide_unpack _). by vm_compute.
  - reflexivity.
Defined.

(** A user name with a colon breaks this: two different pairs share one
    header. *)
Example BasicAuth_colon_in_username :
  BasicAuth_ClientOption {| Username := "a:b"; Password := "c" |} =
  BasicAuth_ClientOption {| Username := "a"; Password := "b:c" |}.
Proof. reflexivity. Qed.

(** X9: the two options [NewPFSenseClientV2] passes to the constructor
    compose: applied in its order to a new client they return no error,
    keep the server, and leave two editors which, run on a request, add the
    authentication header and the JSON content type, each after the values
    the request already had, and change nothing else of the request. *)
Theorem authentication_and_content_type_compose auth server req :
  ∃ client1 client2 req',
    Authorization_ClientOption auth
      {| Server := server; RequestEditors := [] |} = (client1, None) ∧
    WithContentTypeJSON client1 = (client2, None) ∧
    Server client2 = server ∧
    length (RequestEditors client2) = 2%nat ∧
    applyEditors (RequestEditors client2) req = (req', None) ∧
    http.Method req' = http.Method req ∧ http.URL req' = http.URL req ∧
    http.Values (http.Header_ req') "Content-Type" =
      http.Values (http.Header_ req) "Content-Type" ++ ["application/json"] ∧
    match auth with
    | AuthBasic a =>
        http.Values (http.Header_ req') "Authorization" =
          http.Values (http.Header_ req) "Authorization" ++
          ["Basic " +:+
           base64.EncodeToString (Username a +:+ ":" +:+ Password a)]
    | AuthAPIKey a =>
        http.Values (http.Header_ req') "X-API-Key" =
          http.Values (http.Header_ req) "X-API-Key" ++ [APIToken a]
    end.
Proof.
  destruct auth as [a|a]; do 3 eexists.
  all: split; [reflexivity|]; split; [reflexivity|].
  all: split; [reflexivity|]; split; [reflexivity|].
  all: split; [reflexivity|]; split; [reflexivity|].
  all: split; [reflexivity|]; cbn [http.Header_ http.Request_Header_Add].
  - split.
    + by rewrite client_claims.Values_Add, client_claims.Values_Add_other.
    + rewrite client_claims.Values_Add_other by done.
      apply client_claims.Values_Add.
  - split.
    + by rewrite client_claims.Values_Add, client_claims.Values_Add_other.
    + rewrite client_claims.Values_Add_other by done.
      apply client_claims.Values_Add.
Qed.

(** X10: [RemoveHeader] undoes [AddHeader]: on a new client, removing a
    header after it was added, under any spelling with the same canonical
    form, leaves a request without any value for that header (those it
    came with included) and with its other headers as they were. *)
Theorem RemoveHeader_undoes_AddHeader server header header' value req :
  textproto.CanonicalMIMEHeaderKey header' =
    textproto.CanonicalMIMEHeaderKey header →
  ∃ req',
    applyEditors
      (RequestEditors
         (RemoveHeader
            (AddHeader {| Server := server; RequestEditors := [] |}
               header value) header')) req = (req', None) ∧
    http.Values (http.Header_ req') header = [] ∧
    (∀ key,
       textproto.CanonicalMIMEHeaderKey key ≠
         textproto.CanonicalMIMEHeaderKey header →
       http.Values (http.Header_ req') key = http.Values (http.Header_ req) key).
Proof.
  intros Hsame. eexists. split; [reflexivity|].
  cbn [http.Header_ http.Request_Header_Del http.Request_Header_Add].
  unfold http.Values, http.Del, http.Add. rewrite Hsame. split.
  - by rewrite lookup_delete_eq.
  - intros key Hne. by rewrite lookup_delete_ne, lookup_insert_ne.
Qed.

Lemma RemoveHeader_undoes_AddHeader_witness :
  ∃ req',
    applyEditors
      (RequestEditors
         (RemoveHeader
            (AddHeader {| Server := "https://192.168.1.1";
                          RequestEditors := [] |}
               "X-API-Key" "1234ABCD") "x-api-key"))
      {| http.Method := "GET"; http.URL := "/api/v2/firewall/rules";
         http.Header_ := {[ "X-Api-Key" := ["old"] ]} |} = (req', None) ∧
    http.Values (http.Header_ req') "X-API-Key" = [] ∧
    (∀ key,
       textproto.CanonicalMIMEHeaderKey key ≠
         textproto.CanonicalMIMEHeaderKey "X-API-Key" →
       http.Values (http.Header_ req') key =
       http.Values
         (http.Header_
            {| http.Method := "GET"; http.URL := "/api/v2/firewall/rules";
               http.Header_ := {[ "X-Api-Key" := ["old"] ]} |}) key).
Proof.
  apply (RemoveHeader_undoes_AddHeader "https://192.168.1.1"
           "X-API-Key" "x-api-key" "1234ABCD").
  reflexivity.
Defined.

End client_more.

(** ** The answers of the firewall rules endpoint *)

Module api_more.
Import generated pfsense_rest_v2 spec examples.

Section wrapper.
Context `{Generated}.

Lemma convertRule_trace r : trace (convertRule r) = [].
Proof.
  destruct (decide (complete r)) as [Hc|Hc].
  - by destruct (api_claims.convertRule_complete r Hc) as (rule & -> & _).
  - by rewrite (api_claims.convertRule_incomplete r Hc).
Qed.

Lemma convertRules_cons r rest rules :
  convertRules (r :: rest) rules =
  (rule ← convertRule r; convertRules rest (append rules (Some rule))).
Proof. reflexivity. Qed.

(** The loop asks nothing of the outside. *)
Lemma convertRules_trace rulesJSON rules :
  trace (convertRules rulesJSON rules) = [].
Proof.
  revert rules. induction rulesJSON as [|r rest IH]; intros rules; [done|].
  rewrite convertRules_cons, trace_bind, convertRule_trace.
  destruct (outcome (convertRule r)); [apply IH|done].
Qed.

(** One record with an absent field is enough for the loop to panic. *)
Lemma convertRules_incomplete rulesJSON rules :
  Exists (λ r, ¬ complete r) rulesJSON →
  convertRules rulesJSON rules = ([], Panics nil_dereference).
Proof.
  intros Hex. revert rules.
  induction rulesJSON as [|r rest IH]; intros rules; [by inversion Hex|].
  rewrite convertRules_cons.
  destruct (decide (complete r)) as [Hc|Hc].
  - destruct (api_claims.convertRule_complete r Hc) as (rule & -> & _).
    rewrite bind_Returns. cbn [fst snd app].
    apply Exists_cons in Hex as [Hr|Hrest]; [done|].
    by rewrite (IH Hrest).
  - by rewrite (api_claims.convertRule_incomplete r Hc).
Qed.

(** [GetFirewallRules] on a client: one call with limit 0, then a case
    analysis of the answer. *)
Lemma GetFirewallRules_cases c api :
  apiClient c = Some api →
  GetFirewallRules (Some c) =
  ([FirewallRulesEndpointCall (Some 0)],
   match
     GetFirewallRulesEndpointWithResponse api (Some {| Limit := Some 0 |})
   with
   | inr err => Returns (nil_slice, Some err)
   | inl response =>
       match Rules_JSON200 response with
       | None =>
           Returns (nil_slice,
                    Some ("unexpected response retrieving firewall rules: " +:+
                          Sprint_rules_response response))
       | Some json200 =>
           match Rules_Data json200 with
           | None => Panics nil_dereference
           | Some rulesJSON =>
               match outcome (convertRules (elems rulesJSON) (slice_of [])) with
               | Returns rules => Returns (rules, None)
               | Panics why => Panics why
               end
           end
       end
   end).
Proof.
  intros Hapi. unfold GetFirewallRules.
  rewrite bind_deref_Some, Hapi, bind_deref_Some.
  unfold emit. rewrite bind_Returns. cbn zeta.
  destruct (GetFirewallRulesEndpointWithResponse api _) as [response|err];
    [|reflexivity].
  destruct (Rules_JSON200 response) as [json200|]; [|reflexivity].
  destruct (Rules_Data json200) as [rulesJSON|]; [|reflexivity].
  rewrite bind_deref_Some.
  pose proof (convertRules_trace (elems rulesJSON) (slice_of [])) as Ht.
  destruct (convertRules (elems rulesJSON) (slice_of [])) as [t [rules|why]];
    unfold trace in Ht; simpl in Ht; subst t; reflexivity.
Qed.

(** X11: when the call of the firewall rules endpoint fails,
    [GetFirewallRules] returns a nil list and the error of the call as it
    is; when the answer holds no decoded JSON 200 body it returns a nil list
    and an error that starts with the words unexpected response retrieving
    firewall rules. In both cases the endpoint was called once. *)
Theorem GetFirewallRules_passes_errors_on c api :
  apiClient c = Some api →
  match
    GetFirewallRulesEndpointWithResponse api (Some {| Limit := Some 0 |})
  with
  | inr err =>
      GetFirewallRules (Some c) =
        ([FirewallRulesEndpointCall (Some 0)], Returns (nil_slice, Some err))
  | inl response =>
      Rules_JSON200 response = None →
      GetFirewallRules (Some c) =
        ([FirewallRulesEndpointCall (Some 0)],
         Returns (nil_slice,
                  Some ("unexpected response retrieving firewall rules: " +:+
                        Sprint_rules_response response)))
  end.
Proof.
  intros Hapi. rewrite (GetFirewallRules_cases _ _ Hapi).
  destruct (GetFirewallRulesEndpointWithResponse api _) as [response|err];
    [|done].
  by intros ->.
Qed.

(** X12: on a JSON 200 answer, [GetFirewallRules] panics exactly when the
    list of records is absent or one of the records lacks a field, however
    many complete records come before it; it has then called the endpoint
    and returns nothing. *)
Theorem GetFirewallRules_panics_iff_field_absent c api response json200 :
  apiClient c = Some api →
  GetFirewallRulesEndpointWithResponse api (Some {| Limit := Some 0 |})
    = inl response →
  Rules_JSON200 response = Some json200 →
  trace (GetFirewallRules (Some c)) = [FirewallRulesEndpointCall (Some 0)] ∧
  (outcome (GetFirewallRules (Some c)) = Panics nil_dereference ↔
   match Rules_Data json200 with
   | None => True
   | Some rulesJSON => Exists (λ r, ¬ complete r) (elems rulesJSON)
   end).
Proof.
  intros Hapi Hreply Hjson.
  rewrite (GetFirewallRules_cases _ _ Hapi), Hreply, Hjson.
  split; [done|]. unfold outcome. cbn [snd].
  destruct (Rules_Data json200) as [rulesJSON|]; [|done].
  split.
  - intros Hpanic.
    destruct (decide (Exists (λ r, ¬ complete r) (elems rulesJSON)))
      as [Hex|Hno]; [done|].
    apply not_Exists_Forall in Hno; [|apply _].
    assert (Forall complete (elems rulesJSON)) as Hall.
    { eapply Forall_impl; [exact Hno|]. intros r Hr. simpl in Hr.
      by destruct (decide (complete r)). }
    destruct (api_claims.convertRules_complete (elems rulesJSON) [] Hall)
      as (rules & Hrules & _).
    by rewrite Hrules in Hpanic.
  - intros Hex. by rewrite (convertRules_incomplete _ _ Hex).
Qed.

End wrapper.

Lemma GetFirewallRules_passes_errors_on_witness :
  GetFirewallRules (H := device (inl hostname_ok) (inr "connection refused"))
    (Some a_client) =
  ([FirewallRulesEndpointCall (Some 0)],
   Returns (nil_slice, Some "connection refused")).
Proof.
  exact (GetFirewallRules_passes_errors_on
           (H := device (inl hostname_ok) (inr "connection refused"))
           a_client _ eq_refl).
Defined.

Lemma GetFirewallRules_panics_iff_field_absent_witness :
  outcome
    (GetFirewallRules
       (H := device (inl hostname_ok) (inl (rules_answer [rule_ssh; rule_any])))
       (Some a_client)) = Panics nil_dereference.
Proof.
  destruct (GetFirewallRules_panics_iff_field_absent
              (H := device (inl hostname_ok)
                      (inl (rules_answer [rule_ssh; rule_any])))
              a_client _ _ _ eq_refl eq_refl eq_refl) as [_ [_ Hpanic]].
  apply Hpanic. cbn. apply Exists_cons_tl, Exists_cons_hd.
  intros (_ & _ & _ & _ & _ & _ & _ & _ & [? [=]] & _).
Defined.

End api_more.

(** ** The data source as a whole *)

Module read_more.
Import provider spec examples.

Lemma Read_ifaces_from interfaces ifaces :
  elems (fold_left (fun ifaces iface => append ifaces (types.StringValue iface))
           interfaces ifaces) =
  elems ifaces ++ map types.StringValue interfaces.
Proof.
  revert ifaces. induction interfaces as [|i rest IH]; intros ifaces; simpl.
  - by rewrite app_nil_r.
  - rewrite IH. simpl. by rewrite <- app_assoc.
Qed.

(** The inner loop of [Read] keeps the interfaces and their order. *)
Lemma Read_ifaces_elems interfaces :
  elems (Read_ifaces interfaces) = map types.StringValue (elems interfaces).
Proof. unfold Read_ifaces. by rewrite Read_ifaces_from. Qed.

Lemma Read_rule_known r : known_rule (Read_rule r).
Proof.
  unfold known_rule, Read_rule. cbn. repeat split.
  rewrite Read_ifaces_elems. apply Forall_fmap, Forall_true. done.
Qed.

Lemma outcome_pair {E A} (t : list E) (r : Run A) : outcome (t, r) = r.
Proof. reflexivity. Qed.

Lemma trace_pair {E A} (t : list E) (r : Run A) : trace (t, r) = t.
Proof. reflexivity. Qed.

Section read.
Context `{generated.Generated} `{Framework}.

Lemma Read_rules_cons r rest firewallRules :
  Read_rules (r :: rest) firewallRules =
  (r' ← deref r; Read_rules rest (append firewallRules (Some (Read_rule r')))).
Proof. reflexivity. Qed.

(** The outer loop of [Read] on non-nil pointers. *)
Lemma Read_rules_Some rules firewallRules :
  Read_rules (map Some rules) firewallRules =
  ([], Returns match rules with
               | [] => firewallRules
               | _ => slice_of (elems firewallRules ++
                                map (λ r, Some (Read_rule r)) rules)
               end).
Proof.
  revert firewallRules. induction rules as [|r rest IH]; intros firewallRules.
  - reflexivity.
  - rewrite fmap_cons, Read_rules_cons, bind_deref_Some, IH.
    destruct rest as [|r' rest]; [done|].
    cbn [elems append]. by rewrite <- app_assoc.
Qed.

(** Whatever the outer loop returns holds, after the rules it started
    from, only non-nil pointers to rules with known attributes. *)
Lemma Read_rules_known firewallRulesResponse firewallRules result :
  outcome (Read_rules firewallRulesResponse firewallRules) = Returns result →
  Forall known_rule_pointer (elems firewallRules) →
  Forall known_rule_pointer (elems result).
Proof.
  revert firewallRules.
  induction firewallRulesResponse as [|[r|] rest IH]; intros firewallRules.
  - by intros [= <-].
  - rewrite Read_rules_cons, bind_deref_Some. intros Hret Hacc.
    apply (IH _ Hret). cbn [elems append].
    apply Forall_app. split; [done|].
    constructor; [apply Read_rule_known|constructor].
  - by intros [=].
Qed.

Lemma GetBaseConfig_unconfigured c :
  (c = None ∨ ∃ c', c = Some c' ∧ pfsense_rest_v2.apiClient c' = None) →
  pfsense_rest_v2.GetBaseConfig c = ([], Panics nil_dereference).
Proof.
  intros [->|(c' & -> & Hapi)]; [done|].
  unfold pfsense_rest_v2.GetBaseConfig. by rewrite bind_deref_Some, Hapi.
Qed.

Lemma State_Set_trace state data (resp : ReadResponse) :
  trace (let '(state', diags) := State_Set state data in
         mret (M := Exec Event)
           {| Read_Diagnostics := diag.Append (Read_Diagnostics resp) diags;
              Read_State := state' |}) = [].
Proof. by destruct (State_Set state data). Qed.

(** The runs of [Read]: it stops before the state is set, after the calls
    it has made up to there, or it sets the state once, after both calls,
    to a model made of a known host name and of what the outer loop
    returned. *)
Lemma Read_cases d req resp :
  trace (Read d req resp) `prefix_of`
    [Api pfsense_rest_v2.HostnameEndpointCall;
     Api (pfsense_rest_v2.FirewallRulesEndpointCall (Some 0))] ∨
  ∃ hostname rules firewallRules,
    outcome (Read_rules rules nil_slice) = Returns firewallRules ∧
    trace (Read d req resp) =
      [Api pfsense_rest_v2.HostnameEndpointCall;
       Api (pfsense_rest_v2.FirewallRulesEndpointCall (Some 0));
       StateSet {| Hostname := types.StringValue hostname;
                   FirewallRules := firewallRules |}].
Proof.
  unfold Read. rewrite (surjective_pairing (Read_Config_Get req)).
  destruct (diag.HasError _); [left; apply prefix_nil|].
  destruct (client d) as [c|]; [|left; apply prefix_nil].
  destruct (pfsense_rest_v2.apiClient c) as [api|] eqn:Hapi.
  2: { left. rewrite trace_bind, read_claims.trace_api, read_claims.outcome_api.
       rewrite GetBaseConfig_unconfigured by eauto. apply prefix_nil. }
  rewrite trace_bind, read_claims.trace_api, read_claims.outcome_api.
  rewrite (api_claims.GetBaseConfig_cases _ _ Hapi).
  rewrite (api_more.GetFirewallRules_cases _ _ Hapi).
  rewrite trace_pair, outcome_pair. cbn [map].
  set (base := match generated.GetSystemHostnameEndpointWithResponse api with
               | inl _ => _ | inr _ => _ end).
  destruct base as [[baseConfig err]|why];
    [|left; by apply prefix_cons, prefix_nil].
  rewrite trace_bind, read_claims.trace_api, read_claims.outcome_api.
  rewrite trace_pair, outcome_pair. cbn [map].
  set (rules := match generated.GetFirewallRulesEndpointWithResponse api _ with
                | inl _ => _ | inr _ => _ end).
  destruct rules as [[firewallRulesResponse err']|why];
    [|left; by rewrite app_nil_r].
  rewrite trace_bind, read_claims.Read_rules_trace.
  destruct (Read_rules (elems firewallRulesResponse) nil_slice)
    as [t [firewallRules|why]] eqn:Hloop; rewrite outcome_pair;
    [|left; by rewrite app_nil_r].
  destruct baseConfig as [baseConfig|]; [|left; by rewrite app_nil_r].
  right. exists (pfsense_rest_v2.Hostname baseConfig),
    (elems firewallRulesResponse), firewallRules.
  split; [by rewrite Hloop|].
  rewrite bind_deref_Some. unfold emit. rewrite bind_Returns, trace_pair.
  cbn [fst app]. do 3 f_equal. apply State_Set_trace.
Qed.

(** X13: [Read] calls each endpoint at most once and in a fixed order,
    without any retry: whatever the device answers, what it does is a
    beginning of the sequence host name call, firewall rules call with limit
    0, one write of the state. *)
Theorem Read_calls_each_endpoint_once_in_order d req resp :
  ∃ data,
    trace (Read d req resp) `prefix_of`
      [Api pfsense_rest_v2.HostnameEndpointCall;
       Api (pfsense_rest_v2.FirewallRulesEndpointCall (Some 0));
       StateSet data].
Proof.
  destruct (Read_cases d req resp)
    as [Hprefix | (hostname & rules & firewallRules & _ & ->)].
  - set (data := {| Hostname := types.StringNull; FirewallRules := nil_slice |}).
    exists data. etrans; [exact Hprefix|]. by exists [StateSet data].
  - by eexists.
Qed.

(** X14: [Read] never writes a null or unknown value: in every model it
    passes to the state, the host name is a known value, every rule is a
    non-nil pointer, and every attribute of every rule, its interfaces
    included, is a known value. *)
Theorem Read_writes_known_values_only d req resp data :
  StateSet data ∈ trace (Read d req resp) →
  known_String (Hostname data) ∧
  Forall known_rule_pointer (elems (FirewallRules data)).
Proof.
  destruct (Read_cases d req resp)
    as [Hprefix | (hostname & rules & firewallRules & Hloop & ->)];
    intros Hin.
  - exfalso. destruct Hprefix as [rest Hrest].
    assert (StateSet data ∈
              [Api pfsense_rest_v2.HostnameEndpointCall;
               Api (pfsense_rest_v2.FirewallRulesEndpointCall (Some 0))])
      as Hin' by (rewrite Hrest; apply elem_of_app; by left).
    by repeat (apply elem_of_cons in Hin' as [[=]|Hin']);
      apply elem_of_nil in Hin'.
  - repeat (apply elem_of_cons in Hin as [Hin|Hin]; try discriminate Hin).
    + injection Hin as ->. split; [done|]. cbn [FirewallRules].
      by apply (Read_rules_known _ _ _ Hloop).
    + by apply elem_of_nil in Hin.
Qed.

(** X15: when the configuration decodes without error and the device
    answers both calls with a JSON 200 body that has every field, [Read]
    makes the two calls, sets the state once, to the host name and to one
    rule for each record, in their order (a nil list when there is none),
    and returns the diagnostics it had with those of the write; the domain
    of the device does not reach the state. *)
Theorem Read_sets_state_from_answers
  d c api req resp response json200 data hostname domain
  rresponse rjson200 rulesJSON :
  diag.HasError
    (diag.Append (Read_Diagnostics resp) (snd (Read_Config_Get req))) = false →
  client d = Some c →
  pfsense_rest_v2.apiClient c = Some api →
  generated.GetSystemHostnameEndpointWithResponse api = inl response →
  generated.Hostname_JSON200 response = Some json200 →
  generated.Hostname_Data json200 = Some data →
  generated.Hostname data = Some hostname →
  generated.Domain data = Some domain →
  generated.GetFirewallRulesEndpointWithResponse api
    (Some {| generated.Limit := Some 0 |}) = inl rresponse →
  generated.Rules_JSON200 rresponse = Some rjson200 →
  generated.Rules_Data rjson200 = Some rulesJSON →
  Forall complete (elems rulesJSON) →
  ∃ rules model,
    Forall2 copied (elems rulesJSON) rules ∧
    model =
      {| Hostname := types.StringValue hostname;
         FirewallRules :=
           match rules with
           | [] => nil_slice
           | _ => slice_of (map (λ r, Some (Read_rule r)) rules)
           end |} ∧
    Read d req resp =
      ([Api pfsense_rest_v2.HostnameEndpointCall;
        Api (pfsense_rest_v2.FirewallRulesEndpointCall (Some 0));
        StateSet model],
       Returns
         {| Read_Diagnostics :=
              diag.Append
                (diag.Append (Read_Diagnostics resp) (snd (Read_Config_Get req)))
                (snd (State_Set (Read_State resp) model));
            Read_State := fst (State_Set (Read_State resp) model) |}).
Proof.
  intros Hno Hclient Hapi Hreply Hjson Hdata Hhost Hdom Hrreply Hrjson Hrdata
    Hall.
  destruct (api_claims.convertRules_complete (elems rulesJSON) [] Hall)
    as (rules & Hrules & Hall2).
  exists rules. eexists. split; [done|]. split; [reflexivity|].
  unfold Read. rewrite (surjective_pairing (Read_Config_Get req)).
  cbn [Read_Diagnostics Read_State]. rewrite Hno, Hclient.
  rewrite (api_claims.GetBaseConfig_cases _ _ Hapi), Hreply, Hjson, Hdata,
    Hhost, Hdom.
  rewrite (api_more.GetFirewallRules_cases _ _ Hapi), Hrreply, Hrjson, Hrdata,
    Hrules.
  rewrite outcome_pair. unfold provider.api. cbn [fst snd map].
  rewrite bind_Returns. cbv beta iota. rewrite bind_Returns. cbv beta iota.
  cbn [elems app]. rewrite Read_rules_Some.
  rewrite bind_Returns, bind_deref_Some. unfold emit. rewrite bind_Returns.
  rewrite !bool_decide_eq_false_2 by (intros Hne; by apply Hne).
  cbn [pfsense_rest_v2.Hostname elems app fst snd].
  destruct (State_Set _ _) as [state diags]. reflexivity.
Qed.

End read.

Lemma Read_sets_state_from_answers_witness :
  ∃ rules model,
    Forall2 copied [rule_ssh] rules ∧
    model =
      {| Hostname := types.StringValue "pfSense";
         FirewallRules :=
           match rules with
           | [] => nil_slice
           | _ => slice_of (map (λ r, Some (Read_rule r)) rules)
           end |} ∧
    Read (H := device (inl hostname_ok) (inl (rules_answer [rule_ssh])))
      data_source read_request fresh_read_response =
      ([Api pfsense_rest_v2.HostnameEndpointCall;
        Api (pfsense_rest_v2.FirewallRulesEndpointCall (Some 0));
        StateSet model],
       Returns
         (@Build_ReadResponse last_model
            (diag.Append (diag.Append [] []) [])
            (Some model : option PFSenseModel))).
Proof.
  apply (Read_sets_state_from_answers
           (H := device (inl hostname_ok) (inl (rules_answer [rule_ssh])))
           (H0 := last_model)
           data_source a_client _ read_request fresh_read_response
           hostname_ok _ _ "pfSense" "home.arpa"
           (rules_answer [rule_ssh]) _ (slice_of [rule_ssh])
           eq_refl eq_refl eq_refl eq_refl eq_refl eq_refl eq_refl eq_refl
           eq_refl eq_refl eq_refl).
  constructor; [|constructor].
  unfold complete. simpl. repeat split; by eexists.
Defined.

Lemma Read_writes_known_values_only_witness :
  known_String (Hostname model_ssh) ∧
  Forall known_rule_pointer (elems (FirewallRules model_ssh)).
Proof.
  apply (Read_writes_known_values_only
           (H := device (inl hostname_ok) (inl (rules_answer [rule_ssh])))
           (H0 := last_model) data_source read_request fresh_read_response).
  change (StateSet model_ssh ∈
            [Api pfsense_rest_v2.HostnameEndpointCall;
             Api (pfsense_rest_v2.FirewallRulesEndpointCall (Some 0));
             StateSet model_ssh]).
  repeat constructor.
Defined.

End read_more.

(** ** From the provider to the data source *)

Module handover_more.
Import provider spec examples.

Section handover.
Variable env : gmap string string.
Context `{generated.Generated} `{Framework}.

(** X16: a data source that is configured with what [Configure] of the
    provider left in [DataSourceData] gets no diagnostic of its own, and
    holds a client exactly when the provider ended without an error: the
    client made for the resolved URL. *)
Theorem data_source_holds_client_iff_provider_has_no_error
  req resp d dresp :
  DataSourceData resp = None →
  client d = None →
  ∃ resp',
    outcome (Configure env req resp) = Returns resp' ∧
    let configured :=
      PFSenseDataSource_Configure d
        {| ProviderData_ := ProviderData_of (DataSourceData resp') |} dresp in
    snd configured = dresp ∧
    ((diag.HasError (Diagnostics resp') = true ∧
      client (fst configured) = None) ∨
     (diag.HasError (Diagnostics resp') = false ∧
      ∃ apiClient,
        client (fst configured) =
          Some {| pfsense_rest_v2.url := resolved_url env (fst (Config_Get req));
                  pfsense_rest_v2.apiClient := apiClient |})).
Proof.
  intros Hfresh Hd.
  set (config := fst (Config_Get req)).
  set (resp1 := with_Diagnostics resp
                  (diag.Append (Diagnostics resp) (snd (Config_Get req)))).
  set (resp2 := fst (ConfiguredURL env config resp1)).
  set (resp3 := fst (ConfiguredAuth env config resp2)).
  set (resp4 := fst (ConfiguredInsecure env config resp3)).
  assert (DataSourceData resp4 = None) as Hd4.
  { destruct (configure_facts.ConfiguredURL_frame env config resp1) as [Hd2 _].
    destruct (configure_facts.ConfiguredAuth_frame env config resp2) as [Hd3 _].
    destruct (configure_facts.ConfiguredInsecure_frame env config resp3)
      as [Hd4 _].
    unfold resp4. rewrite Hd4. unfold resp3. rewrite Hd3.
    unfold resp2. by rewrite Hd2. }
  destruct (diag.HasError (Diagnostics resp4)) eqn:Herr.
  - rewrite (configure_more.Configure_stops_at env req resp Herr).
    fold config resp1 resp2 resp3 resp4. eexists. split; [done|].
    destruct (diag.HasError (Diagnostics resp1)) eqn:H1.
    + unfold resp1. cbn [DataSourceData with_Diagnostics]. rewrite Hfresh.
      split; [done|]. left. by split.
    + rewrite Hd4. split; [done|]. left. by split.
  - destruct (configure_more.Configure_proceeds env req resp Herr)
      as (auth & apiClient & err & _ & _ & ->).
    fold config resp1 resp2 resp3 resp4.
    eexists. split; [done|]. destruct err as [e|].
    + cbn [DataSourceData AddError with_Diagnostics]. rewrite Hd4.
      split; [done|]. left.
      split; [apply diag_facts.HasError_AddError|done].
    + split; [done|]. right. split; [done|]. by exists apiClient.
Qed.

(** X17: a data source that was configured without a client, the
    provider data being nil or of another type, panics in [Read] on the
    nil client before any call to the device, although [Configure] returns
    early on nil provider data to prevent a panic. *)
Theorem Read_without_provider_data_panics d creq cresp req resp :
  client d = None →
  (∀ c, ProviderData_ creq ≠ ProviderData_client (Some c)) →
  diag.HasError
    (diag.Append (Read_Diagnostics resp) (snd (Read_Config_Get req))) = false →
  Read (fst (PFSenseDataSource_Configure d creq cresp)) req resp =
    ([], Panics nil_dereference).
Proof.
  intros Hd Hdata Hno.
  assert (client (fst (PFSenseDataSource_Configure d creq cresp)) = None)
    as Hclient.
  { unfold PFSenseDataSource_Configure.
    destruct (ProviderData_ creq) as [|[c|]|type_name] eqn:Hp; try done.
    by destruct (Hdata c). }
  unfold Read. rewrite (surjective_pairing (Read_Config_Get req)).
  cbn [Read_Diagnostics Read_State]. rewrite Hno, Hclient.
  rewrite read_more.GetBaseConfig_unconfigured by eauto. reflexivity.
Qed.

End handover.

Lemma data_source_holds_client_iff_provider_has_no_error_witness :
  let req :=
    request_of
      (config_of device_url types.StringNull types.StringNull
         (types.StringValue "1234ABCD")) in
  ∃ resp',
    outcome (Configure (H := device (inl hostname_ok) (inr "no rules")) ∅
               req fresh_response) = Returns resp' ∧
    let configured :=
      PFSenseDataSource_Configure {| client := None |}
        {| ProviderData_ := ProviderData_of (DataSourceData resp') |}
        {| DataSource_Diagnostics := [] |} in
    snd configured = {| DataSource_Diagnostics := [] |} ∧
    ((diag.HasError (Diagnostics resp') = true ∧
      client (fst configured) = None) ∨
     (diag.HasError (Diagnostics resp') = false ∧
      ∃ apiClient,
        client (fst configured) =
          Some {| pfsense_rest_v2.url := resolved_url ∅ (fst (Config_Get req));
                  pfsense_rest_v2.apiClient := apiClient |})).
Proof.
  apply (data_source_holds_client_iff_provider_has_no_error
           (H := device (inl hostname_ok) (inr "no rules")) ∅
           (request_of
              (config_of device_url types.StringNull types.StringNull
                 (types.StringValue "1234ABCD")))
           fresh_response {| client := None |}
           {| DataSource_Diagnostics := [] |} eq_refl eq_refl).
Defined.

Lemma Read_without_provider_data_panics_witness :
  Read (H := device (inl hostname_ok) (inr "no rules")) (H0 := last_model)
    (fst (PFSenseDataSource_Configure {| client := None |}
            {| ProviderData_ := ProviderData_nil |}
            {| DataSource_Diagnostics := [] |}))
    read_request fresh_read_response =
    ([], Panics nil_dereference).
Proof.
  apply (Read_without_provider_data_panics
           (H := device (inl hostname_ok) (inr "no rules")) (H0 := last_model)
           {| client := None |} {| ProviderData_ := ProviderData_nil |}
           {| DataSource_Diagnostics := [] |} read_request fresh_read_response
           eq_refl).
  - intros c. discriminate.
  - reflexivity.
Defined.

End handover_more.

(** ** The rules on the interface wan *)

Module wan_more.
Import provider spec examples.

(** A rule that [Read] made is on wan exactly when the rule of the client
    lists the interface wan. *)
Lemma on_wan_Read_rule r : on_wan (Read_rule r) ↔ api_on_wan r.
Proof.
  unfold on_wan, api_on_wan. cbn [Interfaces Read_rule].
  rewrite read_more.Read_ifaces_elems, list_elem_of_fmap. split.
  - by intros (iface & [= <-] & Hin).
  - intros Hin. by exists "wan".
Qed.

Lemma filter_on_wan_Read_rule rules :
  filter on_wan (map Read_rule rules) = map Read_rule (filter api_on_wan rules).
Proof.
  induction rules as [|r rules IH]; [done|].
  cbn [map]. rewrite !filter_cons, IH.
  destruct (decide (api_on_wan r)) as [Hwan|Hwan].
  - by rewrite decide_True by by apply on_wan_Read_rule.
  - by rewrite decide_False by by rewrite on_wan_Read_rule.
Qed.

Lemma WANRules_loop_nil_pointer {E} rules wanRules :
  None ∈ rules →
  WANRules_loop (E := E) rules wanRules = ([], Panics nil_dereference).
Proof.
  revert wanRules. induction rules as [|rule rest IH]; intros wanRules Hin.
  - by apply not_elem_of_nil in Hin.
  - rewrite read_claims.WANRules_loop_cons. destruct rule as [r|].
    + apply elem_of_cons in Hin as [[=]|Hin]. rewrite bind_deref_Some.
      destruct (slices_Contains _ _); by apply IH.
    + apply bind_deref_None.
Qed.

(** X18: on the rules that [Read] writes to the state for the rules the
    client returned, [WANRules] returns, without a panic, the conversions
    of exactly those rules of the client that list the interface wan, in
    their order. *)
Theorem WANRules_of_state_selects_rules_on_wan {E}
  (rules : list pfsense_rest_v2.PFSenseFirewallRule) :
  ∃ wanRules,
    WANRules (E := E)
      match rules with
      | [] => nil_slice
      | _ => slice_of (map (λ r, Some (Read_rule r)) rules)
      end = ([], Returns wanRules) ∧
    elems wanRules = map Read_rule (filter api_on_wan rules).
Proof.
  assert (elems match rules with
                | [] => nil_slice
                | _ => slice_of (map (λ r, Some (Read_rule r)) rules)
                end = map Some (map Read_rule rules)) as Helems.
  { destruct rules as [|r rules]; [done|]. cbn [elems].
    by rewrite map_map. }
  unfold WANRules. rewrite Helems, read_claims.WANRules_loop_filter.
  eexists. split; [reflexivity|]. rewrite filter_on_wan_Read_rule.
  by destruct (map Read_rule (filter api_on_wan rules)).
Qed.

(** X19: [WANRules] panics on a nil pointer among the rules, wherever it
    stands, and returns no rule then. *)
Theorem WANRules_panics_on_nil_rule {E} (rules : PFSenseFirewallRules) :
  None ∈ elems rules →
  WANRules (E := E) rules = ([], Panics nil_dereference).
Proof. intros Hin. by apply WANRules_loop_nil_pointer. Qed.

Lemma WANRules_panics_on_nil_rule_witness :
  WANRules (E := Event) (slice_of [Some wan_rule; None; Some lan_rule]) =
    ([], Panics nil_dereference).
Proof.
  apply (WANRules_panics_on_nil_rule
           (slice_of [Some wan_rule; None; Some lan_rule])).
  cbn [elems]. right. left.
Defined.

End wan_more.

(** ** The validator of port ranges *)

Module validator_more.
Import provider spec examples validator_facts.

Section validator.
Context `{strconv.Quoter}.

Lemma Append_one diags d :
  diag.Append diags [d] = if diag.Contains diags d then diags else diags ++ [d].
Proof. reflexivity. Qed.

(** On a range of two strings of digits, and a response without errors,
    the validator leaves the response as it is exactly when both ends are
    ports. *)
Lemma ValidateString_range_iff a b path resp :
  a ≠ "" → b ≠ "" →
  regexp.all_digits a = true → regexp.all_digits b = true →
  diag.HasError (Validate_Diagnostics resp) = false →
  ValidateString
    {| ConfigValue := types.StringValue (a +:+ ":" +:+ b); Path := path |} resp
    = resp ↔
  is_port a ∧ is_port b.
Proof.
  intros Ha Hb Hda Hdb Hclean.
  assert (port_range_form (a +:+ ":" +:+ b) a b) as Hform by done.
  assert (a +:+ ":" +:+ b ≠ "null") as Hnull.
  { destruct a as [|c a]; [done|]. intros [= -> _]. discriminate Hda. }
  destruct (validator_claims.ValidateString_cases
              {| ConfigValue := types.StringValue (a +:+ ":" +:+ b);
                 Path := path |} resp)
    as [[Hacc Hsame] | (Hno & d & Hd & Hnew)];
    cbn [ConfigValue types.ValueString] in *.
  - split; [intros _|done].
    destruct Hacc as [?|[(a' & b' & Hform' & Ha' & Hb')|(_ & Hnone & _)]];
      [done| |exfalso; eauto].
    by destruct (port_range_form_unique _ _ _ _ _ Hform Hform') as [-> ->].
  - split.
    + intros Hsame. rewrite Hsame in Hnew.
      assert (diag.HasError (Validate_Diagnostics resp) = true) as Herr.
      { rewrite Hnew at 1. cbn [Validate_Diagnostics].
        rewrite diag_facts.HasError_Append. simpl. rewrite Hd.
        by rewrite orb_true_r. }
      congruence.
    + intros [Hpa Hpb]. exfalso. apply Hno. right; left. by exists a, b.
Qed.

(** X20: the validator does not compare the two ends of a range: on a
    response without errors it lets a range of two strings of digits
    through exactly when it lets the range with the ends exchanged through,
    so that it takes 443:80 as it takes 80:443. *)
Theorem ValidateString_takes_range_in_either_order a b path resp :
  a ≠ "" → b ≠ "" →
  regexp.all_digits a = true → regexp.all_digits b = true →
  diag.HasError (Validate_Diagnostics resp) = false →
  ValidateString
    {| ConfigValue := types.StringValue (a +:+ ":" +:+ b); Path := path |} resp
    = resp ↔
  ValidateString
    {| ConfigValue := types.StringValue (b +:+ ":" +:+ a); Path := path |} resp
    = resp.
Proof.
  intros Ha Hb Hda Hdb Hclean.
  rewrite (ValidateString_range_iff a b), (ValidateString_range_iff b a)
    by done.
  tauto.
Qed.

(** X21: an attribute without a known value does not pass the validator,
    whatever its name says: on a null value, an unknown value or the empty
    string the response has an error afterwards. Only the word null is let
    through. *)
Theorem ValidateString_rejects_missing_value req resp :
  types.ValueString (ConfigValue req) = "" →
  diag.HasError (Validate_Diagnostics (ValidateString req resp)) = true.
Proof.
  intros Hval.
  destruct (validator_claims.ValidateString_cases req resp)
    as [[Hacc _] | (_ & d & Hd & ->)].
  - exfalso. cbn zeta in Hacc. rewrite Hval in Hacc.
    destruct Hacc as [?|[(a & b & (Hab & Ha & _) & _)|(_ & _ & n & Hn)]].
    + done.
    + by destruct a.
    + discriminate Hn.
  - cbn [Validate_Diagnostics]. rewrite diag_facts.HasError_Append.
    simpl. rewrite Hd. by rewrite orb_true_r.
Qed.

(** X22: [ValidateString] leaves the diagnostics as they are or adds one
    diagnostic at their end: an error at the path of the request. *)
Theorem ValidateString_adds_at_most_one_error_at_path req resp :
  Validate_Diagnostics (ValidateString req resp) = Validate_Diagnostics resp ∨
  ∃ summary detail,
    Validate_Diagnostics (ValidateString req resp) =
      Validate_Diagnostics resp ++
      [diag.NewAttributeErrorDiagnostic (Path req) summary detail].
Proof.
  unfold ValidateString.
  case_bool_decide; [by left|].
  destruct (regexp.portRangeRe_FindStringSubmatch _) as [[[w a] b]|].
  - destruct (PortNumber a) as [n err]. case_bool_decide.
    + cbn [Validate_Diagnostics]. rewrite Append_one.
      destruct (diag.Contains _ _); [by left|right]. by do 2 eexists.
    + destruct (PortNumber b) as [m err']. case_bool_decide; [|by left].
      cbn [Validate_Diagnostics]. rewrite Append_one.
      destruct (diag.Contains _ _); [by left|right]. by do 2 eexists.
  - destruct (strconv.Atoi _) as [n err]. case_bool_decide; [|by left].
    cbn [Validate_Diagnostics]. rewrite Append_one.
    destruct (diag.Contains _ _); [by left|right]. by do 2 eexists.
Qed.

End validator.

Lemma ValidateString_takes_range_in_either_order_witness :
  ValidateString (H := plain_Quote)
    {| ConfigValue := types.StringValue ("80" +:+ ":" +:+ "443");
       Path := "source_port" |}
    {| Validate_Diagnostics := [] |} = {| Validate_Diagnostics := [] |} ↔
  ValidateString (H := plain_Quote)
    {| ConfigValue := types.StringValue ("443" +:+ ":" +:+ "80");
       Path := "source_port" |}
    {| Validate_Diagnostics := [] |} = {| Validate_Diagnostics := [] |}.
Proof.
  apply (ValidateString_takes_range_in_either_order (H := plain_Quote)
           "80" "443" "source_port" {| Validate_Diagnostics := [] |});
    first [discriminate | reflexivity].
Defined.

Lemma ValidateString_rejects_missing_value_witness :
  diag.HasError
    (Validate_Diagnostics
       (ValidateString (H := plain_Quote)
          {| ConfigValue := types.StringNull; Path := "source_port" |}
          {| Validate_Diagnostics := [] |})) = true.
Proof.
  apply (ValidateString_rejects_missing_value (H := plain_Quote)
           {| ConfigValue := types.StringNull; Path := "source_port" |}
           {| Validate_Diagnostics := [] |}).
  reflexivity.
Defined.

End validator_more.

(** ** provider.go under internal/provider *)

Module scaffold_more.
Import provider_scaffold spec.

Lemma add_if_HasError (c : bool) resp path summary detail :
  diag.HasError
    (Diagnostics (if c then AddAttributeError resp path summary detail else resp))
  = diag.HasError (Diagnostics resp) || c.
Proof.
  destruct c.
  - cbn [AddAttributeError with_Diagnostics Diagnostics].
    rewrite diag_facts.HasError_AddAttributeError. by rewrite orb_true_r.
  - by rewrite orb_false_r.
Qed.

Lemma add_if_frame (c : bool) resp path summary detail :
  DataSourceData (if c then AddAttributeError resp path summary detail else resp)
  = DataSourceData resp ∧
  ResourceData (if c then AddAttributeError resp path summary detail else resp)
  = ResourceData resp.
Proof. by destruct c. Qed.

Lemma add_if_prefix (c : bool) resp path summary detail :
  Diagnostics resp `prefix_of`
  Diagnostics (if c then AddAttributeError resp path summary detail else resp).
Proof. destruct c; [apply configure_more.Append_prefix|done]. Qed.

Lemma add_if_elem (c : bool) resp path summary detail :
  c = true →
  diag.NewAttributeErrorDiagnostic path summary detail ∈
  Diagnostics (if c then AddAttributeError resp path summary detail else resp).
Proof.
  intros ->. cbn [AddAttributeError with_Diagnostics Diagnostics].
  unfold diag.AddAttributeError.
  change (diag.Append ?diags [?d])
    with (if diag.Contains diags d then diags else diags ++ [d]).
  unfold diag.Contains. case_bool_decide as Hin; [done|].
  apply elem_of_app. right. left.
Qed.

Lemma prefix_elem_of {A} (l k : list A) x : l `prefix_of` k → x ∈ l → x ∈ k.
Proof. intros [k' ->] Hin. apply elem_of_app. by left. Qed.

Lemma resolved_eq v fromEnv :
  (if negb (types.String_IsNull v) then types.ValueString v else fromEnv)
  = resolved v fromEnv.
Proof. by destruct v. Qed.

Section configure.
Variable env : gmap string string.

(** X23: this [Configure] ends without an error exactly when the response
    had none, the configuration decoded without one, no attribute is
    unknown, and the URL, the user name and the token each resolve to a
    string that is not empty; then both data fields hold
    [http.DefaultClient]. In every other case the response has an error and
    the data fields are as they were. *)
Theorem scaffold_Configure_succeeds_iff_usable req resp :
  (diag.HasError (Diagnostics resp) = false ∧
   diag.HasError (snd (Config_Get req)) = false ∧
   scaffold_usable env (fst (Config_Get req)) ∧
   diag.HasError (Diagnostics (Configure env req resp)) = false ∧
   DataSourceData (Configure env req resp) = http_DefaultClient ∧
   ResourceData (Configure env req resp) = http_DefaultClient) ∨
  (¬ (diag.HasError (Diagnostics resp) = false ∧
      diag.HasError (snd (Config_Get req)) = false ∧
      scaffold_usable env (fst (Config_Get req))) ∧
   diag.HasError (Diagnostics (Configure env req resp)) = true ∧
   DataSourceData (Configure env req resp) = DataSourceData resp ∧
   ResourceData (Configure env req resp) = ResourceData resp).
Proof.
  unfold Configure, scaffold_usable.
  rewrite (surjective_pairing (Config_Get req)). cbv beta iota zeta.
  cbn [fst snd]. rewrite !resolved_eq.
  set (config := fst (Config_Get req)).
  set (resp1 := with_Diagnostics resp _).
  assert (diag.HasError (Diagnostics resp1) =
          diag.HasError (Diagnostics resp) ||
          diag.HasError (snd (Config_Get req))) as H1
    by apply diag_facts.HasError_Append.
  destruct (diag.HasError (Diagnostics resp1)) eqn:E1.
  { right. split; [|by rewrite E1].
    intros (Hr & Hc & _). by rewrite Hr, Hc in H1. }
  symmetry in H1. apply orb_false_iff in H1 as [Hr Hc].
  set (resp2 := if types.Bool_IsUnknown _ then _ else _).
  assert (diag.HasError (Diagnostics resp2) =
          types.String_IsUnknown (URL config) ||
          types.String_IsUnknown (APIClientUsername config) ||
          types.String_IsUnknown (APIClientToken config) ||
          types.Bool_IsUnknown (Insecure config)) as H2.
  { unfold resp2. by rewrite !add_if_HasError, E1. }
  assert (DataSourceData resp2 = DataSourceData resp ∧
          ResourceData resp2 = ResourceData resp) as [Hd2 Hr2].
  { unfold resp2.
    repeat match goal with
           | |- context [DataSourceData (if ?c then AddAttributeError ?r ?p ?s ?d else _)] =>
               destruct (add_if_frame c r p s d) as [-> ->]
           end.
    done. }
  destruct (diag.HasError (Diagnostics resp2)) eqn:E2.
  { right. split; [|by rewrite E2].
    intros (_ & _ & (Hu1 & Hu2 & Hu3 & Hu4) & _).
    by rewrite Hu1, Hu2, Hu3, Hu4 in H2. }
  symmetry in H2. apply orb_false_iff in H2 as [H2 Hu4].
  apply orb_false_iff in H2 as [H2 Hu3].
  apply orb_false_iff in H2 as [Hu1 Hu2].
  set (resp3 := if bool_decide (resolved (APIClientToken config) _ = "")
                then _ else _).
  assert (diag.HasError (Diagnostics resp3) =
          bool_decide (resolved (URL config) (os.Getenv env "PFSENSEV2_URL") = "") ||
          bool_decide (resolved (APIClientUsername config)
                         (os.Getenv env "PFSENSEV2_API_USERNAME") = "") ||
          bool_decide (resolved (APIClientToken config)
                         (os.Getenv env "PFSENSEV2_API_TOKEN") = "")) as H3.
  { unfold resp3. by rewrite !add_if_HasError, E2. }
  assert (DataSourceData resp3 = DataSourceData resp ∧
          ResourceData resp3 = ResourceData resp) as [Hd3 Hr3].
  { unfold resp3.
    repeat match goal with
           | |- context [DataSourceData (if ?c then AddAttributeError ?r ?p ?s ?d else _)] =>
               destruct (add_if_frame c r p s d) as [-> ->]
           end.
    done. }
  destruct (diag.HasError (Diagnostics resp3)) eqn:E3.
  { right. split; [|by rewrite E3].
    intros (_ & _ & _ & Hm1 & Hm2 & Hm3).
    by rewrite !bool_decide_eq_false_2 in H3 by done. }
  left. symmetry in H3. apply orb_false_iff in H3 as [H3 Hm3].
  apply orb_false_iff in H3 as [Hm1 Hm2].
  apply bool_decide_eq_false in Hm1, Hm2, Hm3.
  by repeat split.
Qed.

(** X24: this [Configure] does not stop at the first value that is
    missing: when nothing is unknown, each of the URL, the user name and
    the token that resolves to the empty string has its own error, at its
    own attribute, among the diagnostics of the response. *)
Theorem scaffold_Configure_reports_every_missing_value req resp :
  diag.HasError (Diagnostics resp) = false →
  diag.HasError (snd (Config_Get req)) = false →
  types.String_IsUnknown (URL (fst (Config_Get req))) ||
  types.String_IsUnknown (APIClientUsername (fst (Config_Get req))) ||
  types.String_IsUnknown (APIClientToken (fst (Config_Get req))) ||
  types.Bool_IsUnknown (Insecure (fst (Config_Get req))) = false →
  (resolved (URL (fst (Config_Get req))) (os.Getenv env "PFSENSEV2_URL") = "" →
   diag.NewAttributeErrorDiagnostic "url"
     "Missing PFSenseV2 URL" missing_url_detail
   ∈ Diagnostics (Configure env req resp)) ∧
  (resolved (APIClientUsername (fst (Config_Get req)))
     (os.Getenv env "PFSENSEV2_API_USERNAME") = "" →
   diag.NewAttributeErrorDiagnostic "api_client_username"
     "Missing PFSenseV2 API Client Username" missing_username_detail
   ∈ Diagnostics (Configure env req resp)) ∧
  (resolved (APIClientToken (fst (Config_Get req)))
     (os.Getenv env "PFSENSEV2_API_TOKEN") = "" →
   diag.NewAttributeErrorDiagnostic "api_client_token"
     "Missing PFSenseV2 API Client Token" missing_token_detail
   ∈ Diagnostics (Configure env req resp)).
Proof.
  intros Hr Hc Hu. unfold Configure.
  rewrite (surjective_pairing (Config_Get req)). cbv beta iota zeta.
  cbn [fst snd]. rewrite !resolved_eq.
  set (config := fst (Config_Get req)) in *.
  set (resp1 := with_Diagnostics resp _).
  assert (diag.HasError (Diagnostics resp1) = false) as E1.
  { unfold resp1. cbn [with_Diagnostics Diagnostics].
    by rewrite diag_facts.HasError_Append, Hr, Hc. }
  rewrite E1.
  apply orb_false_iff in Hu as [Hu Hu4]. apply orb_false_iff in Hu as [Hu Hu3].
  apply orb_false_iff in Hu as [Hu1 Hu2].
  rewrite Hu1, Hu2, Hu3, Hu4, E1.
  set (url := resolved (URL config) _).
  set (username := resolved (APIClientUsername config) _).
  set (token := resolved (APIClientToken config) _).
  set (resp2 := if bool_decide (url = "") then _ else resp1).
  set (resp3 := if bool_decide (username = "") then _ else resp2).
  set (resp4 := if bool_decide (token = "") then _ else resp3).
  assert (Diagnostics resp2 `prefix_of` Diagnostics resp3) as H23
    by apply add_if_prefix.
  assert (Diagnostics resp3 `prefix_of` Diagnostics resp4) as H34
    by apply add_if_prefix.
  assert (∀ d, d ∈ Diagnostics resp4 →
               d ∈ Diagnostics
                     (if diag.HasError (Diagnostics resp4) then resp4
                      else {| Diagnostics := Diagnostics resp4;
                              DataSourceData := http_DefaultClient;
                              ResourceData := http_DefaultClient |})) as Hlast
    by (intros d Hd; by destruct (diag.HasError (Diagnostics resp4))).
  split; [|split]; intros Hempty; apply Hlast.
  - apply (prefix_elem_of _ _ _ H34), (prefix_elem_of _ _ _ H23).
    apply add_if_elem. by apply bool_decide_eq_true_2.
  - apply (prefix_elem_of _ _ _ H34).
    apply add_if_elem. by apply bool_decide_eq_true_2.
  - apply add_if_elem. by apply bool_decide_eq_true_2.
Qed.

(** X25: the insecure flag has no effect on this [Configure]: two
    configurations that differ only in a known or null insecure attribute,
    with or without the variable PFSENSEV2_INSECURE in the environment,
    give the same response. *)
Theorem scaffold_Configure_ignores_insecure value diags c1 c2 resp :
  URL c1 = URL c2 →
  APIClientUsername c1 = APIClientUsername c2 →
  APIClientToken c1 = APIClientToken c2 →
  Insecure c1 ≠ types.BoolUnknown →
  Insecure c2 ≠ types.BoolUnknown →
  Configure (<["PFSENSEV2_INSECURE" := value]> env)
    {| Config_Get := (c1, diags) |} resp =
  Configure env {| Config_Get := (c2, diags) |} resp.
Proof.
  intros Hurl Hu Ht Hi1 Hi2. unfold Configure. cbn [Config_Get].
  rewrite Hurl, Hu, Ht, !configure_more.Getenv_insert_ne by done.
  by destruct (Insecure c1), (Insecure c2).
Qed.

End configure.

Lemma scaffold_Configure_reports_every_missing_value_witness :
  let resp' :=
    Configure ∅ {| Config_Get := (examples.scaffold_unset, []) |}
      examples.scaffold_fresh_response in
  diag.NewAttributeErrorDiagnostic "url"
    "Missing PFSenseV2 URL" missing_url_detail ∈ Diagnostics resp' ∧
  diag.NewAttributeErrorDiagnostic "api_client_username"
    "Missing PFSenseV2 API Client Username" missing_username_detail
    ∈ Diagnostics resp' ∧
  diag.NewAttributeErrorDiagnostic "api_client_token"
    "Missing PFSenseV2 API Client Token" missing_token_detail
    ∈ Diagnostics resp'.
Proof.
  destruct (scaffold_Configure_reports_every_missing_value ∅
              {| Config_Get := (examples.scaffold_unset, []) |}
              examples.scaffold_fresh_response eq_refl eq_refl eq_refl)
    as (Hurl & Husername & Htoken).
  split; [exact (Hurl eq_refl)|].
  split; [exact (Husername eq_refl)|exact (Htoken eq_refl)].
Defined.

Lemma scaffold_Configure_ignores_insecure_witness :
  Configure (<["PFSENSEV2_INSECURE" := "1"]> ∅)
    {| Config_Get := (examples.scaffold_unset, []) |}
    examples.scaffold_fresh_response =
  Configure ∅
    {| Config_Get :=
         ({| URL := types.StringNull;
             Insecure := types.BoolValue true;
             APIClientUsername := types.StringNull;
             APIClientToken := types.StringNull |}, []) |}
    examples.scaffold_fresh_response.
Proof.
  apply (scaffold_Configure_ignores_insecure ∅ "1" [] examples.scaffold_unset
           {| URL := types.StringNull;
              Insecure := types.BoolValue true;
              APIClientUsername := types.StringNull;
              APIClientToken := types.StringNull |}
           examples.scaffold_fresh_response eq_refl eq_refl eq_refl);
    discriminate.
Defined.

End scaffold_more.
